(** * Vibe Coder's Catch: the round-simulation core, embedded and verified

    A shallow embedding of the rule-bearing part of the game:
    - [config.py]      the constant tables ([Config]);
    - [game_state.py]  the upgrade economy ([GameState]);
    - [fishing.py]     the hook and its caught list ([FishingLine]);
    - [fish.py]        catch detection, round value, spawning and zone
                       selection ([Rect], [Fish], [FishManager]);
    - [ui.py]          the buttons and what a click on them means ([UI]);
    - [main.py]        round settlement, clicks and frames ([Game]).

    Python integers are unbounded, so they are [Z]; the fields of a
    [pygame.Rect] are C integers of 32 bits, so the center computed from
    them wraps around and an assignment out of their range raises
    [TypeError].  Depths are
    floats that are only ever compared with integers; they are rationals
    ([Q]) with exact comparison, which is what the floats give while a
    depth is a multiple of 1/2 of at most 2^52 halves, and the theorems on
    depths carry that bound.  Dictionaries keyed by strings whose order is
    never observed are [gmap string _]; [Config.DEPTH_ZONES], whose key
    order is observed, is an association list.  Fish are Python objects
    shared between the sprite group and the caught lists, so they live in
    a store and the lists hold references. *)

From Stdlib Require Import ZArith QArith Reals Lia Psatz.
From stdpp Require Import base gmap strings list.

Local Open Scope string_scope.
Local Open Scope Z_scope.

(** ** Exceptions and results *)

(** The exceptions the modelled code can raise.  [DanglingRef] has no
    Python counterpart: it is what the model answers when a reference is
    not in the store, which a Python program cannot observe. *)
Inductive exn : Type :=
| KeyError (key : string)
| IndexError
| TypeError
| DanglingRef (r : nat).

Inductive result (A : Type) : Type :=
| Ok (a : A)
| Raise (e : exn).

Arguments Ok {A} a.
Arguments Raise {A} e.

Definition bind {A B : Type} (m : result A) (k : A -> result B) : result B :=
  match m with
  | Ok a => k a
  | Raise e => Raise e
  end.

Notation "'let*' x ':=' m 'in' k" := (bind m (fun x => k))
  (at level 10, x pattern, m at level 100, k at level 200).

(** ** Python built-ins used by the source *)

Module Py.

(** [len(l)] *)
Definition len {A : Type} (l : list A) : Z := Z.of_nat (length l).

(** [d[key]] on a dictionary: raises [KeyError] on a missing key. *)
Definition dict_getitem {V : Type} (d : gmap string V) (key : string) : result V :=
  match d !! key with
  | Some v => Ok v
  | None => Raise (KeyError key)
  end.

(** [l[i]] on a list: a negative index counts from the end, anything
    outside [-len, len) raises [IndexError]. *)
Definition list_getitem {A : Type} (l : list A) (i : Z) : result A :=
  let j := if i <? 0 then len l + i else i in
  if j <? 0 then Raise IndexError
  else match l !! Z.to_nat j with
       | Some a => Ok a
       | None => Raise IndexError
       end.

(** [l[:k]]: a negative bound counts from the end; bounds are clipped. *)
Definition slice_to {A : Type} (l : list A) (k : Z) : list A :=
  let j := if k <? 0 then len l + k else k in
  take (Z.to_nat j) l.

(** [x in l] for a list of strings (equality of values). *)
Definition str_in (x : string) (l : list string) : bool := bool_decide (x ∈ l).

(** [x in l] for a list of objects that do not override [__eq__]
    (pygame sprites): identity of references. *)
Definition ref_in (x : nat) (l : list nat) : bool := bool_decide (x ∈ l).

(** [sum(l)]: left to right from 0. *)
Definition sum (l : list Z) : Z := foldl Z.add 0 l.

(** Association-list view of an insertion-ordered dictionary. *)
Fixpoint odict_get {V : Type} (d : list (string * V)) (key : string) : option V :=
  match d with
  | [] => None
  | (k, v) :: d' => if String.eqb k key then Some v else odict_get d' key
  end.

Definition odict_keys {V : Type} (d : list (string * V)) : list string := d.*1.

(** [l.index(x)] when [x in l], [None] when it is not (where Python
    raises [ValueError]; the source only calls it behind an [in] test). *)
Fixpoint index (x : string) (l : list string) : option Z :=
  match l with
  | [] => None
  | y :: l' => if String.eqb y x then Some 0 else Z.succ <$> index x l'
  end.

(** [random.choice(l)]: [draw] is the random number behind the call; an
    empty sequence raises [IndexError]. *)
Definition choice {A : Type} (draw : nat) (l : list A) : result A :=
  match l !! (draw mod length l)%nat with
  | Some a => Ok a
  | None => Raise IndexError
  end.

(** [random.randint(a, b)] for [a <= b]: [None] stands for the
    [ValueError] of an empty range. *)
Definition randint (draw : nat) (a b : Z) : option Z :=
  if b <? a then None else Some (a + Z.of_nat draw mod (b - a + 1)).

(** [int(x)] on a float: truncation towards zero. *)
Definition int (x : Q) : Z := Qnum x ÷ Zpos (Qden x).

(** [a // b] on integers is [Z.div] (floor), [max] is [Z.max]. *)

End Py.

(** ** config.py *)

Module Config.

Definition SCREEN_WIDTH : Z := 800.
Definition SCREEN_HEIGHT : Z := 600.

Definition BASE_ROUND_DURATION : Z := 10000.
Definition BASE_HOOK_CAPACITY : Z := 4.
Definition BASE_MAX_DEPTH : Z := 300.

Definition UPGRADE_COSTS : gmap string (list Z) :=
  list_to_map
    [ ("line_length",   [100; 250; 500; 1000; 2000]);
      ("hook_capacity", [200; 400; 800; 1600; 3200]);
      ("round_timer",   [150; 300; 600; 1200; 2400]) ].

Definition DEPTH_INCREASE_PER_LEVEL : Z := 100.
Definition CAPACITY_INCREASE_PER_LEVEL : Z := 1.
Definition TIMER_INCREASE_PER_LEVEL : Z := 5000.

Definition DEPTH_ZONES : list (string * (Z * Z)) :=
  [ ("surface",   (0, 100));
    ("shallows",  (101, 200));
    ("mid_water", (201, 300));
    ("deep_sea",  (301, 400));
    ("abyss",     (401, 500)) ].

(** The speeds of the line: half a unit down per frame (a float, exact
    in binary), five units up. *)
Definition BASE_LINE_SPEED : Q := 1 # 2.
Definition BASE_REEL_SPEED : Z := 5.

Definition PLAYER_POS_X : Z := SCREEN_WIDTH / 2.
Definition PLAYER_POS_Y : Z := 50.

Definition UI_PADDING : Z := 10.
Definition BUTTON_WIDTH : Z := 200.
Definition BUTTON_HEIGHT : Z := 50.

End Config.

(** ** game_state.py *)

Module GameState.

Record t : Type := mk {
  coins : Z;
  upgrades : gmap string Z;
  power_ups : gmap string Z;
  unlocked_zones : list string;
  total_fish_caught : Z;
  total_coins_earned : Z;
  deepest_depth_reached : Q
}.

Definition set_coins (v : Z) (s : t) : t :=
  mk v (upgrades s) (power_ups s) (unlocked_zones s)
     (total_fish_caught s) (total_coins_earned s) (deepest_depth_reached s).
Definition set_upgrades (v : gmap string Z) (s : t) : t :=
  mk (coins s) v (power_ups s) (unlocked_zones s)
     (total_fish_caught s) (total_coins_earned s) (deepest_depth_reached s).
Definition set_power_ups (v : gmap string Z) (s : t) : t :=
  mk (coins s) (upgrades s) v (unlocked_zones s)
     (total_fish_caught s) (total_coins_earned s) (deepest_depth_reached s).
Definition set_unlocked_zones (v : list string) (s : t) : t :=
  mk (coins s) (upgrades s) (power_ups s) v
     (total_fish_caught s) (total_coins_earned s) (deepest_depth_reached s).
Definition set_total_fish_caught (v : Z) (s : t) : t :=
  mk (coins s) (upgrades s) (power_ups s) (unlocked_zones s)
     v (total_coins_earned s) (deepest_depth_reached s).
Definition set_total_coins_earned (v : Z) (s : t) : t :=
  mk (coins s) (upgrades s) (power_ups s) (unlocked_zones s)
     (total_fish_caught s) v (deepest_depth_reached s).
Definition set_deepest_depth_reached (v : Q) (s : t) : t :=
  mk (coins s) (upgrades s) (power_ups s) (unlocked_zones s)
     (total_fish_caught s) (total_coins_earned s) v.

Definition initial_upgrades : gmap string Z :=
  list_to_map [("line_length", 0); ("hook_capacity", 0); ("round_timer", 0)].

Definition initial_power_ups : gmap string Z :=
  list_to_map [("coin_multiplier", 0); ("rare_fish_lure", 0);
               ("magnet_hook", 0); ("depth_rush", 0)].

(** [__init__] *)
Definition init : t :=
  mk 0 initial_upgrades initial_power_ups ["surface"] 0 0 0%Q.

Definition add_coins (amount : Z) (s : t) : t :=
  let s := set_coins (coins s + amount) s in
  set_total_coins_earned (total_coins_earned s + amount) s.

Definition get_coins (s : t) : Z := coins s.

Definition _update_unlocked_zones (s : t) : result t :=
  let zones := Py.odict_keys Config.DEPTH_ZONES in
  let* level := Py.dict_getitem (upgrades s) "line_length" in
  let unlocked_count := Z.min (Py.len zones) (level + 1) in
  Ok (set_unlocked_zones (Py.slice_to zones unlocked_count) s).

Definition purchase_upgrade (upgrade_name : string) (s : t) : result (bool * t) :=
  match upgrades s !! upgrade_name with
  | None => Ok (false, s)
  | Some current_level =>
      let* costs := Py.dict_getitem Config.UPGRADE_COSTS upgrade_name in
      if Py.len costs <=? current_level then Ok (false, s)
      else
        let* cost := Py.list_getitem costs current_level in
        if coins s <? cost then Ok (false, s)
        else
          let s := set_coins (coins s - cost) s in
          let s := set_upgrades (<[upgrade_name := current_level + 1]> (upgrades s)) s in
          let* s := _update_unlocked_zones s in
          Ok (true, s)
  end.

Definition purchase_power_up (power_up_name : string) (cost : Z) (s : t) : bool * t :=
  match power_ups s !! power_up_name with
  | None => (false, s)
  | Some n =>
      if coins s <? cost then (false, s)
      else
        let s := set_coins (coins s - cost) s in
        (true, set_power_ups (<[power_up_name := n + 1]> (power_ups s)) s)
  end.

Definition use_power_up (power_up_name : string) (s : t) : bool * t :=
  match power_ups s !! power_up_name with
  | None => (false, s)
  | Some n =>
      if n <=? 0 then (false, s)
      else (true, set_power_ups (<[power_up_name := n - 1]> (power_ups s)) s)
  end.

Definition get_max_depth (s : t) : result Z :=
  let base_depth := Config.BASE_MAX_DEPTH in
  let* level := Py.dict_getitem (upgrades s) "line_length" in
  let depth_increase := level * Config.DEPTH_INCREASE_PER_LEVEL in
  Ok (base_depth + depth_increase).

Definition get_hook_capacity (s : t) : result Z :=
  let base_capacity := Config.BASE_HOOK_CAPACITY in
  let* level := Py.dict_getitem (upgrades s) "hook_capacity" in
  let capacity_increase := level * Config.CAPACITY_INCREASE_PER_LEVEL in
  Ok (base_capacity + capacity_increase).

Definition get_round_duration (s : t) : result Z :=
  let base_duration := Config.BASE_ROUND_DURATION in
  let* level := Py.dict_getitem (upgrades s) "round_timer" in
  let duration_increase := level * Config.TIMER_INCREASE_PER_LEVEL in
  Ok (base_duration + duration_increase).

Definition get_unlocked_zones (s : t) : list string := unlocked_zones s.

Definition update_stats (depth : Q) (fish_caught : Z) (s : t) : t :=
  let s := set_total_fish_caught (total_fish_caught s + fish_caught) s in
  if Qlt_le_dec (deepest_depth_reached s) depth
  then set_deepest_depth_reached depth s
  else s.

(** The dictionary [save_data]: a field-named record in which every key
    may be absent.  [json.dump] followed by [json.load] returns an equal
    dictionary for the values [save_game] writes (integers, strings,
    lists of strings and string-keyed dictionaries of integers), so the
    file in between is not modelled. *)
Record stats_record : Type := mk_stats {
  st_total_fish_caught : option Z;
  st_total_coins_earned : option Z;
  st_deepest_depth_reached : option Q
}.

Record save_record : Type := mk_save {
  sv_coins : option Z;
  sv_upgrades : option (gmap string Z);
  sv_power_ups : option (gmap string Z);
  sv_unlocked_zones : option (list string);
  sv_stats : option stats_record
}.

(** [d.get(key, dflt)] *)
Definition get {A : Type} (field : option A) (dflt : A) : A := default dflt field.

(** The dictionary [save_game] hands to [json.dump]. *)
Definition save_game (s : t) : save_record :=
  mk_save (Some (coins s)) (Some (upgrades s)) (Some (power_ups s))
          (Some (unlocked_zones s))
          (Some (mk_stats (Some (total_fish_caught s))
                          (Some (total_coins_earned s))
                          (Some (deepest_depth_reached s)))).

(** [load_game]: [file] is [None] when the save file does not exist,
    otherwise the dictionary [json.load] returned. *)
Definition load_game (file : option save_record) (s : t) : bool * t :=
  match file with
  | None => (false, s)
  | Some save_data =>
      let s := set_coins (get (sv_coins save_data) 0) s in
      let s := set_upgrades (get (sv_upgrades save_data) (upgrades s)) s in
      let s := set_power_ups (get (sv_power_ups save_data) (power_ups s)) s in
      let s := set_unlocked_zones (get (sv_unlocked_zones save_data) ["surface"]) s in
      let stats := get (sv_stats save_data) (mk_stats None None None) in
      let s := set_total_fish_caught (get (st_total_fish_caught stats) 0) s in
      let s := set_total_coins_earned (get (st_total_coins_earned stats) 0) s in
      let s := set_deepest_depth_reached (get (st_deepest_depth_reached stats) 0%Q) s in
      (true, s)
  end.

Definition reset_progress (s : t) : t :=
  let s := set_coins 0 s in
  let s := set_upgrades initial_upgrades s in
  let s := set_power_ups initial_power_ups s in
  let s := set_unlocked_zones ["surface"] s in
  let s := set_total_fish_caught 0 s in
  let s := set_total_coins_earned 0 s in
  set_deepest_depth_reached 0%Q s.

End GameState.

(** ** pygame.Rect: integer rectangles *)

Module Rect.

Record t : Type := mk { x : Z; y : Z; width : Z; height : Z }.

(** The four fields are C [int]s of 32 bits: a sum computed on them wraps
    around, and a Python integer outside [INT_MIN .. INT_MAX] cannot be
    assigned to them. *)
Definition INT_MIN : Z := - 2 ^ 31.
Definition INT_MAX : Z := 2 ^ 31 - 1.

Definition is_int (v : Z) : bool := (INT_MIN <=? v) && (v <=? INT_MAX).

Definition wrap (v : Z) : Z := (v - INT_MIN) mod 2 ^ 32 + INT_MIN.

(** [rect.center]: pygame computes [x + w / 2] on C [int]s, with C
    integer division. *)
Definition centerx (r : t) : Z := wrap (x r + width r ÷ 2).
Definition centery (r : t) : Z := wrap (y r + height r ÷ 2).
Definition center (r : t) : Z * Z := (centerx r, centery r).

(** [rect.collidepoint(p)]: left and top edges are inside, right and
    bottom edges are not. *)
Definition collidepoint (r : t) (p : Z * Z) : bool :=
  (x r <=? p.1) && (p.1 <? x r + width r) &&
  (y r <=? p.2) && (p.2 <? y r + height r).

(** [rect.centerx = v] and [rect.top = v]: the rectangle is moved, its
    size is kept.  A value that is no C [int] is refused with
    [TypeError] ("invalid rect assignment"); the new [x] is computed on C
    [int]s. *)
Definition set_centerx (v : Z) (r : t) : result t :=
  if is_int v then Ok (mk (wrap (v - width r ÷ 2)) (y r) (width r) (height r))
  else Raise TypeError.

Definition set_top (v : Z) (r : t) : result t :=
  if is_int v then Ok (mk (x r) v (width r) (height r))
  else Raise TypeError.

Definition top (r : t) : Z := y r.
Definition left (r : t) : Z := x r.
Definition right (r : t) : Z := x r + width r.
Definition bottom (r : t) : Z := y r + height r.

End Rect.

(** ** fish.py: the Fish sprite *)

Module Fish.

(** An entry of the species catalog ([initialize_fish_data]). *)
Record data : Type := mk_data {
  d_name : string;
  d_image : string;
  d_rarity : string;
  d_value : Z;
  d_depth_range : string
}.

Record t : Type := mk {
  name : string;
  rarity : string;
  value : Z;
  depth_range : string;
  rect : Rect.t;
  direction : Z;
  speed : Q;
  caught : bool
}.

Definition set_caught (v : bool) (f : t) : t :=
  mk (name f) (rarity f) (value f) (depth_range f) (rect f)
     (direction f) (speed f) v.

(** [__init__]: the random draws (direction, speed, position) have been
    made by the caller and arrive as the rectangle, direction and speed. *)
Definition init (fish_data : data) (r : Rect.t) (dir : Z) (spd : Q) : t :=
  mk (d_name fish_data) (d_rarity fish_data) (d_value fish_data)
     (d_depth_range fish_data) r dir spd false.

Definition catch (f : t) : bool * t :=
  if negb (caught f) then (true, set_caught true f) else (false, f).

Definition get_value (f : t) : Z := value f.

(** [__init__] with its random draws: the sprite image is [size] wide and
    high, [dir_draw] picks the direction from [[-1, 1]], [spd] is the
    speed [random.uniform] returned, [y_draw] picks the row inside
    [depth_zone].  [None] is the [ValueError] of [random.randint] on an
    empty [depth_zone]. *)
Definition init_random (fish_data : data) (depth_zone : Z * Z) (size : Z * Z)
           (dir_draw : nat) (spd : Q) (y_draw : nat) : option t :=
  let dir := if (dir_draw mod 2 =? 0)%nat then -1 else 1 in
  y0 ← Py.randint y_draw depth_zone.1 depth_zone.2;
  let x0 := if dir =? -1 then Config.SCREEN_WIDTH + size.1 else - size.1 in
  Some (init fish_data (Rect.mk x0 y0 size.1 size.2) dir spd).

(** The test of [update] (lines 79-81) that removes a fish from its
    groups. *)
Definition off_screen (f : t) : bool :=
  ((direction f =? -1) && (Rect.right (rect f) <? 0))
  || ((direction f =? 1) && (Config.SCREEN_WIDTH <? Rect.left (rect f)))
  || (Config.SCREEN_HEIGHT <? Rect.top (rect f)).

End Fish.

(** The store of fish objects; sprite groups and caught lists hold
    references into it. *)
Abbreviation heap := (gmap nat Fish.t).

Definition deref (h : heap) (r : nat) : result Fish.t :=
  match h !! r with
  | Some f => Ok f
  | None => Raise (DanglingRef r)
  end.

(** ** fishing.py *)

Module FishingLine.

Record t : Type := mk {
  current_depth : Q;
  descending : bool;
  hook_rect : Rect.t;
  horizontal_offset : Z;
  caught_fish : list nat
}.

Definition set_caught_fish (v : list nat) (l : t) : t :=
  mk (current_depth l) (descending l) (hook_rect l) (horizontal_offset l) v.

(** [self.game_state] is a reference to the game's [GameState] (or
    [None]); the state it refers to at the time of the call is the
    argument [game_state]. *)
Definition get_max_depth (game_state : option GameState.t) : result Z :=
  match game_state with
  | Some gs => GameState.get_max_depth gs
  | None => Ok Config.BASE_MAX_DEPTH
  end.

Definition get_hook_capacity (game_state : option GameState.t) : result Z :=
  match game_state with
  | Some gs => GameState.get_hook_capacity gs
  | None => Ok Config.BASE_HOOK_CAPACITY
  end.

Definition add_caught_fish (game_state : option GameState.t) (fish : nat) (l : t)
  : result (bool * t) :=
  let* capacity := get_hook_capacity game_state in
  if Py.len (caught_fish l) <? capacity then
    if negb (Py.ref_in fish (caught_fish l)) then
      Ok (true, set_caught_fish (caught_fish l ++ [fish]) l)
    else Ok (false, l)
  else Ok (false, l).

Definition is_at_capacity (game_state : option GameState.t) (l : t) : result bool :=
  let* capacity := get_hook_capacity game_state in
  Ok (capacity <=? Py.len (caught_fish l)).

Definition get_hook_rect (l : t) : Rect.t := hook_rect l.
Definition get_current_depth (l : t) : Q := current_depth l.
Definition get_caught_fish (l : t) : list nat := caught_fish l.

Definition reset (l : t) : t :=
  mk (current_depth l) true (hook_rect l) 0 [].

Definition full_reset (l : t) : t :=
  mk 0%Q true (hook_rect l) 0 [].

Definition hook_fixed_y : Z := Config.SCREEN_HEIGHT / 2.
Definition max_horizontal_range : Z := 350.

(** [update]: [start_pos] is what [self.player.get_rod_position()]
    returns.  [current_depth] is a Python number: the integer 0 or the
    maximum depth, or a float reached from one of them in steps of 0.5
    down and 5 up.  The model computes these in [Q], which is what the
    float operations give as long as the depth is a multiple of 1/2 of
    magnitude at most 2^52; what is proved of depths below is proved
    under that bound.  The assignment to [hook_rect.centerx] comes after
    the depth has been changed; when it raises, nothing catches the
    exception and the game stops, so no state is kept for that case. *)
Definition update (game_state : option GameState.t) (start_pos : Z * Z) (l : t)
  : result t :=
  let* l :=
    if descending l then
      let depth := Qplus (current_depth l) Config.BASE_LINE_SPEED in
      let* max_depth := get_max_depth game_state in
      if Qle_bool (inject_Z max_depth) depth
      then Ok (mk (inject_Z max_depth) (descending l) (hook_rect l)
                  (horizontal_offset l) (caught_fish l))
      else Ok (mk depth (descending l) (hook_rect l)
                  (horizontal_offset l) (caught_fish l))
    else
      let depth := Qminus (current_depth l) (inject_Z Config.BASE_REEL_SPEED) in
      if Qle_bool depth 0
      then Ok (mk 0%Q true (hook_rect l) 0 [])
      else Ok (mk depth (descending l) (hook_rect l)
                  (horizontal_offset l) (caught_fish l)) in
  let* rect := Rect.set_centerx (start_pos.1 + horizontal_offset l) (hook_rect l) in
  let* rect := Rect.set_top hook_fixed_y rect in
  Ok (mk (current_depth l) (descending l) rect (horizontal_offset l) (caught_fish l)).

Definition reached_max_depth (game_state : option GameState.t) (l : t) : result bool :=
  let* max_depth := get_max_depth game_state in
  Ok (Qle_bool (inject_Z max_depth) (current_depth l) && negb (descending l)).

(** [n] consecutive calls of [update]. *)
Fixpoint updates (n : nat) (game_state : option GameState.t) (start_pos : Z * Z) (l : t)
  : result t :=
  match n with
  | O => Ok l
  | S n' => let* l' := update game_state start_pos l in
            updates n' game_state start_pos l'
  end.

End FishingLine.

(** ** fish.py: the FishManager *)

Module FishManager.

Record t : Type := mk {
  all_fish : list nat;      (* the sprite group, in insertion order *)
  caught_fish : list nat
}.

Definition initialize_fish_data : list Fish.data :=
  [ Fish.mk_data "Clownfish"  "fish/clownfish.png"  "Common"    10  "surface";
    Fish.mk_data "Blue Tang"  "fish/blue_tang.png"  "Common"    15  "surface";
    Fish.mk_data "Yellowtail" "fish/yellowtail.png" "Uncommon"  25  "shallows";
    Fish.mk_data "Grouper"    "fish/grouper.png"    "Uncommon"  35  "shallows";
    Fish.mk_data "Tuna"       "fish/tuna.png"       "Rare"      50  "mid_water";
    Fish.mk_data "Swordfish"  "fish/swordfish.png"  "Rare"      75  "mid_water";
    Fish.mk_data "Angler"     "fish/angler.png"     "Epic"      100 "deep_sea";
    Fish.mk_data "Oarfish"    "fish/oarfish.png"    "Epic"      150 "deep_sea";
    Fish.mk_data "Kraken"     "fish/kraken.png"     "Legendary" 300 "abyss" ].

(** *** Zone selection *)

(** [min_depth <= current_depth <= max_depth] *)
Definition depth_in (current_depth : Q) (bounds : Z * Z) : bool :=
  Qle_bool (inject_Z bounds.1) current_depth &&
  Qle_bool current_depth (inject_Z bounds.2).

(** The loop [for zone, (min_depth, max_depth) in Config.DEPTH_ZONES.items()]
    with its [break]: the first zone whose interval holds the depth,
    else the value [current_zone] had before the loop. *)
Fixpoint zone_loop (zones : list (string * (Z * Z))) (current_depth : Q)
         (current_zone : string) : string :=
  match zones with
  | [] => current_zone
  | (zone, bounds) :: zones' =>
      if depth_in current_depth bounds then zone
      else zone_loop zones' current_depth current_zone
  end.

(** [spawn_fish], lines 306-311: the current zone. *)
Definition spawn_fish_current_zone (current_depth : Q) : string :=
  zone_loop Config.DEPTH_ZONES current_depth "surface".

(** [spawn_fish], lines 344-349: the species that may spawn in
    [zone_name]. *)
Definition spawn_fish_valid_fish (fish_data : list Fish.data) (zone_name : string)
           (current_depth : Q) : list Fish.data :=
  if Qlt_le_dec 500 current_depth then fish_data
  else filter (fun fish => Fish.d_depth_range fish = zone_name) fish_data.

(** [draw_background], lines 454-477: the zone whose background is drawn. *)
Definition draw_background_current_zone (current_depth : Q) : string :=
  let current_zone := zone_loop Config.DEPTH_ZONES current_depth "surface" in
  if Qlt_le_dec 500 current_depth then "abyss" else current_zone.

(** *** Catch detection *)

Definition catch_radius : Z := 80.

(** [distance <= r] where [distance = (dx**2 + dy**2)**0.5].  [dx] and
    [dy] are integers (pygame rectangles hold integers), so the sum of
    squares is an exact integer and its float square root is compared
    with the integer [r]; for a radius [r >= 0] that comparison is the
    comparison of the squares. *)
Definition distance_le (dx dy r : Z) : bool := dx ^ 2 + dy ^ 2 <=? r ^ 2.

(** The condition of the [if] at lines 421-422. *)
Definition catch_condition (mouse_pos hook_center : Z * Z) (fish : Fish.t) : bool :=
  let fish_center := Rect.center (Fish.rect fish) in
  let dx := fish_center.1 - hook_center.1 in
  let dy := fish_center.2 - hook_center.2 in
  (Rect.collidepoint (Fish.rect fish) mouse_pos && distance_le dx dy catch_radius)
  || distance_le dx dy 30.

(** What [check_catches] reads and writes: the fish objects, the
    manager itself and the fishing line it is handed. *)
Record world : Type := mk_world {
  w_heap : heap;
  w_self : t;
  w_line : FishingLine.t
}.

(** [fish.catch()] on the object behind the reference. *)
Definition fish_catch (h : heap) (fish : nat) : result (bool * heap) :=
  let* f := deref h fish in
  let '(b, f') := Fish.catch f in
  Ok (b, <[fish := f']> h).

(** [self.all_fish.remove(fish)] *)
Definition group_remove (fish : nat) (group : list nat) : list nat :=
  filter (fun r => r ≠ fish) group.

(** One iteration of the loop of [check_catches]. *)
Definition check_fish (mouse_pos hook_center : Z * Z) (game_state : option GameState.t)
           (st : bool * world) (fish : nat) : result (bool * world) :=
  let '(caught_any, w) := st in
  let* f := deref (w_heap w) fish in
  if Fish.caught f then Ok st
  else if catch_condition mouse_pos hook_center f then
    let* (caught1, h1) := fish_catch (w_heap w) fish in
    if caught1 then
      let* (added, line1) := FishingLine.add_caught_fish game_state fish (w_line w) in
      if added then
        let self1 := mk (group_remove fish (all_fish (w_self w)))
                        (caught_fish (w_self w) ++ [fish]) in
        Ok (true, mk_world h1 self1 line1)
      else Ok (caught_any, mk_world h1 (w_self w) line1)
    else Ok (caught_any, mk_world h1 (w_self w) (w_line w))
  else Ok st.

Fixpoint check_loop (mouse_pos hook_center : Z * Z) (game_state : option GameState.t)
         (sprites : list nat) (st : bool * world) : result (bool * world) :=
  match sprites with
  | [] => Ok st
  | fish :: sprites' =>
      let* st' := check_fish mouse_pos hook_center game_state st fish in
      check_loop mouse_pos hook_center game_state sprites' st'
  end.

(** [check_catches]: the loop runs over [self.all_fish.sprites()], a copy
    of the group taken before the first iteration. *)
Definition check_catches (mouse_pos : Z * Z) (game_state : option GameState.t)
           (w : world) : result (bool * world) :=
  let hook_rect := FishingLine.get_hook_rect (w_line w) in
  let hook_center := Rect.center hook_rect in
  check_loop mouse_pos hook_center game_state (all_fish (w_self w)) (false, w).

Definition reset_round (self : t) : t := mk [] [].

Definition get_caught_fish (self : t) : list nat := caught_fish self.

(** [sum(fish.get_value() for fish in self.caught_fish)] *)
Fixpoint values_of (h : heap) (refs : list nat) : result (list Z) :=
  match refs with
  | [] => Ok []
  | r :: refs' =>
      let* f := deref h r in
      let* vs := values_of h refs' in
      Ok (Fish.get_value f :: vs)
  end.

Definition calculate_round_value (h : heap) (self : t) : result Z :=
  let* vs := values_of h (caught_fish self) in
  Ok (Py.sum vs).

(** *** Spawning *)

(** [spawn_fish], lines 306-334: the zones a fish may be drawn from.
    [unlocked_zones] is not empty here (line 303 has returned
    otherwise). *)
Definition spawn_fish_available_zones (unlocked_zones : list string) (current_depth : Q)
  : result (list string) :=
  let current_zone := spawn_fish_current_zone current_depth in
  let* current_zone :=
    if negb (Py.str_in current_zone unlocked_zones) && negb (bool_decide (unlocked_zones = []))
    then Py.list_getitem unlocked_zones 0
    else Ok current_zone in
  let available_zones :=
    if Py.str_in current_zone unlocked_zones then [current_zone] else [] in
  let zone_list := Py.odict_keys Config.DEPTH_ZONES in
  let* available_zones :=
    match Py.index current_zone zone_list with
    | Some current_index =>
        let* above :=
          if 0 <? current_index then
            let* zone := Py.list_getitem zone_list (current_index - 1) in
            Ok (if Py.str_in zone unlocked_zones then [zone] else [])
          else Ok [] in
        let* below :=
          if current_index <? Py.len zone_list - 1 then
            let* zone := Py.list_getitem zone_list (current_index + 1) in
            Ok (if Py.str_in zone unlocked_zones then [zone] else [])
          else Ok [] in
        Ok (available_zones ++ above ++ below)%list
    | None => Ok available_zones
    end in
  Ok (if bool_decide (available_zones = []) then unlocked_zones else available_zones).

(** [spawn_fish], lines 371-389: the rows a fish of [zone_name] may start
    on.  [None] is the [ValueError] of [list.index] for a name that is not
    a zone.  The products and quotients are floats that are exact in
    binary (quarters times fifty, three quarters of 600). *)
Definition spawn_fish_band (zone_name : string) : option (Z * Z) :=
  let screen_height := inject_Z Config.SCREEN_HEIGHT in
  let spawn_min_y := Qmult screen_height (3 # 4) in
  let spawn_max_y := Qplus screen_height 50 in
  zone_index ← Py.index zone_name (Py.odict_keys Config.DEPTH_ZONES);
  let zone_count := Py.len Config.DEPTH_ZONES in
  let zone_offset :=
    if 1 <? zone_count
    then Qmult (Qdiv (inject_Z zone_index) (inject_Z (zone_count - 1))) 50
    else 0%Q in
  Some (Py.int (Qminus spawn_min_y zone_offset), Py.int (Qminus spawn_max_y zone_offset)).

(** The random numbers one call of [spawn_fish] consumes. *)
Record draws : Type := mk_draws {
  zone_draw : nat;
  fish_draw : nat;
  dir_draw : nat;
  speed_draw : Q;
  y_draw : nat
}.

(** What a call of [spawn_fish] does: add a fish to the group, return
    without one, or raise. *)
Inductive spawned : Type :=
| Spawned (fish : Fish.t)
| NotSpawned
| SpawnRaises (exception : string).

(** [spawn_fish]; [image_size] is the size of the sprite image of a
    species. *)
Definition spawn_fish (unlocked_zones : list string) (fish_data : list Fish.data)
           (image_size : Fish.data -> Z * Z) (current_depth : Q) (d : draws) : spawned :=
  if bool_decide (unlocked_zones = []) then NotSpawned
  else
    match spawn_fish_available_zones unlocked_zones current_depth with
    | Raise _ => SpawnRaises "IndexError"
    | Ok available_zones =>
        match Py.choice (zone_draw d) available_zones with
        | Raise _ => SpawnRaises "IndexError"
        | Ok zone_name =>
            match Py.odict_get Config.DEPTH_ZONES zone_name with
            | None => NotSpawned
            | Some zone_depth =>
                let valid_fish := spawn_fish_valid_fish fish_data zone_name current_depth in
                if bool_decide (valid_fish = []) then NotSpawned
                else
                  match Py.choice (fish_draw d) valid_fish with
                  | Raise _ => SpawnRaises "IndexError"
                  | Ok species =>
                      match spawn_fish_band zone_name with
                      | None => SpawnRaises "ValueError"
                      | Some adjusted_depth =>
                          match Fish.init_random species adjusted_depth (image_size species)
                                  (dir_draw d) (speed_draw d) (y_draw d) with
                          | None => SpawnRaises "ValueError"
                          | Some new_fish => Spawned new_fish
                          end
                      end
                  end
            end
        end
    end.

End FishManager.

(** ** ui.py: buttons and the timer *)

Module UI.

(** [init_ui_elements]: the buttons in the order they enter the
    dictionary. *)
Definition buttons : list (string * Rect.t) :=
  let centered := Config.SCREEN_WIDTH / 2 - Config.BUTTON_WIDTH / 2 in
  let at_right := Config.SCREEN_WIDTH - Config.BUTTON_WIDTH - Config.UI_PADDING in
  let upgrade_y := 180 in
  [ ("continue", Rect.mk centered (Config.SCREEN_HEIGHT - 100)
                         Config.BUTTON_WIDTH Config.BUTTON_HEIGHT);
    ("start", Rect.mk centered (Config.SCREEN_HEIGHT - 150)
                      Config.BUTTON_WIDTH Config.BUTTON_HEIGHT);
    ("reset", Rect.mk centered (Config.SCREEN_HEIGHT - 85)
                      Config.BUTTON_WIDTH Config.BUTTON_HEIGHT);
    ("line_length", Rect.mk at_right upgrade_y
                            Config.BUTTON_WIDTH Config.BUTTON_HEIGHT);
    ("hook_capacity", Rect.mk at_right (upgrade_y + (Config.BUTTON_HEIGHT + 20))
                              Config.BUTTON_WIDTH Config.BUTTON_HEIGHT);
    ("round_timer", Rect.mk at_right
                            (upgrade_y + (Config.BUTTON_HEIGHT + 20)
                                       + (Config.BUTTON_HEIGHT + 20))
                            Config.BUTTON_WIDTH Config.BUTTON_HEIGHT) ].

(** [self.buttons[button_id].collidepoint(mouse_pos)]; a missing button
    raises [KeyError]. *)
Definition button_hit (button_id : string) (mouse_pos : Z * Z) : result bool :=
  match Py.odict_get buttons button_id with
  | Some rect => Ok (Rect.collidepoint rect mouse_pos)
  | None => Raise (KeyError button_id)
  end.

Definition check_continue_button (mouse_pos : Z * Z) : result bool :=
  button_hit "continue" mouse_pos.

Definition check_start_button (mouse_pos : Z * Z) : result bool :=
  button_hit "start" mouse_pos.

Definition check_reset_button (mouse_pos : Z * Z) : result bool :=
  button_hit "reset" mouse_pos.

(** The loop of [check_upgrade_buttons] over the upgrade ids that are
    left. *)
Fixpoint check_upgrade_loop (ids : list string) (game_state : GameState.t)
         (mouse_pos : Z * Z) : result (option string) :=
  match ids with
  | [] => Ok None
  | upgrade_id :: ids' =>
      let* hit := button_hit upgrade_id mouse_pos in
      if hit then
        let* level := Py.dict_getitem (GameState.upgrades game_state) upgrade_id in
        let* costs := Py.dict_getitem Config.UPGRADE_COSTS upgrade_id in
        if Py.len costs <=? level then Ok None
        else
          let* cost := Py.list_getitem costs level in
          if GameState.get_coins game_state <? cost then Ok None
          else Ok (Some upgrade_id)
      else check_upgrade_loop ids' game_state mouse_pos
  end.

Definition check_upgrade_buttons (game_state : GameState.t) (mouse_pos : Z * Z)
  : result (option string) :=
  check_upgrade_loop ["line_length"; "hook_capacity"; "round_timer"] game_state mouse_pos.

(** [update_shop_hover]: the new value of [self.hover_button]. *)
Fixpoint hover_loop (items : list (string * Rect.t)) (mouse_pos : Z * Z) : option string :=
  match items with
  | [] => None
  | (button_id, button_rect) :: items' =>
      if Rect.collidepoint button_rect mouse_pos then Some button_id
      else hover_loop items' mouse_pos
  end.

Definition update_shop_hover (mouse_pos : Z * Z) : option string :=
  hover_loop buttons mouse_pos.

End UI.

(** ** main.py: round settlement *)

Module Game.

Inductive GameScreen : Type := MAIN_GAME | RESULTS | SHOP.

Record t : Type := mk {
  game_state : GameState.t;
  fishing_line : FishingLine.t;
  fish_manager : FishManager.t;
  fish_objects : heap;
  current_screen : GameScreen;
  round_active : bool;
  round_start_time : Z;
  round_timer : Z
}.

(** [end_round]; playing the sound has no effect on the state. *)
Definition end_round (g : t) : result t :=
  let round_active1 := false in
  let* round_value :=
    FishManager.calculate_round_value (fish_objects g) (fish_manager g) in
  let game_state1 := GameState.add_coins round_value (game_state g) in
  Ok (mk game_state1 (fishing_line g) (fish_manager g) (fish_objects g)
         RESULTS round_active1 (round_start_time g) (round_timer g)).

(** [update], lines 130-140: the horizontal offset the mouse asks for,
    limited to the range of the line. *)
Definition aim (mouse_pos : Z * Z) (rod_pos : Z * Z) (l : FishingLine.t) : FishingLine.t :=
  let rod_pos_x := rod_pos.1 in
  let horizontal_offset := mouse_pos.1 - rod_pos_x in
  let max_range := FishingLine.max_horizontal_range in
  let horizontal_offset :=
    if max_range <? horizontal_offset then max_range
    else if horizontal_offset <? - max_range then - max_range
    else horizontal_offset in
  FishingLine.mk (FishingLine.current_depth l) (FishingLine.descending l)
                 (FishingLine.hook_rect l) horizontal_offset (FishingLine.caught_fish l).

(** The game together with what it leaves outside itself: the save file
    and the sound effects it has asked for, oldest first. *)
Record session : Type := mk_session {
  game : t;
  save_file : option GameState.save_record;
  sounds : list string
}.

Definition play_sfx (sound : string) (ses : session) : session :=
  mk_session (game ses) (save_file ses) (sounds ses ++ [sound])%list.

Definition set_game (g : t) (ses : session) : session :=
  mk_session g (save_file ses) (sounds ses).

(** [__init__], as far as the economy goes: a fresh one with the save
    file, if any, loaded into it. *)
Definition init_game_state (file : option GameState.save_record) : GameState.t :=
  (GameState.load_game file GameState.init).2.

(** [start_round]; [now] is what [pygame.time.get_ticks()] returns. *)
Definition start_round (now : Z) (ses : session) : session :=
  let g := game ses in
  let g := mk (game_state g) (FishingLine.full_reset (fishing_line g))
              (FishManager.reset_round (fish_manager g)) (fish_objects g)
              (current_screen g) true now (round_timer g) in
  play_sfx "cast" (set_game g ses).

Definition set_screen (screen : GameScreen) (g : t) : t :=
  mk (game_state g) (fishing_line g) (fish_manager g) (fish_objects g)
     screen (round_active g) (round_start_time g) (round_timer g).

Definition set_game_state (gs : GameState.t) (g : t) : t :=
  mk gs (fishing_line g) (fish_manager g) (fish_objects g)
     (current_screen g) (round_active g) (round_start_time g) (round_timer g).

(** [handle_events] for one press of the left mouse button at
    [mouse_pos] (lines 93-116). *)
Definition handle_click (mouse_pos : Z * Z) (now : Z) (ses : session) : result session :=
  match current_screen (game ses) with
  | RESULTS =>
      let* hit := UI.check_continue_button mouse_pos in
      if hit then Ok (set_game (set_screen SHOP (game ses)) ses) else Ok ses
  | SHOP =>
      let* upgrade_clicked := UI.check_upgrade_buttons (game_state (game ses)) mouse_pos in
      let* ses :=
        match upgrade_clicked with
        | Some upgrade_id =>
            let* r := GameState.purchase_upgrade upgrade_id (game_state (game ses)) in
            Ok (play_sfx "purchase" (set_game (set_game_state r.2 (game ses)) ses))
        | None => Ok ses
        end in
      let* start := UI.check_start_button mouse_pos in
      let ses :=
        if start
        then start_round now (set_game (set_screen MAIN_GAME (game ses)) ses)
        else ses in
      let* reset := UI.check_reset_button mouse_pos in
      if reset then
        let gs := GameState.reset_progress (game_state (game ses)) in
        let ses := set_game (set_game_state gs (game ses)) ses in
        let ses := mk_session (game ses) (Some (GameState.save_game gs)) (sounds ses) in
        Ok (play_sfx "reset" ses)
      else Ok ses
  | MAIN_GAME => Ok ses
  end.

(** [quit_game], as far as the save file goes. *)
Definition quit_game (ses : session) : session :=
  mk_session (game ses) (Some (GameState.save_game (game_state (game ses)))) (sounds ses).

End Game.

(** * Specification vocabulary *)

(** The three upgrade kinds and the four power-ups of the economy. *)
Definition upgrade_kinds : list string :=
  ["line_length"; "hook_capacity"; "round_timer"].

Definition power_up_names : list string :=
  ["coin_multiplier"; "rare_fish_lure"; "magnet_hook"; "depth_rush"].

(** The fixed zone order. *)
Definition zone_order : list string :=
  ["surface"; "shallows"; "mid_water"; "deep_sea"; "abyss"].

(** An economy whose upgrade dictionary holds exactly the three kinds,
    each at a non-negative level. *)
Definition valid_upgrades (s : GameState.t) : Prop :=
  dom (GameState.upgrades s) = list_to_set upgrade_kinds ∧
  map_Forall (fun _ level => 0 ≤ level) (GameState.upgrades s).

(** An economy whose power-up dictionary holds exactly the four
    power-ups. *)
Definition known_power_ups (s : GameState.t) : Prop :=
  dom (GameState.power_ups s) = list_to_set power_up_names.

(** Every power-up counter is non-negative. *)
Definition power_ups_nonneg (s : GameState.t) : Prop :=
  map_Forall (fun _ n => 0 ≤ n) (GameState.power_ups s).

(** The price of level [level] of an upgrade: entry [level] of its cost
    table, when there is one. *)
Definition cost_at (kind : string) (level : Z) : option Z :=
  if level <? 0 then None
  else costs ← Config.UPGRADE_COSTS !! kind; costs !! Z.to_nat level.

(** The unlocked-zone invariant: the list is the prefix of [zone_order]
    of length [min 5 (line_length + 1)]. *)
Definition zones_consistent (s : GameState.t) : Prop :=
  ∃ level : Z,
    GameState.upgrades s !! "line_length" = Some level ∧
    Py.len (GameState.unlocked_zones s) = Z.min 5 (level + 1) ∧
    GameState.unlocked_zones s = take (Z.to_nat (Z.min 5 (level + 1))) zone_order.

(** The mutators of the economy other than [load_game]. *)
Inductive op : Type :=
| AddCoins (amount : Z)
| PurchaseUpgrade (upgrade_name : string)
| PurchasePowerUp (power_up_name : string) (cost : Z)
| UsePowerUp (power_up_name : string)
| UpdateStats (depth : Q) (fish_caught : Z)
| ResetProgress.

Definition apply_op (o : op) (s : GameState.t) : result GameState.t :=
  match o with
  | AddCoins amount => Ok (GameState.add_coins amount s)
  | PurchaseUpgrade name => let* r := GameState.purchase_upgrade name s in Ok r.2
  | PurchasePowerUp name cost => Ok (GameState.purchase_power_up name cost s).2
  | UsePowerUp name => Ok (GameState.use_power_up name s).2
  | UpdateStats depth n => Ok (GameState.update_stats depth n s)
  | ResetProgress => Ok (GameState.reset_progress s)
  end.

Fixpoint run_ops (ops : list op) (s : GameState.t) : result GameState.t :=
  match ops with
  | [] => Ok s
  | o :: ops' => let* s' := apply_op o s in run_ops ops' s'
  end.

(** The total value of a list of fish. *)
Fixpoint total_value (fishes : list Fish.t) : Z :=
  match fishes with
  | [] => 0
  | f :: fishes' => Fish.value f + total_value fishes'
  end.

(** The pointer lies within a bounding box. *)
Definition within (p : Z * Z) (r : Rect.t) : Prop :=
  Rect.x r ≤ p.1 < Rect.x r + Rect.width r ∧
  Rect.y r ≤ p.2 < Rect.y r + Rect.height r.

(** The Euclidean distance between two points of the integer grid. *)
Definition distance (p q : Z * Z) : R :=
  sqrt (IZR ((p.1 - q.1) ^ 2 + (p.2 - q.2) ^ 2)).

(** A successful purchase, spelled out. *)
Definition purchased (kind : string) (level cost : Z) (s s' : GameState.t) : Prop :=
  GameState.coins s' = GameState.coins s - cost ∧
  GameState.upgrades s' = <[kind := level + 1]> (GameState.upgrades s) ∧
  GameState.power_ups s' = GameState.power_ups s ∧
  GameState.total_fish_caught s' = GameState.total_fish_caught s ∧
  GameState.total_coins_earned s' = GameState.total_coins_earned s ∧
  GameState.deepest_depth_reached s' = GameState.deepest_depth_reached s.

(** The objects behind the references [refs], in order. *)
Definition objects (h : heap) (refs : list nat) (fishes : list Fish.t) : Prop :=
  Forall2 (fun r f => h !! r = Some f) refs fishes.

(** * Example data *)

(** A saved record that names the upgrades but not the unlocked zones:
    what an older or hand-trimmed save file holds. *)
Definition partial_save : GameState.save_record :=
  GameState.mk_save
    (Some 0)
    (Some (list_to_map [("line_length", 2); ("hook_capacity", 0); ("round_timer", 0)]))
    None None None.

Definition a_rect : Rect.t := Rect.mk 390 300 40 20.

Definition clownfish : Fish.t :=
  Fish.mk "Clownfish" "Common" 10 "surface" a_rect 1 1 true.

Definition tuna : Fish.t :=
  Fish.mk "Tuna" "Rare" 50 "mid_water" a_rect (-1) 2 true.

(** A round in which a Clownfish (10) and a Tuna (50) were caught, played
    with 5 coins in the purse. *)
Definition clownfish_tuna_round : Game.t :=
  Game.mk (GameState.add_coins 5 GameState.init)
          (FishingLine.mk 120 true (Rect.mk 390 300 20 20) 0 [0%nat; 1%nat])
          (FishManager.mk [] [0%nat; 1%nat])
          (<[0%nat := clownfish]> (<[1%nat := tuna]> ∅))
          Game.MAIN_GAME true 0 10000.

Definition hooked (fish_name : string) (v : Z) : Fish.t :=
  Fish.mk fish_name "Common" v "surface" (Rect.mk 380 270 40 20) 1 1 true.

Definition swimming (fish_name : string) (v : Z) (left : Z) : Fish.t :=
  Fish.mk fish_name "Common" v "surface" (Rect.mk left 300 40 20) 1 1 false.

(** A hook (capacity 4) that already holds three fish, with two more live
    fish right at the hook in the same tick. *)
Definition crowded_hook : FishManager.world :=
  FishManager.mk_world
    (list_to_map
       [ (0%nat, hooked "Clownfish" 10); (1%nat, hooked "Blue Tang" 15);
         (2%nat, hooked "Clownfish" 10);
         (3%nat, swimming "Blue Tang" 15 378); (4%nat, swimming "Clownfish" 10 384) ])
    (FishManager.mk [3%nat; 4%nat] [0%nat; 1%nat; 2%nat])
    (FishingLine.mk 120 true (Rect.mk 390 300 20 20) 0 [0%nat; 1%nat; 2%nat]).

(** * Vocabulary of the further properties *)

(** No upgrade is above level five. *)
Definition levels_bounded (s : GameState.t) : Prop :=
  map_Forall (fun _ level => level ≤ 5) (GameState.upgrades s).

(** Operations that never hand out a negative amount or a negative
    price. *)
Definition fair (o : op) : Prop :=
  match o with
  | AddCoins amount => 0 ≤ amount
  | PurchasePowerUp _ cost => 0 ≤ cost
  | _ => True
  end.

(** The price of [n] successive levels of an upgrade, from [level] on. *)
Fixpoint path_cost (kind : string) (level : Z) (n : nat) : Z :=
  match n with
  | O => 0
  | S n' => default 0 (cost_at kind level) + path_cost kind (level + 1) n'
  end.

(** The three facts every economy the game reaches satisfies. *)
Definition sound_economy (s : GameState.t) : Prop :=
  valid_upgrades s ∧ levels_bounded s ∧ zones_consistent s.


(** Where a line that started at depth 0 is after [k] frames of descent
    under the limit [max_depth]: [k] halves down, or at the limit. *)
Definition descended (max_depth : Z) (k : Z) (depth : Q) : Prop :=
  (k ≤ 2 * max_depth → (depth == inject_Z k * (1 # 2))%Q) ∧
  (2 * max_depth ≤ k → (depth == inject_Z max_depth)%Q).

(** What a tick may do to a fish object: nothing, or raise its caught
    flag. *)
Definition flagged (f f' : Fish.t) : Prop :=
  f' = f ∨ (Fish.caught f = false ∧ f' = Fish.set_caught true f).

(** The three ways one iteration of [check_catches] can treat the fish
    [r], whose object is [f]: pass over it, catch it, or flag it and have
    the hook refuse it. *)
Inductive treated (game_state : option GameState.t) (mouse_pos hook_center : Z * Z)
          (r : nat) (f : Fish.t) (caught_any : bool) (w : FishManager.world)
  : bool → FishManager.world → Prop :=
| passed_over :
    Fish.caught f = true ∨ FishManager.catch_condition mouse_pos hook_center f = false →
    treated game_state mouse_pos hook_center r f caught_any w caught_any w
| hooked_fish :
    Fish.caught f = false →
    FishManager.catch_condition mouse_pos hook_center f = true →
    FishingLine.add_caught_fish game_state r (FishManager.w_line w) =
      Ok (true, FishingLine.set_caught_fish
                  (FishingLine.caught_fish (FishManager.w_line w) ++ [r])
                  (FishManager.w_line w)) →
    treated game_state mouse_pos hook_center r f caught_any w true
      (FishManager.mk_world
         (<[r := Fish.set_caught true f]> (FishManager.w_heap w))
         (FishManager.mk
            (FishManager.group_remove r (FishManager.all_fish (FishManager.w_self w)))
            (FishManager.caught_fish (FishManager.w_self w) ++ [r]))
         (FishingLine.set_caught_fish
            (FishingLine.caught_fish (FishManager.w_line w) ++ [r])
            (FishManager.w_line w)))
| refused_fish :
    Fish.caught f = false →
    FishManager.catch_condition mouse_pos hook_center f = true →
    FishingLine.add_caught_fish game_state r (FishManager.w_line w) =
      Ok (false, FishManager.w_line w) →
    treated game_state mouse_pos hook_center r f caught_any w caught_any
      (FishManager.mk_world
         (<[r := Fish.set_caught true f]> (FishManager.w_heap w))
         (FishManager.w_self w)
         (FishManager.w_line w)).

(** The fish [f] is an instance of the catalog entry [species]. *)
Definition instance_of (species : Fish.data) (f : Fish.t) : Prop :=
  Fish.name f = Fish.d_name species ∧ Fish.rarity f = Fish.d_rarity species ∧
  Fish.value f = Fish.d_value species ∧
  Fish.depth_range f = Fish.d_depth_range species.

(** The buttons a click in the shop is tested against. *)
Definition shop_buttons : list string :=
  ["line_length"; "hook_capacity"; "round_timer"; "start"; "reset"].

(** A visit to the shop with 120 coins, no save file and no sound asked
    for yet. *)
Definition shop_visit : Game.session :=
  Game.mk_session
    (Game.set_screen Game.SHOP
       (Game.set_game_state (GameState.add_coins 120 GameState.init) clownfish_tuna_round))
    None [].

(** One frame of an active round on the line and the fish manager, as
    [Game.update] runs it (main.py, lines 129-149): the mouse is taken
    into account, the line is updated, and [check_catches] runs.  Between
    the two, [FishManager.update] moves, spawns and removes sprites; it
    assigns neither the line nor the manager's caught list, so the group
    [all_fish] and the fish objects [h] it leaves are arbitrary here. *)
Inductive frame : FishManager.world → FishManager.world → Prop :=
| frame_intro (game_state : option GameState.t) (mouse_pos rod_pos : Z * Z)
      (w w' : FishManager.world) (line : FishingLine.t)
      (h : heap) (all_fish : list nat) (caught_any : bool) :
    FishingLine.update game_state rod_pos
      (Game.aim mouse_pos rod_pos (FishManager.w_line w)) = Ok line →
    FishManager.check_catches mouse_pos game_state
      (FishManager.mk_world h
         (FishManager.mk all_fish (FishManager.caught_fish (FishManager.w_self w)))
         line) = Ok (caught_any, w') →
    frame w w'.

(** The world a round starts in: the line and the manager as
    [start_round] leaves them. *)
Definition round_start (now : Z) (ses : Game.session) (h : heap) : FishManager.world :=
  let g := Game.game (Game.start_round now ses) in
  FishManager.mk_world h (Game.fish_manager g) (Game.fishing_line g).

(** A value a C [int] holds. *)
Definition c_int (v : Z) : Prop := Rect.INT_MIN ≤ v ≤ Rect.INT_MAX.

(** A depth the floats hold exactly, with room for one more step either
    way: a non-negative multiple of 1/2, at most 2^52 halves. *)
Definition float_depth (depth : Q) : Prop :=
  ∃ k : Z, 0 ≤ k ≤ 2 ^ 52 ∧ (depth == inject_Z k * (1 # 2))%Q.

(** The hook rectangle [r] once [update] has centered it on column [v]
    at the fixed row. *)
Definition hook_at (v : Z) (r : Rect.t) : Rect.t :=
  Rect.mk (Rect.wrap (v - Rect.width r ÷ 2)) FishingLine.hook_fixed_y
          (Rect.width r) (Rect.height r).

(** A fish whose center is 15 across and 20 down from the center of the
    hook of [near_hook]: at distance 25. *)
Definition near_fish : Fish.t :=
  Fish.mk "Tuna" "Rare" 50 "mid_water" (Rect.mk 395 320 40 20) 1 1 false.

(** A hook (capacity 4) holding the fish [on_hook], with [near_fish]
    swimming by in the group. *)
Definition near_hook (on_hook : list nat) : FishManager.world :=
  FishManager.mk_world
    (list_to_map
       [ (0%nat, hooked "Clownfish" 10); (1%nat, hooked "Blue Tang" 15);
         (2%nat, hooked "Clownfish" 10); (3%nat, hooked "Blue Tang" 15);
         (4%nat, near_fish) ])
    (FishManager.mk [4%nat] on_hook)
    (FishingLine.mk 120 true (Rect.mk 390 300 20 20) 0 on_hook).

(** * Theorems *)

(** ** Derived limits *)

Section Getters.

Variable s : GameState.t.

Lemma get_max_depth_level (level : Z) :
  GameState.upgrades s !! "line_length" = Some level →
  GameState.get_max_depth s = Ok (300 + 100 * level).
Proof.
  intros H. unfold GameState.get_max_depth, Py.dict_getitem. rewrite H. simpl.
  unfold Config.BASE_MAX_DEPTH, Config.DEPTH_INCREASE_PER_LEVEL. f_equal. lia.
Qed.

Lemma get_hook_capacity_level (level : Z) :
  GameState.upgrades s !! "hook_capacity" = Some level →
  GameState.get_hook_capacity s = Ok (4 + 1 * level).
Proof.
  intros H. unfold GameState.get_hook_capacity, Py.dict_getitem. rewrite H. simpl.
  unfold Config.BASE_HOOK_CAPACITY, Config.CAPACITY_INCREASE_PER_LEVEL. f_equal. lia.
Qed.

Lemma get_round_duration_level (level : Z) :
  GameState.upgrades s !! "round_timer" = Some level →
  GameState.get_round_duration s = Ok (10000 + 5000 * level).
Proof.
  intros H. unfold GameState.get_round_duration, Py.dict_getitem. rewrite H. simpl.
  unfold Config.BASE_ROUND_DURATION, Config.TIMER_INCREASE_PER_LEVEL. f_equal. lia.
Qed.

End Getters.

(** C8. Whatever the three levels are (in particular for levels 0..4),
    [get_max_depth] is 300 + 100 * line_length, [get_hook_capacity] is
    4 + 1 * hook_capacity and [get_round_duration] is
    10000 + 5000 * round_timer; each getter answers the same in any other
    economy that has the same level for its own upgrade, whatever the rest
    of that economy is. *)
Theorem derived_limits_linear (s : GameState.t) (line hook timer : Z) :
  GameState.upgrades s !! "line_length" = Some line →
  GameState.upgrades s !! "hook_capacity" = Some hook →
  GameState.upgrades s !! "round_timer" = Some timer →
  GameState.get_max_depth s = Ok (300 + 100 * line) ∧
  GameState.get_hook_capacity s = Ok (4 + 1 * hook) ∧
  GameState.get_round_duration s = Ok (10000 + 5000 * timer) ∧
  (∀ s', GameState.upgrades s' !! "line_length" = Some line →
         GameState.get_max_depth s' = GameState.get_max_depth s) ∧
  (∀ s', GameState.upgrades s' !! "hook_capacity" = Some hook →
         GameState.get_hook_capacity s' = GameState.get_hook_capacity s) ∧
  (∀ s', GameState.upgrades s' !! "round_timer" = Some timer →
         GameState.get_round_duration s' = GameState.get_round_duration s).
Proof.
  intros Hl Hh Ht.
  rewrite (get_max_depth_level s line Hl), (get_hook_capacity_level s hook Hh),
    (get_round_duration_level s timer Ht).
  repeat split; auto using get_max_depth_level, get_hook_capacity_level,
    get_round_duration_level.
Qed.

(** An economy at levels (3, 4, 2): depth 600, capacity 8, 20 seconds. *)
Lemma derived_limits_linear_witness :
  let s := GameState.set_upgrades
             (list_to_map [("line_length", 3); ("hook_capacity", 4); ("round_timer", 2)])
             GameState.init in
  GameState.get_max_depth s = Ok 600 ∧
  GameState.get_hook_capacity s = Ok 8 ∧
  GameState.get_round_duration s = Ok 20000.
Proof.
  intros s.
  destruct (derived_limits_linear s 3 4 2) as (H1 & H2 & H3 & _);
    [reflexivity | reflexivity | reflexivity |].
  exact (conj H1 (conj H2 H3)).
Defined.

(** ** Purchasing upgrades *)

Lemma upgrade_kinds_cases (kind : string) :
  kind ∈ upgrade_kinds →
  kind = "line_length" ∨ kind = "hook_capacity" ∨ kind = "round_timer".
Proof.
  unfold upgrade_kinds. rewrite !elem_of_cons, elem_of_nil. tauto.
Qed.

Lemma valid_upgrades_lookup (s : GameState.t) (kind : string) :
  valid_upgrades s → kind ∈ upgrade_kinds →
  ∃ level, GameState.upgrades s !! kind = Some level ∧ 0 ≤ level.
Proof.
  intros [Hdom Hpos] Hin.
  assert (Hk : kind ∈ dom (GameState.upgrades s)) by (rewrite Hdom; set_solver).
  apply elem_of_dom in Hk as [level Hlevel].
  exists level. split; [done | exact (Hpos _ _ Hlevel)].
Qed.

Lemma valid_upgrades_unknown (s : GameState.t) (kind : string) :
  valid_upgrades s → kind ∉ upgrade_kinds → GameState.upgrades s !! kind = None.
Proof.
  intros [Hdom _] Hnot. apply not_elem_of_dom. rewrite Hdom. set_solver.
Qed.

(** Every cost table has five entries, so a price exists exactly for the
    levels 0..4. *)
Lemma cost_at_defined (kind : string) (level : Z) :
  kind ∈ upgrade_kinds →
  (0 ≤ level < 5 ↔ is_Some (cost_at kind level)).
Proof.
  intros Hk. unfold cost_at. destruct (Z.ltb_spec level 0) as [Hneg | Hpos].
  - split; [lia | intros [? [=]]].
  - apply upgrade_kinds_cases in Hk as [-> | [-> | ->]];
      (split;
       [ intros [_ Hlt];
         assert (Hc : level = 0 ∨ level = 1 ∨ level = 2 ∨ level = 3 ∨ level = 4) by lia;
         destruct Hc as [-> | [-> | [-> | [-> | ->]]]]; vm_compute; eauto
       | intros [c Hc]; split; [done |];
         apply bind_Some in Hc as (costs & Hcosts & Hc);
         vm_compute in Hcosts; simplify_eq;
         apply lookup_lt_Some in Hc; simpl in Hc; lia ]).
Qed.

(** What [costs[level]] of the source reads for a level in range. *)
Lemma list_getitem_cost (kind : string) (level : Z) (costs : list Z) :
  Config.UPGRADE_COSTS !! kind = Some costs → 0 ≤ level →
  Py.list_getitem costs level =
    match cost_at kind level with Some c => Ok c | None => Raise IndexError end.
Proof.
  intros Hc Hpos. unfold Py.list_getitem, cost_at.
  destruct (Z.ltb_spec level 0) as [? | _]; [lia |].
  destruct (Z.ltb_spec level 0) as [? | _]; [lia |].
  rewrite Hc. simpl. destruct (costs !! Z.to_nat level); done.
Qed.

Lemma upgrade_costs_length (kind : string) :
  kind ∈ upgrade_kinds →
  ∃ costs, Config.UPGRADE_COSTS !! kind = Some costs ∧ Py.len costs = 5.
Proof.
  intros Hk. apply upgrade_kinds_cases in Hk as [-> | [-> | ->]];
    eexists; split; reflexivity.
Qed.

Lemma purchase_upgrade_known (s : GameState.t) (kind : string) (level : Z) :
  kind ∈ upgrade_kinds →
  GameState.upgrades s !! kind = Some level → 0 ≤ level →
  is_Some (GameState.upgrades s !! "line_length") →
  match cost_at kind level with
  | Some cost =>
      if decide (cost ≤ GameState.coins s)
      then ∃ s', GameState.purchase_upgrade kind s = Ok (true, s') ∧
                 purchased kind level cost s s'
      else GameState.purchase_upgrade kind s = Ok (false, s)
  | None => GameState.purchase_upgrade kind s = Ok (false, s)
  end.
Proof.
  intros Hk Hlevel Hpos Hline.
  destruct (upgrade_costs_length kind Hk) as (costs & Hcosts & Hlen).
  pose proof (cost_at_defined kind level Hk) as Hdef.
  assert (Hrun : GameState.purchase_upgrade kind s =
    if 5 <=? level then Ok (false, s)
    else
      let* cost := match cost_at kind level with
                   | Some c => Ok c
                   | None => Raise IndexError
                   end in
      if GameState.coins s <? cost then Ok (false, s)
      else
        let* s' := GameState._update_unlocked_zones
                     (GameState.set_upgrades
                        (<[kind := level + 1]> (GameState.upgrades s))
                        (GameState.set_coins (GameState.coins s - cost) s)) in
        Ok (true, s')).
  { unfold GameState.purchase_upgrade. rewrite Hlevel.
    unfold Py.dict_getitem. rewrite Hcosts. simpl. rewrite Hlen.
    by rewrite (list_getitem_cost kind level costs Hcosts Hpos). }
  rewrite Hrun. clear Hrun.
  destruct (Z.leb_spec 5 level) as [Hmax | Hlt].
  - destruct (cost_at kind level) as [c |] eqn:Hc; [| done].
    assert (0 ≤ level < 5) by (apply Hdef; eauto). lia.
  - destruct (cost_at kind level) as [cost |] eqn:Hc.
    + simpl. destruct (Z.ltb_spec (GameState.coins s) cost) as [Hpoor | Hrich].
      * rewrite decide_False by lia. done.
      * rewrite decide_True by lia.
        unfold GameState._update_unlocked_zones, Py.dict_getitem. simpl.
        assert (Hl : is_Some (<[kind := level + 1]> (GameState.upgrades s) !! "line_length")).
        { rewrite lookup_insert. case_decide; eauto. }
        destruct Hl as [l ->]. simpl.
        eexists. split; [reflexivity |]. repeat split.
    + assert (Hn : ¬ is_Some (None : option Z)) by (intros [? [=]]).
      exfalso. apply Hn, Hdef. lia.
Qed.

(** C2. In an economy whose upgrade dictionary holds the three kinds at
    non-negative levels, buying a known kind at level L succeeds exactly
    when L is below five (the length of the cost table) and the balance
    covers [cost_table[L]]; it then debits exactly that cost and raises
    that level by one, leaving the other levels alone.  At level five or
    above, with too few coins, or for an unknown kind, the call answers
    false and returns the economy as it was. *)
Theorem purchase_upgrade_spec (s : GameState.t) (kind : string) :
  valid_upgrades s →
  (kind ∈ upgrade_kinds →
   ∃ level costs,
     GameState.upgrades s !! kind = Some level ∧
     Config.UPGRADE_COSTS !! kind = Some costs ∧ length costs = 5%nat ∧
     (* success exactly when below the table length and affordable *)
     ((∃ s', GameState.purchase_upgrade kind s = Ok (true, s')) ↔
      (level < 5 ∧ ∃ cost, costs !! Z.to_nat level = Some cost ∧
                           cost ≤ GameState.coins s)) ∧
     (* what a success does *)
     (∀ s', GameState.purchase_upgrade kind s = Ok (true, s') →
        ∃ cost, costs !! Z.to_nat level = Some cost ∧
          GameState.coins s' = GameState.coins s - cost ∧
          GameState.upgrades s' = <[kind := level + 1]> (GameState.upgrades s)) ∧
     (* what a failure does *)
     ((5 ≤ level ∨ ∃ cost, costs !! Z.to_nat level = Some cost ∧
                           GameState.coins s < cost) →
      GameState.purchase_upgrade kind s = Ok (false, s))) ∧
  (kind ∉ upgrade_kinds → GameState.purchase_upgrade kind s = Ok (false, s)).
Proof.
  intros Hvalid. split.
  - intros Hk.
    destruct (valid_upgrades_lookup s kind Hvalid Hk) as (level & Hlevel & Hpos).
    destruct (upgrade_costs_length kind Hk) as (costs & Hcosts & Hlen).
    assert (Hline : is_Some (GameState.upgrades s !! "line_length")).
    { destruct (valid_upgrades_lookup s "line_length" Hvalid) as (l & Hl & _);
        [unfold upgrade_kinds; constructor | eauto]. }
    pose proof (purchase_upgrade_known s kind level Hk Hlevel Hpos Hline) as Hrun.
    pose proof (cost_at_defined kind level Hk) as Hdef.
    assert (Hcost : cost_at kind level = costs !! Z.to_nat level).
    { unfold cost_at. destruct (Z.ltb_spec level 0); [lia |]. by rewrite Hcosts. }
    rewrite Hcost in Hrun, Hdef.
    exists level, costs. split; [done |]. split; [done |].
    split; [unfold Py.len in Hlen; lia |].
    destruct (costs !! Z.to_nat level) as [cost |] eqn:Hc.
    + assert (Hrange : 0 ≤ level < 5) by (apply Hdef; eauto).
      destruct (decide (cost ≤ GameState.coins s)) as [Hrich | Hpoor].
      * destruct Hrun as (s' & Hs' & Hcoins & Hups & _).
        split; [| split].
        -- split; [intros _; split; [lia | eauto] | eauto].
        -- intros s'' Hs''. rewrite Hs' in Hs''. injection Hs'' as <-. eauto.
        -- intros [? | (c & [= <-] & ?)]; lia.
      * split; [| split].
        -- split.
           ++ intros [s' Hs']. rewrite Hrun in Hs'. discriminate.
           ++ intros (_ & c & [= <-] & ?). lia.
        -- intros s' Hs'. rewrite Hrun in Hs'. discriminate.
        -- done.
    + split; [| split].
      * split.
        -- intros [s' Hs']. rewrite Hrun in Hs'. discriminate.
        -- intros (_ & c & [=] & _).
      * intros s' Hs'. rewrite Hrun in Hs'. discriminate.
      * done.
  - intros Hk. unfold GameState.purchase_upgrade.
    by rewrite (valid_upgrades_unknown s kind Hvalid Hk).
Qed.

(** With 120 coins the first line-length upgrade (100 coins) is bought
    and 20 coins remain. *)
Lemma purchase_upgrade_spec_witness :
  let s := GameState.set_coins 120 GameState.init in
  valid_upgrades s ∧
  ∃ s', GameState.purchase_upgrade "line_length" s = Ok (true, s') ∧
        GameState.coins s' = 20 ∧
        GameState.upgrades s' !! "line_length" = Some 1.
Proof.
  intros s.
  assert (Hv : valid_upgrades s).
  { split; apply (bool_decide_unpack _); vm_compute; exact I. }
  split; [exact Hv |].
  destruct (purchase_upgrade_spec s "line_length" Hv) as [Hknown _].
  destruct Hknown as (level & costs & Hl & Hc & _ & Hiff & Hdo & _); [constructor |].
  vm_compute in Hl. vm_compute in Hc. simplify_eq.
  destruct Hiff as [_ Hiff]. destruct Hiff as [s' Hs'].
  { split; [lia |]. exists 100. split; [reflexivity | vm_compute; discriminate]. }
  exists s'. split; [exact Hs' |].
  destruct (Hdo s' Hs') as (cost & Hcost & Hcoins & Hups).
  vm_compute in Hcost. simplify_eq. split.
  - rewrite Hcoins. reflexivity.
  - rewrite Hups. reflexivity.
Defined.

(** ** Power-ups *)

Lemma power_up_names_known (s : GameState.t) (name : string) :
  known_power_ups s →
  (name ∈ power_up_names ↔ is_Some (GameState.power_ups s !! name)).
Proof.
  unfold known_power_ups. intros Hdom.
  rewrite <- elem_of_dom, Hdom. by rewrite elem_of_list_to_set.
Qed.

Lemma purchase_power_up_nonneg (s : GameState.t) (name : string) (cost : Z) :
  power_ups_nonneg s → power_ups_nonneg (GameState.purchase_power_up name cost s).2.
Proof.
  unfold power_ups_nonneg, GameState.purchase_power_up. intros H.
  destruct (GameState.power_ups s !! name) as [n |] eqn:Hn; [| done].
  destruct (GameState.coins s <? cost); [done |]. simpl.
  apply map_Forall_insert_2; [| done]. specialize (H _ _ Hn). simpl in H. lia.
Qed.

Lemma use_power_up_nonneg (s : GameState.t) (name : string) :
  power_ups_nonneg s → power_ups_nonneg (GameState.use_power_up name s).2.
Proof.
  unfold power_ups_nonneg, GameState.use_power_up. intros H.
  destruct (GameState.power_ups s !! name) as [n |] eqn:Hn; [| done].
  destruct (Z.leb_spec n 0); [done |]. simpl.
  apply map_Forall_insert_2; [lia | done].
Qed.

Lemma purchase_upgrade_power_ups (s s' : GameState.t) (name : string) (b : bool) :
  GameState.purchase_upgrade name s = Ok (b, s') →
  GameState.power_ups s' = GameState.power_ups s.
Proof.
  unfold GameState.purchase_upgrade, GameState._update_unlocked_zones.
  destruct (GameState.upgrades s !! name) as [level |]; [| by intros [= <- <-]].
  destruct (Py.dict_getitem Config.UPGRADE_COSTS name) as [costs |]; simpl; [| done].
  destruct (Py.len costs <=? level); [by intros [= <- <-] |].
  destruct (Py.list_getitem costs level) as [cost |]; simpl; [| done].
  destruct (GameState.coins s <? cost); [by intros [= <- <-] |].
  destruct (Py.dict_getitem _ "line_length"); simpl; [| done].
  by intros [= <- <-].
Qed.

Lemma apply_op_power_ups_nonneg (o : op) (s s' : GameState.t) :
  power_ups_nonneg s → apply_op o s = Ok s' → power_ups_nonneg s'.
Proof.
  intros H Hrun. destruct o; simpl in Hrun.
  - injection Hrun as <-. exact H.
  - destruct (GameState.purchase_upgrade upgrade_name s) as [[b s1] |] eqn:Hp;
      simpl in Hrun; [| discriminate].
    injection Hrun as <-. unfold power_ups_nonneg.
    by rewrite (purchase_upgrade_power_ups _ _ _ _ Hp).
  - injection Hrun as <-. by apply purchase_power_up_nonneg.
  - injection Hrun as <-. by apply use_power_up_nonneg.
  - injection Hrun as <-. unfold GameState.update_stats.
    destruct (Qlt_le_dec _ _); exact H.
  - injection Hrun as <-. unfold power_ups_nonneg. simpl.
    apply (bool_decide_unpack _). vm_compute. exact I.
Qed.

Lemma run_ops_power_ups_nonneg (ops : list op) (s s' : GameState.t) :
  power_ups_nonneg s → run_ops ops s = Ok s' → power_ups_nonneg s'.
Proof.
  revert s. induction ops as [| o ops IH]; intros s H Hrun; simpl in Hrun.
  - by injection Hrun as <-.
  - destruct (apply_op o s) as [s1 |] eqn:Ho; simpl in Hrun; [| discriminate].
    eapply IH; [| exact Hrun]. eapply apply_op_power_ups_nonneg; eauto.
Qed.

(** C10. In an economy that holds the four power-ups with non-negative
    counters: [purchase_power_up name cost] answers true exactly when the
    name is one of the four and the balance is at least [cost], and then
    adds one to that counter and debits exactly [cost]; otherwise it
    answers false and changes nothing.  [use_power_up name] answers true
    exactly when the name is one of the four and its counter is positive,
    and then takes one off that counter; otherwise it answers false and
    changes nothing.  Both keep every counter non-negative, and so does
    every sequence of economy operations. *)
Theorem power_ups_spec (s : GameState.t) (name : string) (cost : Z) :
  known_power_ups s → power_ups_nonneg s →
  (* purchase_power_up *)
  (∀ n, name ∈ power_up_names → GameState.power_ups s !! name = Some n →
        cost ≤ GameState.coins s →
        GameState.purchase_power_up name cost s =
          (true, GameState.set_power_ups (<[name := n + 1]> (GameState.power_ups s))
                   (GameState.set_coins (GameState.coins s - cost) s))) ∧
  (name ∉ power_up_names ∨ GameState.coins s < cost →
   GameState.purchase_power_up name cost s = (false, s)) ∧
  (* use_power_up *)
  (∀ n, name ∈ power_up_names → GameState.power_ups s !! name = Some n → 0 < n →
        GameState.use_power_up name s =
          (true, GameState.set_power_ups (<[name := n - 1]> (GameState.power_ups s)) s)) ∧
  (name ∉ power_up_names ∨ (∃ n, GameState.power_ups s !! name = Some n ∧ n ≤ 0) →
   GameState.use_power_up name s = (false, s)) ∧
  (* the four names are exactly the keys, so the cases above are exhaustive *)
  (name ∈ power_up_names ↔ ∃ n, GameState.power_ups s !! name = Some n ∧ 0 ≤ n) ∧
  (* non-negativity is kept *)
  power_ups_nonneg (GameState.purchase_power_up name cost s).2 ∧
  power_ups_nonneg (GameState.use_power_up name s).2 ∧
  (∀ ops s', run_ops ops s = Ok s' → power_ups_nonneg s').
Proof.
  intros Hknown Hnonneg.
  pose proof (power_up_names_known s name Hknown) as Hin.
  repeat split.
  - intros n _ Hn Hcoins. unfold GameState.purchase_power_up. rewrite Hn.
    destruct (Z.ltb_spec (GameState.coins s) cost); [lia | done].
  - intros [Hout | Hpoor]; unfold GameState.purchase_power_up.
    + destruct (GameState.power_ups s !! name) eqn:Hn; [| done].
      exfalso. apply Hout, Hin. eauto.
    + destruct (GameState.power_ups s !! name); [| done].
      destruct (Z.ltb_spec (GameState.coins s) cost); [done | lia].
  - intros n _ Hn Hpos. unfold GameState.use_power_up. rewrite Hn.
    destruct (Z.leb_spec n 0); [lia | done].
  - intros [Hout | Hzero]; unfold GameState.use_power_up.
    + destruct (GameState.power_ups s !! name) eqn:Hn; [| done].
      exfalso. apply Hout, Hin. eauto.
    + destruct Hzero as (n & -> & Hle). destruct (Z.leb_spec n 0); [done | lia].
  - intros Hname. apply Hin in Hname as [n Hn]. exists n. split; [done |].
    exact (Hnonneg _ _ Hn).
  - intros (n & Hn & _). apply Hin. eauto.
  - by apply purchase_power_up_nonneg.
  - by apply use_power_up_nonneg.
  - intros ops s'. by apply run_ops_power_ups_nonneg.
Qed.

(** From the initial economy with 50 coins: buying a magnet hook for 30
    leaves 20 coins and one magnet hook, which can then be used once. *)
Lemma power_ups_spec_witness :
  let s := GameState.set_coins 50 GameState.init in
  known_power_ups s ∧ power_ups_nonneg s ∧
  ∃ s1 s2,
    GameState.purchase_power_up "magnet_hook" 30 s = (true, s1) ∧
    GameState.coins s1 = 20 ∧
    GameState.power_ups s1 !! "magnet_hook" = Some 1 ∧
    GameState.use_power_up "magnet_hook" s1 = (true, s2) ∧
    GameState.power_ups s2 !! "magnet_hook" = Some 0 ∧
    GameState.use_power_up "magnet_hook" s2 = (false, s2).
Proof.
  intros s.
  assert (Hk : known_power_ups s) by (apply (bool_decide_unpack _); vm_compute; exact I).
  assert (Hn : power_ups_nonneg s) by (apply (bool_decide_unpack _); vm_compute; exact I).
  split; [exact Hk |]. split; [exact Hn |].
  destruct (power_ups_spec s "magnet_hook" 30 Hk Hn) as (Hbuy & _).
  eexists. eexists.
  split; [apply (Hbuy 0); [do 2 constructor; constructor | reflexivity | vm_compute; discriminate] |].
  repeat split; reflexivity.
Defined.

(** ** Unlocked zones *)

Lemma zones_consistent_init : zones_consistent GameState.init.
Proof. exists 0. repeat split. Qed.

Lemma zones_consistent_reset (s : GameState.t) :
  zones_consistent (GameState.reset_progress s).
Proof. exists 0. repeat split. Qed.

(** What [_update_unlocked_zones] stores for a non-negative level. *)
Lemma update_unlocked_zones_consistent (s s' : GameState.t) (level : Z) :
  GameState.upgrades s !! "line_length" = Some level → 0 ≤ level →
  GameState._update_unlocked_zones s = Ok s' →
  zones_consistent s' ∧ GameState.upgrades s' = GameState.upgrades s.
Proof.
  intros Hl Hpos. unfold GameState._update_unlocked_zones, Py.dict_getitem.
  rewrite Hl. simpl. intros [= <-]. split; [| done].
  exists level. split; [done |]. simpl.
  change (Py.len ["surface"; "shallows"; "mid_water"; "deep_sea"; "abyss"]) with 5.
  unfold Py.slice_to. destruct (Z.ltb_spec (5 `min` (level + 1)) 0); [lia |].
  split; [| done]. unfold Py.len. rewrite length_take. simpl. lia.
Qed.

Lemma valid_upgrades_insert (s : GameState.t) (kind : string) (level : Z) :
  valid_upgrades s → kind ∈ upgrade_kinds → 0 ≤ level →
  valid_upgrades (GameState.set_upgrades (<[kind := level]> (GameState.upgrades s)) s).
Proof.
  intros [Hdom Hpos] Hk Hlevel. split; simpl.
  - rewrite dom_insert_L, Hdom.
    apply upgrade_kinds_cases in Hk as [-> | [-> | ->]]; unfold upgrade_kinds; set_solver.
  - by apply map_Forall_insert_2.
Qed.

(** A purchase keeps the upgrade dictionary valid and, when it goes
    through, leaves the unlocked zones consistent with the new level. *)
Lemma purchase_upgrade_zones (s s' : GameState.t) (name : string) (b : bool) :
  valid_upgrades s →
  GameState.purchase_upgrade name s = Ok (b, s') →
  valid_upgrades s' ∧ (if b then zones_consistent s' else s' = s).
Proof.
  intros Hvalid. unfold GameState.purchase_upgrade.
  destruct (GameState.upgrades s !! name) as [level |] eqn:Hlevel;
    [| by intros [= <- <-]].
  assert (Hk : name ∈ upgrade_kinds).
  { destruct Hvalid as [Hdom _].
    apply (elem_of_list_to_set (C := gset string)). rewrite <- Hdom.
    apply elem_of_dom. eauto. }
  assert (Hpos : 0 ≤ level) by (destruct Hvalid as [_ Hp]; exact (Hp _ _ Hlevel)).
  destruct (Py.dict_getitem Config.UPGRADE_COSTS name) as [costs |]; simpl; [| done].
  destruct (Py.len costs <=? level); [by intros [= <- <-] |].
  destruct (Py.list_getitem costs level) as [cost |]; simpl; [| done].
  destruct (GameState.coins s <? cost); [by intros [= <- <-] |].
  set (s1 := GameState.set_upgrades _ _).
  assert (Hv1 : valid_upgrades s1).
  { pose proof (valid_upgrades_insert (GameState.set_coins (GameState.coins s - cost) s)
                  name (level + 1)) as H. apply H; [done | done | lia]. }
  destruct (valid_upgrades_lookup s1 "line_length" Hv1) as (l & Hl & Hlpos);
    [constructor |].
  destruct (GameState._update_unlocked_zones s1) as [s2 |] eqn:Hs2; simpl; [| done].
  intros [= <- <-].
  destruct (update_unlocked_zones_consistent s1 s2 l Hl Hlpos Hs2) as [Hc Hu].
  split; [| done]. unfold valid_upgrades. rewrite Hu. exact Hv1.
Qed.

Lemma apply_op_zones (o : op) (s s' : GameState.t) :
  valid_upgrades s ∧ zones_consistent s → apply_op o s = Ok s' →
  valid_upgrades s' ∧ zones_consistent s'.
Proof.
  intros [Hv Hz] Hrun. destruct o; simpl in Hrun.
  - by injection Hrun as <-.
  - destruct (GameState.purchase_upgrade upgrade_name s) as [[b s1] |] eqn:Hp;
      simpl in Hrun; [| discriminate].
    injection Hrun as <-.
    destruct (purchase_upgrade_zones s s1 upgrade_name b Hv Hp) as [Hv1 Hb].
    split; [done |]. destruct b; [done | by subst].
  - injection Hrun as <-. unfold GameState.purchase_power_up.
    destruct (_ !! _); [| done]. by destruct (_ <? _).
  - injection Hrun as <-. unfold GameState.use_power_up.
    destruct (_ !! _); [| done]. by destruct (_ <=? _).
  - injection Hrun as <-. unfold GameState.update_stats.
    by destruct (Qlt_le_dec _ _).
  - injection Hrun as <-. split; [| apply zones_consistent_reset].
    split; apply (bool_decide_unpack _); vm_compute; exact I.
Qed.

(** Purchases and resets (and every other mutator but [load_game]) keep
    the unlocked zones consistent with the line-length level. *)
Lemma run_ops_zones (ops : list op) (s s' : GameState.t) :
  valid_upgrades s ∧ zones_consistent s → run_ops ops s = Ok s' →
  valid_upgrades s' ∧ zones_consistent s'.
Proof.
  revert s. induction ops as [| o ops IH]; intros s H Hrun; simpl in Hrun.
  - by injection Hrun as <-.
  - destruct (apply_op o s) as [s1 |] eqn:Ho; simpl in Hrun; [| discriminate].
    eapply IH; [| exact Hrun]. eapply apply_op_zones; eauto.
Qed.

(** C6. Loading [partial_save] into a fresh economy succeeds and leaves the
    line-length level at 2 with only ["surface"] unlocked: one zone where
    min(5, 2 + 1) = 3 are due.  [load_game] stores the record's
    [unlocked_zones] (or its default) without recomputing it from the
    level, as [purchase_upgrade] does. *)
Theorem load_game_stale_unlocked_zones :
  let r := GameState.load_game (Some partial_save) GameState.init in
  r.1 = true ∧
  GameState.upgrades r.2 !! "line_length" = Some 2 ∧
  GameState.unlocked_zones r.2 = ["surface"] ∧
  Py.len (GameState.unlocked_zones r.2) ≠ Z.min 5 (2 + 1) ∧
  ¬ zones_consistent r.2.
Proof.
  simpl. split; [reflexivity |]. split; [reflexivity |]. split; [reflexivity |].
  split; [discriminate |].
  intros (level & Hl & Hlen & _). vm_compute in Hl. simplify_eq.
Qed.

(** ** Persistence *)

(** C7. Saving any economy and loading the record back, into whatever
    economy, answers true and yields the saved economy again; loading a
    record without its "stats" field, whatever its other fields are,
    answers true and yields zero for the three statistics. *)
Theorem save_load_roundtrip
    (s s0 : GameState.t) (c : option Z) (u p : option (gmap string Z))
    (z : option (list string)) :
  GameState.load_game (Some (GameState.save_game s)) s0 = (true, s) ∧
  (let r := GameState.load_game (Some (GameState.mk_save c u p z None)) s0 in
   r.1 = true ∧
   GameState.total_fish_caught r.2 = 0 ∧
   GameState.total_coins_earned r.2 = 0 ∧
   GameState.deepest_depth_reached r.2 = 0%Q).
Proof.
  split.
  - destruct s. reflexivity.
  - repeat split.
Qed.

(** ** Round payout *)

Lemma py_sum_from (a : Z) (l : list Z) : foldl Z.add a l = a + foldr Z.add 0 l.
Proof.
  revert a. induction l as [| v l IH]; intros a; simpl; [lia |].
  rewrite IH. lia.
Qed.

Lemma total_value_foldr (fishes : list Fish.t) :
  foldr Z.add 0 (Fish.get_value <$> fishes) = total_value fishes.
Proof.
  induction fishes as [| f fishes IH]; [done |].
  change (Fish.value f + foldr Z.add 0 (Fish.get_value <$> fishes)
          = Fish.value f + total_value fishes).
  by rewrite IH.
Qed.

Lemma values_of_objects (h : heap) (refs : list nat) (fishes : list Fish.t) :
  objects h refs fishes →
  FishManager.values_of h refs = Ok (Fish.get_value <$> fishes).
Proof.
  induction 1 as [| r f refs fishes Hr _ IH]; simpl; [done |].
  unfold deref. rewrite Hr. simpl. by rewrite IH.
Qed.

Lemma calculate_round_value_total (h : heap) (self : FishManager.t) (fishes : list Fish.t) :
  objects h (FishManager.caught_fish self) fishes →
  FishManager.calculate_round_value h self = Ok (total_value fishes).
Proof.
  intros H. unfold FishManager.calculate_round_value.
  rewrite (values_of_objects _ _ _ H). cbn [bind]. f_equal.
  unfold Py.sum. rewrite py_sum_from, total_value_foldr. lia.
Qed.

(** C3. When [fishes] are the fish of the round's caught list, the round
    value is the sum of their values; [add_coins amount] adds exactly
    [amount] to the balance and exactly [amount] to the lifetime earnings
    (for every amount, the non-negative ones included); and [end_round]
    credits the economy with the round value, ends the round and shows the
    results screen. *)
Theorem round_payout_settled (g : Game.t) (fishes : list Fish.t) :
  objects (Game.fish_objects g) (FishManager.caught_fish (Game.fish_manager g)) fishes →
  FishManager.calculate_round_value (Game.fish_objects g) (Game.fish_manager g)
    = Ok (total_value fishes) ∧
  (∀ amount s,
     GameState.coins (GameState.add_coins amount s) = GameState.coins s + amount ∧
     GameState.total_coins_earned (GameState.add_coins amount s)
       = GameState.total_coins_earned s + amount) ∧
  ∃ g', Game.end_round g = Ok g' ∧
        Game.game_state g' = GameState.add_coins (total_value fishes) (Game.game_state g) ∧
        GameState.coins (Game.game_state g')
          = GameState.coins (Game.game_state g) + total_value fishes ∧
        Game.round_active g' = false ∧
        Game.current_screen g' = Game.RESULTS.
Proof.
  intros H. pose proof (calculate_round_value_total _ _ _ H) as Hv.
  split; [exact Hv |]. split; [by intros amount s |].
  unfold Game.end_round. rewrite Hv. simpl. eexists. split; [reflexivity |].
  by repeat split.
Qed.

(** The Clownfish and the Tuna are worth 60 together, and settling the
    round takes the balance from 5 to 65 and the lifetime earnings from 5
    to 65. *)
Lemma round_payout_settled_witness :
  FishManager.calculate_round_value (Game.fish_objects clownfish_tuna_round)
    (Game.fish_manager clownfish_tuna_round) = Ok 60 ∧
  ∃ g', Game.end_round clownfish_tuna_round = Ok g' ∧
        GameState.coins (Game.game_state g') = 65 ∧
        GameState.total_coins_earned (Game.game_state g') = 65.
Proof.
  destruct (round_payout_settled clownfish_tuna_round [clownfish; tuna])
    as (Hv & _ & g' & Hg' & Hs & _).
  { repeat constructor. }
  split; [exact Hv |].
  exists g'. split; [exact Hg' |]. rewrite Hs. split; reflexivity.
Defined.

(** ** The hook's caught list *)

(** C1. Whatever the hook state and the fish, when the capacity derived
    from the economy is [capacity], [add_caught_fish] returns normally
    and: a caught list within capacity stays within capacity; at or above
    capacity, or for a fish already on the hook, the answer is false and
    the hook is unchanged; otherwise the answer is true and the fish is
    appended at the tail.  Depth, direction, hook rectangle and horizontal
    offset are never changed. *)
Theorem add_caught_fish_spec
    (game_state : option GameState.t) (l : FishingLine.t) (fish : nat) (capacity : Z) :
  FishingLine.get_hook_capacity game_state = Ok capacity →
  ∃ added l',
    FishingLine.add_caught_fish game_state fish l = Ok (added, l') ∧
    (Py.len (FishingLine.caught_fish l) ≤ capacity →
     Py.len (FishingLine.caught_fish l') ≤ capacity) ∧
    (capacity ≤ Py.len (FishingLine.caught_fish l) ∨ fish ∈ FishingLine.caught_fish l →
     added = false ∧ l' = l) ∧
    (Py.len (FishingLine.caught_fish l) < capacity ∧ fish ∉ FishingLine.caught_fish l →
     added = true ∧
     FishingLine.caught_fish l' = (FishingLine.caught_fish l ++ [fish])%list) ∧
    FishingLine.current_depth l' = FishingLine.current_depth l ∧
    FishingLine.descending l' = FishingLine.descending l ∧
    FishingLine.hook_rect l' = FishingLine.hook_rect l ∧
    FishingLine.horizontal_offset l' = FishingLine.horizontal_offset l.
Proof.
  intros Hcap. unfold FishingLine.add_caught_fish. rewrite Hcap. simpl.
  unfold Py.ref_in.
  destruct (Z.ltb_spec (Py.len (FishingLine.caught_fish l)) capacity) as [Hroom | Hfull].
  - destruct (decide (fish ∈ FishingLine.caught_fish l)) as [Hin | Hout].
    + rewrite bool_decide_eq_true_2 by done. simpl.
      exists false, l. split; [reflexivity |]. split; [done |]. split; [done |].
      split; [| done]. intros [_ Hout]. contradiction.
    + rewrite bool_decide_eq_false_2 by done. simpl.
      eexists true, _. split; [reflexivity |]. simpl.
      split; [| split; [| split; [| done]]].
      * intros _. unfold Py.len in *. rewrite length_app. simpl. lia.
      * intros [Hfull | Hin]; [lia | contradiction].
      * done.
  - exists false, l. split; [reflexivity |]. split; [done |]. split; [done |].
    split; [| done]. intros [Hroom _]. lia.
Qed.

(** With the starting economy the capacity is 4: a fifth fish is refused,
    and so is a fish that is already on the hook. *)
Lemma add_caught_fish_spec_witness :
  let l := FishingLine.mk 120 true (Rect.mk 390 300 20 20) 0
             [0%nat; 1%nat; 2%nat; 3%nat] in
  FishingLine.get_hook_capacity (Some GameState.init) = Ok 4 ∧
  FishingLine.add_caught_fish (Some GameState.init) 4%nat l = Ok (false, l).
Proof.
  intros l.
  destruct (add_caught_fish_spec (Some GameState.init) l 4%nat 4 eq_refl)
    as (added & l' & Hrun & _ & Hfull & _).
  split; [reflexivity |].
  destruct Hfull as [-> ->]; [left; vm_compute; discriminate |].
  exact Hrun.
Defined.

(** ** The catch condition *)

Lemma collidepoint_within (r : Rect.t) (p : Z * Z) :
  Rect.collidepoint r p = true ↔ within p r.
Proof.
  unfold Rect.collidepoint, within.
  rewrite !andb_true_iff, !Z.leb_le, !Z.ltb_lt. tauto.
Qed.

(** Comparing the squares is comparing the Euclidean distance with the
    radius. *)
Lemma distance_le_euclid (p q : Z * Z) (r : Z) :
  0 ≤ r →
  FishManager.distance_le (p.1 - q.1) (p.2 - q.2) r = true ↔ (distance p q <= IZR r)%R.
Proof.
  intros Hr. unfold FishManager.distance_le, distance.
  set (n := (p.1 - q.1) ^ 2 + (p.2 - q.2) ^ 2).
  assert (Hn : 0 ≤ n) by (unfold n; nia).
  assert (Hn' : (0 <= IZR n)%R) by (apply IZR_le in Hn; exact Hn).
  assert (Hr' : (0 <= IZR r)%R) by (apply IZR_le in Hr; exact Hr).
  rewrite Z.leb_le. split.
  - intros Hle. apply IZR_le in Hle.
    replace (r ^ 2) with (r * r) in Hle by lia. rewrite mult_IZR in Hle.
    rewrite <- (sqrt_square (IZR r) Hr'). by apply sqrt_le_1_alt.
  - intros Hle. apply le_IZR.
    replace (r ^ 2) with (r * r) by lia. rewrite mult_IZR.
    rewrite <- (sqrt_sqrt (IZR n) Hn').
    apply Rmult_le_compat; try done; apply sqrt_pos.
Qed.

Lemma catch_condition_iff (mouse_pos hook_center : Z * Z) (fish : Fish.t) :
  FishManager.catch_condition mouse_pos hook_center fish = true ↔
  (within mouse_pos (Fish.rect fish) ∧
   (distance (Rect.center (Fish.rect fish)) hook_center <= 80)%R) ∨
  (distance (Rect.center (Fish.rect fish)) hook_center <= 30)%R.
Proof.
  unfold FishManager.catch_condition, FishManager.catch_radius.
  rewrite orb_true_iff, andb_true_iff, collidepoint_within.
  rewrite !distance_le_euclid by lia. tauto.
Qed.

(** ** Catching against a full hook *)

Section CheckFish.

Variables (mouse_pos hook_center : Z * Z) (game_state : option GameState.t).
Variables (w : FishManager.world) (caught_any : bool) (r : nat) (f : Fish.t).
Variable capacity : Z.

Hypothesis Hobject : FishManager.w_heap w !! r = Some f.
Hypothesis Hlive : Fish.caught f = false.
Hypothesis Hcond : FishManager.catch_condition mouse_pos hook_center f = true.
Hypothesis Hcapacity : FishingLine.get_hook_capacity game_state = Ok capacity.

(** With room on the hook the fish is flagged, appended to both caught
    lists and removed from the group, and the tick reports a catch. *)
Lemma check_fish_room :
  Py.len (FishingLine.caught_fish (FishManager.w_line w)) < capacity →
  r ∉ FishingLine.caught_fish (FishManager.w_line w) →
  FishManager.check_fish mouse_pos hook_center game_state (caught_any, w) r =
    Ok (true,
        FishManager.mk_world
          (<[r := Fish.set_caught true f]> (FishManager.w_heap w))
          (FishManager.mk
             (FishManager.group_remove r (FishManager.all_fish (FishManager.w_self w)))
             (FishManager.caught_fish (FishManager.w_self w) ++ [r]))
          (FishingLine.set_caught_fish
             (FishingLine.caught_fish (FishManager.w_line w) ++ [r])
             (FishManager.w_line w))).
Proof.
  intros Hroom Hnew.
  unfold FishManager.check_fish, FishManager.fish_catch, deref.
  rewrite Hobject. simpl. rewrite Hlive, Hcond.
  unfold Fish.catch. rewrite Hlive. simpl.
  unfold FishingLine.add_caught_fish. rewrite Hcapacity. simpl.
  destruct (Z.ltb_spec (Py.len (FishingLine.caught_fish (FishManager.w_line w))) capacity);
    [| lia].
  unfold Py.ref_in. rewrite bool_decide_eq_false_2 by done. reflexivity.
Qed.

(** With a full hook the group, both caught lists and the tick's report
    are as before, but the fish object is flagged caught all the same:
    [fish.catch()] has run before [add_caught_fish] refused. *)
Lemma check_fish_full :
  capacity ≤ Py.len (FishingLine.caught_fish (FishManager.w_line w)) →
  FishManager.check_fish mouse_pos hook_center game_state (caught_any, w) r =
    Ok (caught_any,
        FishManager.mk_world
          (<[r := Fish.set_caught true f]> (FishManager.w_heap w))
          (FishManager.w_self w)
          (FishManager.w_line w)).
Proof.
  intros Hfull.
  unfold FishManager.check_fish, FishManager.fish_catch, deref.
  rewrite Hobject. simpl. rewrite Hlive, Hcond.
  unfold Fish.catch. rewrite Hlive. simpl.
  unfold FishingLine.add_caught_fish. rewrite Hcapacity. simpl.
  destruct (Z.ltb_spec (Py.len (FishingLine.caught_fish (FishManager.w_line w))) capacity);
    [lia | reflexivity].
Qed.

End CheckFish.

(** C5. A tick in which two live fish meet the catch condition while the
    hook has one free slot: the first takes the slot; the second is
    refused by the full hook, stays in the live group and in no caught
    list, yet its caught flag has gone from false to true. *)
Theorem check_catches_full_hook_flags_fish :
  ∃ w',
    FishManager.check_catches (0, 0) (Some GameState.init) crowded_hook = Ok (true, w') ∧
    FishingLine.caught_fish (FishManager.w_line w') = [0; 1; 2; 3]%nat ∧
    FishManager.caught_fish (FishManager.w_self w') = [0; 1; 2; 3]%nat ∧
    FishManager.all_fish (FishManager.w_self w') = [4%nat] ∧
    Fish.caught <$> FishManager.w_heap crowded_hook !! 4%nat = Some false ∧
    Fish.caught <$> FishManager.w_heap w' !! 4%nat = Some true.
Proof.
  eexists. split; [vm_compute; reflexivity |].
  repeat split.
Qed.

(** ** The current zone of a spawn *)

Lemma depth_in_bounds (current_depth : Q) (bounds : Z * Z) :
  FishManager.depth_in current_depth bounds = true ↔
  (inject_Z bounds.1 <= current_depth)%Q ∧ (current_depth <= inject_Z bounds.2)%Q.
Proof.
  unfold FishManager.depth_in. by rewrite andb_true_iff, !Qle_bool_iff.
Qed.

(** Inside an interval of the zone table, the loop selects that zone. *)
Lemma spawn_fish_current_zone_inside (current_depth : Q) (zone : string) (bounds : Z * Z) :
  (zone, bounds) ∈ Config.DEPTH_ZONES →
  FishManager.depth_in current_depth bounds = true →
  FishManager.spawn_fish_current_zone current_depth = zone.
Proof.
  unfold Config.DEPTH_ZONES, FishManager.spawn_fish_current_zone.
  rewrite !elem_of_cons, elem_of_nil. intros Hin Hd.
  apply depth_in_bounds in Hd.
  cbn [FishManager.zone_loop Config.DEPTH_ZONES].
  repeat match goal with
  | |- context [FishManager.depth_in current_depth ?b] =>
      let H := fresh "H" in
      destruct (FishManager.depth_in current_depth b) eqn:H;
      [apply depth_in_bounds in H
      | apply not_true_iff_false in H; rewrite depth_in_bounds in H]
  end;
  repeat match goal with
  | H : _ ∨ _ |- _ => destruct H as [H | H]
  | H : (_, _) = (_, _) |- _ => injection H as -> ->
  | H : False |- _ => destruct H
  end;
  simpl in *; unfold inject_Z in *; try reflexivity; exfalso; lra.
Qed.

(** Outside every interval, the loop leaves the default. *)
Lemma spawn_fish_current_zone_outside (current_depth : Q) :
  (∀ zone bounds, (zone, bounds) ∈ Config.DEPTH_ZONES →
                  FishManager.depth_in current_depth bounds = false) →
  FishManager.spawn_fish_current_zone current_depth = "surface".
Proof.
  intros Hout. unfold FishManager.spawn_fish_current_zone.
  assert (Hall : ∀ zones, zones ⊆ Config.DEPTH_ZONES →
            FishManager.zone_loop zones current_depth "surface" = "surface").
  { induction zones as [| [zone bounds] zones IH]; intros Hsub; simpl; [done |].
    rewrite (Hout zone bounds) by (apply Hsub; constructor).
    apply IH. intros x Hx. apply Hsub. by constructor. }
  by apply Hall.
Qed.

(** C9. At depth 650, beyond the last interval, [spawn_fish] takes
    "surface" as the current zone, not "abyss": the loop finds no interval
    and nothing after it forces the zone.  The same function then treats
    the depth as abyssal when it makes every species eligible, and
    [draw_background] at the same depth does select "abyss". *)
Theorem spawn_fish_zone_beyond_500 :
  FishManager.spawn_fish_current_zone 650 = "surface" ∧
  FishManager.spawn_fish_current_zone 650 ≠ "abyss" ∧
  FishManager.spawn_fish_valid_fish FishManager.initialize_fish_data "surface" 650
    = FishManager.initialize_fish_data ∧
  FishManager.draw_background_current_zone 650 = "abyss".
Proof.
  split; [reflexivity |]. split; [discriminate |]. split; reflexivity.
Qed.

(** * Further properties of the economy *)

(** Whatever the economy was, [reset_progress] leaves the economy
    [__init__] builds: no coins, depth 300, capacity 4, ten seconds, only
    the surface unlocked. *)
Lemma reset_progress_initial (s : GameState.t) :
  GameState.reset_progress s = GameState.init ∧
  GameState.get_coins (GameState.reset_progress s) = 0 ∧
  GameState.get_max_depth (GameState.reset_progress s) = Ok 300 ∧
  GameState.get_hook_capacity (GameState.reset_progress s) = Ok 4 ∧
  GameState.get_round_duration (GameState.reset_progress s) = Ok 10000 ∧
  GameState.get_unlocked_zones (GameState.reset_progress s) = ["surface"] ∧
  GameState.power_ups (GameState.reset_progress s) = GameState.initial_power_ups.
Proof. repeat split. Qed.

Lemma valid_upgrades_init : valid_upgrades GameState.init.
Proof. split; apply (bool_decide_unpack _); vm_compute; exact I. Qed.

Lemma levels_bounded_init : levels_bounded GameState.init.
Proof. apply (bool_decide_unpack _). vm_compute. exact I. Qed.

(** A purchase returns normally in a valid economy. *)
Lemma purchase_upgrade_returns (s : GameState.t) (name : string) :
  valid_upgrades s → ∃ b s', GameState.purchase_upgrade name s = Ok (b, s').
Proof.
  intros Hv. destruct (decide (name ∈ upgrade_kinds)) as [Hk | Hk].
  - destruct (valid_upgrades_lookup s name Hv Hk) as (level & Hlevel & Hpos).
    assert (Hline : is_Some (GameState.upgrades s !! "line_length")).
    { destruct (valid_upgrades_lookup s "line_length" Hv) as (l & Hl & _);
        [unfold upgrade_kinds; constructor | eauto]. }
    pose proof (purchase_upgrade_known s name level Hk Hlevel Hpos Hline) as Hrun.
    destruct (cost_at name level) as [cost |]; [| eauto].
    destruct (decide (cost ≤ GameState.coins s)); [| eauto].
    destruct Hrun as (s' & Hs' & _). eauto.
  - exists false, s. unfold GameState.purchase_upgrade.
    by rewrite (valid_upgrades_unknown s name Hv Hk).
Qed.

Lemma purchase_upgrade_levels_bounded (s s' : GameState.t) (name : string) (b : bool) :
  valid_upgrades s → levels_bounded s →
  GameState.purchase_upgrade name s = Ok (b, s') → levels_bounded s'.
Proof.
  intros Hv Hb Hrun. destruct (decide (name ∈ upgrade_kinds)) as [Hk | Hk].
  - destruct (valid_upgrades_lookup s name Hv Hk) as (level & Hlevel & Hpos).
    assert (Hline : is_Some (GameState.upgrades s !! "line_length")).
    { destruct (valid_upgrades_lookup s "line_length" Hv) as (l & Hl & _);
        [unfold upgrade_kinds; constructor | eauto]. }
    pose proof (purchase_upgrade_known s name level Hk Hlevel Hpos Hline) as Hknown.
    pose proof (cost_at_defined name level Hk) as Hdef.
    destruct (cost_at name level) as [cost |] eqn:Hcost.
    + destruct (decide (cost ≤ GameState.coins s)).
      * destruct Hknown as (s1 & Hs1 & _ & Hups & _).
        rewrite Hs1 in Hrun. injection Hrun as <- <-.
        unfold levels_bounded. rewrite Hups.
        apply map_Forall_insert_2; [| done].
        assert (0 ≤ level < 5) by (apply Hdef; eauto). simpl. lia.
      * rewrite Hknown in Hrun. by injection Hrun as <- <-.
    + rewrite Hknown in Hrun. by injection Hrun as <- <-.
  - unfold GameState.purchase_upgrade in Hrun.
    rewrite (valid_upgrades_unknown s name Hv Hk) in Hrun. by injection Hrun as <- <-.
Qed.

Lemma apply_op_sound (o : op) (s : GameState.t) :
  sound_economy s → ∃ s', apply_op o s = Ok s' ∧ sound_economy s'.
Proof.
  intros (Hv & Hb & Hz).
  assert (Hret : ∃ s', apply_op o s = Ok s').
  { destruct o; simpl; eauto.
    destruct (purchase_upgrade_returns s upgrade_name Hv) as (b & s' & ->).
    simpl. eauto. }
  destruct Hret as [s' Hs']. exists s'. split; [done |].
  destruct (apply_op_zones o s s' (conj Hv Hz) Hs') as [Hv' Hz'].
  split; [done |]. split; [| done].
  destruct o; simpl in Hs'.
  - injection Hs' as <-. exact Hb.
  - destruct (GameState.purchase_upgrade upgrade_name s) as [[b s1] |] eqn:Hp;
      simpl in Hs'; [| discriminate].
    injection Hs' as <-.
    exact (purchase_upgrade_levels_bounded s s1 upgrade_name b Hv Hb Hp).
  - injection Hs' as <-. unfold GameState.purchase_power_up.
    destruct (_ !! _); [| exact Hb]. destruct (_ <? _); exact Hb.
  - injection Hs' as <-. unfold GameState.use_power_up.
    destruct (_ !! _); [| exact Hb]. destruct (_ <=? _); exact Hb.
  - injection Hs' as <-. unfold GameState.update_stats.
    destruct (Qlt_le_dec _ _); exact Hb.
  - injection Hs' as <-. apply levels_bounded_init.
Qed.

(** X1. From an economy whose three levels lie in 0..5 and whose
    unlocked zones match the line-length level, every sequence of
    economy operations returns normally and ends in such an economy
    again: no level leaves 0..5 and the unlocked zones stay the matching
    prefix. *)
Theorem levels_stay_in_range (ops : list op) (s : GameState.t) :
  valid_upgrades s → levels_bounded s → zones_consistent s →
  ∃ s', run_ops ops s = Ok s' ∧
        valid_upgrades s' ∧ levels_bounded s' ∧ zones_consistent s'.
Proof.
  intros Hv Hb Hz. assert (Hs : sound_economy s) by done. clear Hv Hb Hz.
  revert s Hs. induction ops as [| o ops IH]; intros s Hs; simpl.
  - exists s. by split.
  - destruct (apply_op_sound o s Hs) as (s1 & -> & Hs1). simpl. by apply IH.
Qed.

Lemma levels_stay_in_range_witness :
  ∃ s', run_ops [AddCoins 400; PurchaseUpgrade "line_length";
                 PurchaseUpgrade "line_length"; PurchaseUpgrade "line_length"]
                GameState.init = Ok s' ∧
        GameState.upgrades s' !! "line_length" = Some 2 ∧
        GameState.unlocked_zones s' = ["surface"; "shallows"; "mid_water"] ∧
        valid_upgrades s' ∧ levels_bounded s' ∧ zones_consistent s'.
Proof.
  destruct (levels_stay_in_range
              [AddCoins 400; PurchaseUpgrade "line_length";
               PurchaseUpgrade "line_length"; PurchaseUpgrade "line_length"]
              GameState.init valid_upgrades_init levels_bounded_init
              zones_consistent_init) as (s' & Hrun & Hv & Hb & Hz).
  exists s'. split; [exact Hrun |].
  vm_compute in Hrun. injection Hrun as <-.
  split; [reflexivity |]. split; [reflexivity |]. done.
Defined.

(** X2. With the three levels in 0..5 the derived limits are defined and
    bounded: the depth limit lies in 300..800, the hook capacity in 4..9
    and the round lasts 10 to 35 seconds. *)
Theorem derived_limits_bounded (s : GameState.t) :
  valid_upgrades s → levels_bounded s →
  ∃ depth capacity duration,
    GameState.get_max_depth s = Ok depth ∧ 300 ≤ depth ≤ 800 ∧
    GameState.get_hook_capacity s = Ok capacity ∧ 4 ≤ capacity ≤ 9 ∧
    GameState.get_round_duration s = Ok duration ∧ 10000 ≤ duration ≤ 35000.
Proof.
  intros Hv Hb.
  destruct (valid_upgrades_lookup s "line_length" Hv) as (a & Ha & ?);
    [unfold upgrade_kinds; repeat constructor |].
  destruct (valid_upgrades_lookup s "hook_capacity" Hv) as (b & Hb' & ?);
    [unfold upgrade_kinds; repeat constructor |].
  destruct (valid_upgrades_lookup s "round_timer" Hv) as (c & Hc & ?);
    [unfold upgrade_kinds; repeat constructor |].
  pose proof (Hb _ _ Ha). pose proof (Hb _ _ Hb'). pose proof (Hb _ _ Hc).
  simpl in *.
  exists (300 + 100 * a), (4 + 1 * b), (10000 + 5000 * c).
  rewrite (get_max_depth_level s a Ha), (get_hook_capacity_level s b Hb'),
    (get_round_duration_level s c Hc).
  repeat split; lia.
Qed.

Lemma derived_limits_bounded_witness :
  ∃ depth capacity duration,
    GameState.get_max_depth GameState.init = Ok depth ∧ 300 ≤ depth ≤ 800 ∧
    GameState.get_hook_capacity GameState.init = Ok capacity ∧ 4 ≤ capacity ≤ 9 ∧
    GameState.get_round_duration GameState.init = Ok duration ∧
    10000 ≤ duration ≤ 35000.
Proof.
  exact (derived_limits_bounded GameState.init valid_upgrades_init levels_bounded_init).
Defined.

(** ** Coins *)

Lemma purchase_upgrade_coins (s s' : GameState.t) (name : string) (b : bool) :
  GameState.purchase_upgrade name s = Ok (b, s') →
  GameState.total_coins_earned s' = GameState.total_coins_earned s ∧
  GameState.coins s' ≤ GameState.coins s ∧
  (0 ≤ GameState.coins s → 0 ≤ GameState.coins s').
Proof.
  unfold GameState.purchase_upgrade, GameState._update_unlocked_zones.
  destruct (GameState.upgrades s !! name) as [level |]; [| intros [= <- <-]; lia].
  destruct (Py.dict_getitem Config.UPGRADE_COSTS name) as [costs |] eqn:Hcosts;
    simpl; [| done].
  destruct (Py.len costs <=? level); [intros [= <- <-]; lia |].
  destruct (Py.list_getitem costs level) as [cost |] eqn:Hcost; simpl; [| done].
  destruct (Z.ltb_spec (GameState.coins s) cost); [intros [= <- <-]; lia |].
  destruct (Py.dict_getitem _ "line_length"); simpl; [| done].
  intros [= <- <-]. simpl.
  assert (0 ≤ cost); [| lia].
  (* every entry of every table is positive *)
  unfold Py.dict_getitem in Hcosts.
  destruct (Config.UPGRADE_COSTS !! name) as [costs' |] eqn:Htable; [| done].
  injection Hcosts as ->.
  assert (Hall : map_Forall (fun _ table => Forall (fun c => 0 ≤ c) table)
                            Config.UPGRADE_COSTS).
  { apply (bool_decide_unpack _). vm_compute. exact I. }
  specialize (Hall _ _ Htable). simpl in Hall. rewrite Forall_forall in Hall.
  apply Hall. unfold Py.list_getitem in Hcost.
  destruct (_ <? 0); [| destruct (costs !! _) eqn:Hl; [| done]];
    try done.
  injection Hcost as ->. apply list_elem_of_lookup. eauto.
Qed.

Lemma apply_op_coins (o : op) (s s' : GameState.t) :
  fair o → apply_op o s = Ok s' →
  (0 ≤ GameState.coins s → 0 ≤ GameState.coins s') ∧
  (GameState.coins s ≤ GameState.total_coins_earned s →
   GameState.coins s' ≤ GameState.total_coins_earned s').
Proof.
  intros Hfair Hrun. destruct o; simpl in Hrun, Hfair.
  - injection Hrun as <-. simpl. lia.
  - destruct (GameState.purchase_upgrade upgrade_name s) as [[b s1] |] eqn:Hp;
      simpl in Hrun; [| discriminate].
    injection Hrun as <-.
    destruct (purchase_upgrade_coins s s1 upgrade_name b Hp) as (He & Hle & Hpos).
    split; [done | lia].
  - injection Hrun as <-. unfold GameState.purchase_power_up.
    destruct (_ !! _); [| done].
    destruct (Z.ltb_spec (GameState.coins s) cost); simpl; lia.
  - injection Hrun as <-. unfold GameState.use_power_up.
    destruct (_ !! _); [| done]. by destruct (_ <=? _).
  - injection Hrun as <-. unfold GameState.update_stats.
    by destruct (Qlt_le_dec _ _).
  - injection Hrun as <-. simpl. lia.
Qed.

(** X3. As long as no negative amount is credited and no power-up has a
    negative price, a balance that is non-negative stays non-negative (no
    purchase overdraws it) and a balance that is at most the lifetime
    earnings stays at most the lifetime earnings, through every sequence
    of economy operations. *)
Theorem coins_stay_sound (ops : list op) (s s' : GameState.t) :
  Forall fair ops → run_ops ops s = Ok s' →
  (0 ≤ GameState.coins s → 0 ≤ GameState.coins s') ∧
  (GameState.coins s ≤ GameState.total_coins_earned s →
   GameState.coins s' ≤ GameState.total_coins_earned s').
Proof.
  intros Hfair. revert s. induction Hfair as [| o ops Ho _ IH]; intros s Hrun;
    simpl in Hrun.
  - by injection Hrun as <-.
  - destruct (apply_op o s) as [s1 |] eqn:Hs1; simpl in Hrun; [| discriminate].
    destruct (apply_op_coins o s s1 Ho Hs1) as [H1 H2].
    destruct (IH s1 Hrun) as [H3 H4]. split; auto.
Qed.

Lemma coins_stay_sound_witness :
  ∃ s', run_ops [AddCoins 260; PurchaseUpgrade "hook_capacity";
                 PurchasePowerUp "depth_rush" 50; PurchaseUpgrade "round_timer"]
                GameState.init = Ok s' ∧
        GameState.coins s' = 10 ∧ GameState.total_coins_earned s' = 260 ∧
        0 ≤ GameState.coins s' ≤ GameState.total_coins_earned s'.
Proof.
  eexists. split; [vm_compute; reflexivity |].
  split; [reflexivity |]. split; [reflexivity |].
  match goal with
  | |- 0 ≤ GameState.coins ?s' ≤ _ =>
      destruct (coins_stay_sound
                  [AddCoins 260; PurchaseUpgrade "hook_capacity";
                   PurchasePowerUp "depth_rush" 50; PurchaseUpgrade "round_timer"]
                  GameState.init s') as [H1 H2]
  end.
  - repeat constructor; simpl; lia.
  - vm_compute. reflexivity.
  - split; [apply H1 | apply H2]; vm_compute; discriminate.
Defined.

(** ** Paths of purchases *)

Lemma cost_at_nonneg (kind : string) (level cost : Z) :
  cost_at kind level = Some cost → 0 ≤ cost.
Proof.
  unfold cost_at. destruct (level <? 0); [done |].
  intros H. apply bind_Some in H as (costs & Htable & Hcost).
  assert (Hall : map_Forall (fun _ table => Forall (fun c => 0 ≤ c) table)
                            Config.UPGRADE_COSTS).
  { apply (bool_decide_unpack _). vm_compute. exact I. }
  specialize (Hall _ _ Htable). simpl in Hall. rewrite Forall_forall in Hall.
  apply Hall. apply list_elem_of_lookup. eauto.
Qed.

Lemma path_cost_nonneg (kind : string) (level : Z) (n : nat) :
  0 ≤ path_cost kind level n.
Proof.
  revert level. induction n as [| n IH]; intros level; simpl; [lia |].
  specialize (IH (level + 1)).
  destruct (cost_at kind level) as [c |] eqn:Hc; simpl; [| lia].
  apply cost_at_nonneg in Hc. lia.
Qed.

(** X4. In a valid economy, [n] purchases of one kind in a row, starting
    at level L with L + n <= 5 and at least the sum of the prices of the
    levels L .. L+n-1 in the purse, all go through: the level ends at
    L + n, exactly that sum is debited, and once level five is reached
    the next purchase is refused without any change. *)
Theorem purchase_path (n : nat) (kind : string) (s : GameState.t) (level : Z) :
  valid_upgrades s → kind ∈ upgrade_kinds →
  GameState.upgrades s !! kind = Some level →
  level + Z.of_nat n ≤ 5 →
  path_cost kind level n ≤ GameState.coins s →
  ∃ s', run_ops (replicate n (PurchaseUpgrade kind)) s = Ok s' ∧
        GameState.upgrades s' = <[kind := level + Z.of_nat n]> (GameState.upgrades s) ∧
        GameState.coins s' = GameState.coins s - path_cost kind level n ∧
        (level + Z.of_nat n = 5 →
         GameState.purchase_upgrade kind s' = Ok (false, s')).
Proof.
  revert s level. induction n as [| n IH]; intros s level Hv Hk Hlevel Hmax Hcoins.
  - exists s. simpl. split; [done |]. split; [| split; [lia |]].
    + rewrite Z.add_0_r. symmetry. by apply insert_id.
    + intros Hfive. rewrite Z.add_0_r in Hfive. subst level.
      destruct (valid_upgrades_lookup s "line_length" Hv) as (l & Hl & _);
        [unfold upgrade_kinds; constructor |].
      pose proof (purchase_upgrade_known s kind 5 Hk Hlevel ltac:(lia) ltac:(eauto)) as H.
      pose proof (cost_at_defined kind 5 Hk) as Hdef.
      destruct (cost_at kind 5); [| done].
      assert (0 ≤ 5 < 5) by (apply Hdef; eauto). lia.
  - assert (Hpos : 0 ≤ level) by (destruct Hv as [_ Hp]; exact (Hp _ _ Hlevel)).
    destruct (valid_upgrades_lookup s "line_length" Hv) as (l & Hl & _);
      [unfold upgrade_kinds; constructor |].
    pose proof (purchase_upgrade_known s kind level Hk Hlevel Hpos ltac:(eauto)) as H.
    pose proof (cost_at_defined kind level Hk) as Hdef.
    simpl in Hcoins. pose proof (path_cost_nonneg kind (level + 1) n) as Hrest.
    destruct (cost_at kind level) as [cost |] eqn:Hcost.
    2:{ assert (Hn : ¬ is_Some (None : option Z)) by (intros [? [=]]).
        exfalso. apply Hn, Hdef. lia. }
    simpl in Hcoins. rewrite decide_True in H by lia.
    destruct H as (s1 & Hs1 & Hc1 & Hu1 & _).
    destruct (purchase_upgrade_zones s s1 kind true Hv Hs1) as [Hv1 _].
    destruct (IH s1 (level + 1)) as (s' & Hrun & Hu' & Hc' & Hlast).
    + done.
    + done.
    + rewrite Hu1. apply lookup_insert_eq.
    + lia.
    + lia.
    + exists s'. simpl. rewrite Hs1. simpl. split; [done |].
      split; [| split].
      * rewrite Hu', Hu1, insert_insert_eq. f_equal. lia.
      * cbn [path_cost]. rewrite Hcost. simpl. lia.
      * intros Hfive. apply Hlast. lia.
Qed.

(** Taking the line from level 0 to level 5 costs 3850 coins, the hook
    6200 and the timer 4650; with 4000 coins the line can be maxed, 150
    remain and a sixth purchase is refused. *)
Lemma purchase_path_witness :
  path_cost "line_length" 0 5 = 3850 ∧
  path_cost "hook_capacity" 0 5 = 6200 ∧
  path_cost "round_timer" 0 5 = 4650 ∧
  ∃ s', run_ops (replicate 5 (PurchaseUpgrade "line_length"))
                (GameState.add_coins 4000 GameState.init) = Ok s' ∧
        GameState.coins s' = 150 ∧
        GameState.purchase_upgrade "line_length" s' = Ok (false, s').
Proof.
  split; [reflexivity |]. split; [reflexivity |]. split; [reflexivity |].
  destruct (purchase_path 5 "line_length" (GameState.add_coins 4000 GameState.init) 0)
    as (s' & Hrun & _ & Hc & Hlast).
  - split; apply (bool_decide_unpack _); vm_compute; exact I.
  - constructor.
  - reflexivity.
  - simpl. lia.
  - vm_compute. discriminate.
  - exists s'. split; [exact Hrun |]. split; [rewrite Hc; reflexivity |].
    apply Hlast. reflexivity.
Defined.

(** X5. A level below zero is not refused.  For a level in -5..-1 the
    price read is that of tier 5 + level (the table is indexed from its
    end): with that many coins the purchase goes through and the level
    rises by one; below -5 the call raises [IndexError]. *)
Theorem purchase_upgrade_negative_level (s : GameState.t) (kind : string) (level : Z) :
  kind ∈ upgrade_kinds →
  GameState.upgrades s !! kind = Some level → level < 0 →
  is_Some (GameState.upgrades s !! "line_length") →
  (level < -5 → GameState.purchase_upgrade kind s = Raise IndexError) ∧
  (-5 ≤ level →
   ∃ cost, cost_at kind (5 + level) = Some cost ∧
     (GameState.coins s < cost → GameState.purchase_upgrade kind s = Ok (false, s)) ∧
     (cost ≤ GameState.coins s →
      ∃ s', GameState.purchase_upgrade kind s = Ok (true, s') ∧
            GameState.coins s' = GameState.coins s - cost ∧
            GameState.upgrades s' = <[kind := level + 1]> (GameState.upgrades s))).
Proof.
  intros Hk Hlevel Hneg Hline.
  destruct (upgrade_costs_length kind Hk) as (costs & Hcosts & Hlen).
  assert (Hrun : GameState.purchase_upgrade kind s =
    let* cost := Py.list_getitem costs level in
    if GameState.coins s <? cost then Ok (false, s)
    else
      let* s' := GameState._update_unlocked_zones
                   (GameState.set_upgrades
                      (<[kind := level + 1]> (GameState.upgrades s))
                      (GameState.set_coins (GameState.coins s - cost) s)) in
      Ok (true, s')).
  { unfold GameState.purchase_upgrade. rewrite Hlevel.
    unfold Py.dict_getitem. rewrite Hcosts. simpl. rewrite Hlen.
    destruct (Z.leb_spec 5 level); [lia | done]. }
  rewrite Hrun. clear Hrun. unfold Py.list_getitem. rewrite Hlen.
  destruct (Z.ltb_spec level 0); [| lia]. split.
  - intros Hlow. destruct (Z.ltb_spec (5 + level) 0); [done | lia].
  - intros Hhigh. destruct (Z.ltb_spec (5 + level) 0); [lia |].
    pose proof (cost_at_defined kind (5 + level) Hk) as Hdef.
    destruct (cost_at kind (5 + level)) as [cost |] eqn:Hcost.
    2:{ assert (Hn : ¬ is_Some (None : option Z)) by (intros [? [=]]).
        exfalso. apply Hn, Hdef. lia. }
    exists cost. split; [done |].
    unfold cost_at in Hcost. destruct (Z.ltb_spec (5 + level) 0); [lia |].
    rewrite Hcosts in Hcost. simpl in Hcost. rewrite Hcost. simpl.
    split.
    + intros Hpoor. destruct (Z.ltb_spec (GameState.coins s) cost); [done | lia].
    + intros Hrich. destruct (Z.ltb_spec (GameState.coins s) cost); [lia |].
      unfold GameState._update_unlocked_zones, Py.dict_getitem. simpl.
      assert (Hl : is_Some (<[kind := level + 1]> (GameState.upgrades s) !! "line_length")).
      { rewrite lookup_insert. case_decide; eauto. }
      destruct Hl as [l ->]. simpl. eexists. split; [reflexivity |]. done.
Qed.

(** At level -1 the timer upgrade is charged the price of its last tier,
    2400 coins. *)
Lemma purchase_upgrade_negative_level_witness :
  let s := GameState.set_coins 3000
             (GameState.set_upgrades
                (list_to_map [("line_length", 0); ("hook_capacity", 0); ("round_timer", -1)])
                GameState.init) in
  ∃ s', GameState.purchase_upgrade "round_timer" s = Ok (true, s') ∧
        GameState.coins s' = 600 ∧
        GameState.upgrades s' !! "round_timer" = Some 0.
Proof.
  intros s.
  destruct (purchase_upgrade_negative_level s "round_timer" (-1)) as [_ H].
  - do 2 constructor. constructor.
  - reflexivity.
  - lia.
  - vm_compute. eauto.
  - destruct H as (cost & Hcost & _ & Hbuy); [lia |].
    vm_compute in Hcost. injection Hcost as <-.
    destruct Hbuy as (s' & Hs' & Hc & Hu); [vm_compute; discriminate |].
    exists s'. split; [exact Hs' |]. split; [rewrite Hc; reflexivity |].
    rewrite Hu. reflexivity.
Defined.

(** ** Statistics and loading *)

(** [update_stats] adds the fish to the lifetime count and moves the
    deepest depth to the larger of the old record and the new depth: the
    record never goes down, and nothing else changes. *)
Lemma update_stats_spec (depth : Q) (fish_caught : Z) (s : GameState.t) :
  let s' := GameState.update_stats depth fish_caught s in
  GameState.total_fish_caught s' = GameState.total_fish_caught s + fish_caught ∧
  (GameState.deepest_depth_reached s <= GameState.deepest_depth_reached s')%Q ∧
  (depth <= GameState.deepest_depth_reached s')%Q ∧
  (GameState.deepest_depth_reached s' = GameState.deepest_depth_reached s ∨
   GameState.deepest_depth_reached s' = depth) ∧
  GameState.coins s' = GameState.coins s ∧
  GameState.upgrades s' = GameState.upgrades s ∧
  GameState.power_ups s' = GameState.power_ups s ∧
  GameState.unlocked_zones s' = GameState.unlocked_zones s ∧
  GameState.total_coins_earned s' = GameState.total_coins_earned s.
Proof.
  unfold GameState.update_stats. simpl.
  destruct (Qlt_le_dec (GameState.deepest_depth_reached s) depth) as [Hlt | Hle]; simpl.
  - repeat split; auto; try apply Qle_refl. by apply Qlt_le_weak.
  - repeat split; auto; apply Qle_refl.
Qed.

(** X6. [load_game] without a save file answers false and changes
    nothing.  With a record it answers true; loading the same record
    again changes nothing more; a record without "upgrades" or
    "power_ups" keeps the dictionary the economy had (not the initial
    one), one without "coins" gives 0 coins and one without
    "unlocked_zones" gives only the surface; and a record holding both
    dictionaries determines the result whatever it is loaded into. *)
Theorem load_game_partial (r : GameState.save_record) (s : GameState.t) :
  GameState.load_game None s = (false, s) ∧
  (GameState.load_game (Some r) s).1 = true ∧
  GameState.load_game (Some r) (GameState.load_game (Some r) s).2
    = GameState.load_game (Some r) s ∧
  (GameState.sv_upgrades r = None →
   GameState.upgrades (GameState.load_game (Some r) s).2 = GameState.upgrades s) ∧
  (GameState.sv_power_ups r = None →
   GameState.power_ups (GameState.load_game (Some r) s).2 = GameState.power_ups s) ∧
  (GameState.sv_coins r = None →
   GameState.coins (GameState.load_game (Some r) s).2 = 0) ∧
  (GameState.sv_unlocked_zones r = None →
   GameState.unlocked_zones (GameState.load_game (Some r) s).2 = ["surface"]) ∧
  (is_Some (GameState.sv_upgrades r) → is_Some (GameState.sv_power_ups r) →
   ∀ s0, GameState.load_game (Some r) s0 = GameState.load_game (Some r) s).
Proof.
  destruct r as [c u p z st]. simpl.
  split; [done |]. split; [done |]. split.
  { destruct u, p; reflexivity. }
  split; [by intros -> |]. split; [by intros -> |]. split; [by intros -> |].
  split; [by intros -> |].
  intros [u' ->] [p' ->] s0. reflexivity.
Qed.

(** X7. [load_game] installs the record's "upgrades" dictionary as it is:
    when a key is missing in it, the load still answers true and the
    getter of that key then raises [KeyError]. *)
Theorem load_game_incomplete_upgrades
    (r : GameState.save_record) (s : GameState.t) (ups : gmap string Z) :
  GameState.sv_upgrades r = Some ups →
  let loaded := GameState.load_game (Some r) s in
  loaded.1 = true ∧
  (ups !! "line_length" = None →
   GameState.get_max_depth loaded.2 = Raise (KeyError "line_length")) ∧
  (ups !! "hook_capacity" = None →
   GameState.get_hook_capacity loaded.2 = Raise (KeyError "hook_capacity")) ∧
  (ups !! "round_timer" = None →
   GameState.get_round_duration loaded.2 = Raise (KeyError "round_timer")).
Proof.
  intros Hu. destruct r as [c u p z st]. simpl in Hu. subst u. simpl.
  unfold GameState.get_max_depth, GameState.get_hook_capacity,
    GameState.get_round_duration, Py.dict_getitem. simpl.
  split; [done |]. repeat split; intros ->; reflexivity.
Qed.

(** A save made before the round timer could be upgraded: it loads, and
    asking for the round duration raises. *)
Lemma load_game_incomplete_upgrades_witness :
  let r := GameState.mk_save (Some 40)
             (Some (list_to_map [("line_length", 1); ("hook_capacity", 0)]))
             None None None in
  (GameState.load_game (Some r) GameState.init).1 = true ∧
  GameState.get_max_depth (GameState.load_game (Some r) GameState.init).2 = Ok 400 ∧
  GameState.get_round_duration (GameState.load_game (Some r) GameState.init).2
    = Raise (KeyError "round_timer").
Proof.
  intros r.
  destruct (load_game_incomplete_upgrades r GameState.init
              (list_to_map [("line_length", 1); ("hook_capacity", 0)]) eq_refl)
    as (Hok & _ & _ & Htimer).
  split; [exact Hok |]. split; [reflexivity |]. apply Htimer. reflexivity.
Defined.

(** ** Unlocked zones over a purchase *)

Lemma zone_prefix_mono (n m : nat) :
  (n ≤ m)%nat → take n zone_order `prefix_of` take m zone_order.
Proof.
  intros Hle. replace (take n zone_order) with (take n (take m zone_order)).
  - apply prefix_take.
  - rewrite take_take. f_equal. lia.
Qed.

(** X8. In a valid economy whose unlocked zones match the line-length
    level, a purchase never locks a zone: the zones unlocked before are a
    prefix of those unlocked after, and the surface is always among
    them. *)
Theorem purchase_keeps_zones (s s' : GameState.t) (name : string) (b : bool) :
  valid_upgrades s → zones_consistent s →
  GameState.purchase_upgrade name s = Ok (b, s') →
  GameState.unlocked_zones s `prefix_of` GameState.unlocked_zones s' ∧
  head (GameState.unlocked_zones s') = Some "surface".
Proof.
  intros Hv Hz Hrun.
  destruct (valid_upgrades_lookup s "line_length" Hv) as (l & Hl & Hlpos);
    [unfold upgrade_kinds; constructor |].
  assert (Hzs : GameState.unlocked_zones s = take (Z.to_nat (5 `min` (l + 1))) zone_order).
  { destruct Hz as (l' & Hl' & _ & Hz). rewrite Hl in Hl'. by injection Hl' as <-. }
  assert (Hhead : ∀ k, 0 ≤ k →
            head (take (Z.to_nat (5 `min` (k + 1))) zone_order) = Some "surface").
  { intros k Hk. destruct (Z.to_nat (5 `min` (k + 1))) eqn:Hn; [lia | done]. }
  destruct (purchase_upgrade_zones s s' name b Hv Hrun) as [Hv' Hb].
  destruct b.
  - destruct Hb as (l' & Hl' & _ & Hz').
    assert (Hmono : l ≤ l').
    { destruct (decide (name ∈ upgrade_kinds)) as [Hk | Hk].
      - destruct (valid_upgrades_lookup s name Hv Hk) as (level & Hlevel & Hpos).
        pose proof (purchase_upgrade_known s name level Hk Hlevel Hpos ltac:(eauto)) as H.
        destruct (cost_at name level) as [cost |].
        + destruct (decide (cost ≤ GameState.coins s)).
          * destruct H as (s1 & Hs1 & _ & Hu & _). rewrite Hs1 in Hrun.
            injection Hrun as <-. rewrite Hu in Hl'.
            rewrite lookup_insert in Hl'. case_decide as Hname.
            -- subst name. rewrite Hl in Hlevel. injection Hlevel as <-.
               injection Hl' as <-. lia.
            -- rewrite Hl in Hl'. injection Hl' as <-. lia.
          * rewrite H in Hrun. discriminate.
        + rewrite H in Hrun. discriminate.
      - unfold GameState.purchase_upgrade in Hrun.
        rewrite (valid_upgrades_unknown s name Hv Hk) in Hrun. discriminate. }
    rewrite Hzs, Hz'. split; [apply zone_prefix_mono; lia | apply Hhead; lia].
  - subst s'. split; [done |]. rewrite Hzs. by apply Hhead.
Qed.

Lemma purchase_keeps_zones_witness :
  let s := GameState.add_coins 100 GameState.init in
  ∃ s', GameState.purchase_upgrade "line_length" s = Ok (true, s') ∧
        GameState.unlocked_zones s = ["surface"] ∧
        GameState.unlocked_zones s' = ["surface"; "shallows"] ∧
        GameState.unlocked_zones s `prefix_of` GameState.unlocked_zones s'.
Proof.
  intros s. eexists. split; [vm_compute; reflexivity |].
  split; [reflexivity |]. split; [reflexivity |].
  match goal with
  | |- _ `prefix_of` GameState.unlocked_zones ?s' =>
      destruct (purchase_keeps_zones s s' "line_length" true) as [H _]
  end.
  - split; apply (bool_decide_unpack _); vm_compute; exact I.
  - exists 0. repeat split.
  - vm_compute. reflexivity.
  - exact H.
Defined.

(** * Further properties of the hook *)

(** X9. Under a defined capacity [add_caught_fish] returns normally and
    a caught list without repetitions stays without repetitions: no fish
    is ever on the hook twice. *)
Theorem add_caught_fish_no_duplicates
    (game_state : option GameState.t) (l : FishingLine.t) (fish : nat) (capacity : Z) :
  FishingLine.get_hook_capacity game_state = Ok capacity →
  NoDup (FishingLine.caught_fish l) →
  ∃ added l',
    FishingLine.add_caught_fish game_state fish l = Ok (added, l') ∧
    NoDup (FishingLine.caught_fish l') ∧
    (added = true ↔
     (fish ∉ FishingLine.caught_fish l) ∧ (fish ∈ FishingLine.caught_fish l')).
Proof.
  intros Hcap Hnd. unfold FishingLine.add_caught_fish. rewrite Hcap. simpl.
  unfold Py.ref_in.
  destruct (Z.ltb_spec (Py.len (FishingLine.caught_fish l)) capacity).
  - destruct (decide (fish ∈ FishingLine.caught_fish l)) as [Hin | Hout].
    + rewrite bool_decide_eq_true_2 by done. simpl. exists false, l.
      split; [done |]. split; [done |]. split; [done | by intros [? _]].
    + rewrite bool_decide_eq_false_2 by done. simpl. eexists true, _.
      split; [reflexivity |]. simpl. split.
      * apply NoDup_app. split; [done |]. split; [| apply NoDup_singleton].
        intros x Hx Hx'. apply list_elem_of_singleton in Hx'. by subst.
      * split; [| done]. intros _. split; [done |].
        apply elem_of_app. right. by apply list_elem_of_singleton.
  - exists false, l. split; [done |]. split; [done |].
    split; [done |]. intros [Hout Hin]. contradiction.
Qed.

Lemma add_caught_fish_no_duplicates_witness :
  let l := FishingLine.mk 0 true (Rect.mk 390 300 20 20) 0 [7%nat; 9%nat] in
  NoDup (FishingLine.caught_fish l) ∧
  FishingLine.add_caught_fish (Some GameState.init) 9%nat l = Ok (false, l).
Proof.
  intros l.
  assert (Hnd : NoDup (FishingLine.caught_fish l)).
  { apply (bool_decide_unpack _). vm_compute. exact I. }
  split; [exact Hnd |].
  destruct (add_caught_fish_no_duplicates (Some GameState.init) l 9%nat 4 eq_refl Hnd)
    as (added & l' & Hrun & Hnd' & _).
  reflexivity.
Defined.

(** X10. [is_at_capacity] answers true exactly when [add_caught_fish]
    refuses every fish; when it answers false, every fish that is not yet
    on the hook is accepted. *)
Theorem is_at_capacity_refuses
    (game_state : option GameState.t) (l : FishingLine.t) (capacity : Z) :
  FishingLine.get_hook_capacity game_state = Ok capacity →
  (FishingLine.is_at_capacity game_state l = Ok true ↔
   ∀ fish, FishingLine.add_caught_fish game_state fish l = Ok (false, l)) ∧
  (FishingLine.is_at_capacity game_state l = Ok false →
   ∀ fish, fish ∉ FishingLine.caught_fish l →
     FishingLine.add_caught_fish game_state fish l =
       Ok (true, FishingLine.set_caught_fish (FishingLine.caught_fish l ++ [fish]) l)).
Proof.
  intros Hcap. unfold FishingLine.is_at_capacity, FishingLine.add_caught_fish.
  rewrite Hcap. simpl. unfold Py.ref_in.
  destruct (Z.leb_spec capacity (Py.len (FishingLine.caught_fish l))) as [Hfull | Hroom];
    destruct (Z.ltb_spec (Py.len (FishingLine.caught_fish l)) capacity); try lia.
  - split; [done | discriminate].
  - split.
    + split; [discriminate |]. intros Hall.
      specialize (Hall (fresh (FishingLine.caught_fish l))).
      rewrite bool_decide_eq_false_2 in Hall by apply infinite_is_fresh.
      discriminate.
    + intros _ fish Hout. by rewrite bool_decide_eq_false_2.
Qed.

Lemma is_at_capacity_refuses_witness :
  let l := FishingLine.mk 0 true (Rect.mk 390 300 20 20) 0
             [0%nat; 1%nat; 2%nat; 3%nat] in
  FishingLine.is_at_capacity (Some GameState.init) l = Ok true ∧
  FishingLine.add_caught_fish (Some GameState.init) 8%nat l = Ok (false, l).
Proof.
  intros l.
  destruct (is_at_capacity_refuses (Some GameState.init) l 4 eq_refl) as [[H _] _].
  split; [reflexivity |]. apply H. reflexivity.
Defined.

(** X11. [reset] keeps the depth and [full_reset] sets it to zero; both
    empty the hook, center it and set it descending, so that with a
    positive capacity the hook is not at capacity afterwards and takes
    any fish. *)
Theorem resets_clear_hook
    (game_state : option GameState.t) (l : FishingLine.t) (capacity : Z) (fish : nat) :
  FishingLine.get_hook_capacity game_state = Ok capacity → 0 < capacity →
  FishingLine.current_depth (FishingLine.reset l) = FishingLine.current_depth l ∧
  FishingLine.current_depth (FishingLine.full_reset l) = 0%Q ∧
  FishingLine.full_reset l = FishingLine.full_reset (FishingLine.reset l) ∧
  FishingLine.caught_fish (FishingLine.reset l) = [] ∧
  FishingLine.horizontal_offset (FishingLine.reset l) = 0 ∧
  FishingLine.descending (FishingLine.reset l) = true ∧
  FishingLine.is_at_capacity game_state (FishingLine.reset l) = Ok false ∧
  FishingLine.is_at_capacity game_state (FishingLine.full_reset l) = Ok false ∧
  FishingLine.add_caught_fish game_state fish (FishingLine.full_reset l) =
    Ok (true, FishingLine.set_caught_fish [fish] (FishingLine.full_reset l)).
Proof.
  intros Hcap Hpos.
  unfold FishingLine.is_at_capacity, FishingLine.add_caught_fish. rewrite Hcap. simpl.
  change (Py.len []) with 0.
  destruct (Z.leb_spec capacity 0); [lia |].
  destruct (Z.ltb_spec 0 capacity); [| lia].
  repeat split.
Qed.

Lemma resets_clear_hook_witness :
  let l := FishingLine.mk 250 true (Rect.mk 390 300 20 20) 120
             [0%nat; 1%nat; 2%nat; 3%nat] in
  FishingLine.current_depth (FishingLine.reset l) = 250%Q ∧
  FishingLine.current_depth (FishingLine.full_reset l) = 0%Q ∧
  FishingLine.is_at_capacity (Some GameState.init) l = Ok true ∧
  FishingLine.is_at_capacity (Some GameState.init) (FishingLine.reset l) = Ok false.
Proof.
  intros l.
  destruct (resets_clear_hook (Some GameState.init) l 4 5%nat eq_refl ltac:(lia))
    as (H1 & H2 & _ & _ & _ & _ & H3 & _).
  split; [exact H1 |]. split; [exact H2 |]. split; [reflexivity | exact H3].
Defined.

(** ** The descent *)

Lemma is_int_c_int (v : Z) : Rect.is_int v = true ↔ c_int v.
Proof.
  unfold Rect.is_int, c_int. rewrite andb_true_iff, !Z.leb_le. tauto.
Qed.

Lemma is_int_not_c_int (v : Z) : Rect.is_int v = false ↔ ¬ c_int v.
Proof.
  rewrite <- is_int_c_int. destruct (Rect.is_int v); split; done.
Qed.

Lemma wrap_shift (v h : Z) : Rect.wrap (Rect.wrap (v - h) + h) = Rect.wrap v.
Proof.
  unfold Rect.wrap. f_equal.
  replace ((v - h - Rect.INT_MIN) mod 2 ^ 32 + Rect.INT_MIN + h - Rect.INT_MIN)
    with ((v - h - Rect.INT_MIN) mod 2 ^ 32 + h) by lia.
  rewrite Zplus_mod_idemp_l. f_equal. lia.
Qed.

Lemma wrap_c_int (v : Z) : c_int v → Rect.wrap v = v.
Proof.
  unfold c_int, Rect.wrap, Rect.INT_MIN, Rect.INT_MAX.
  change (2 ^ 31) with 2147483648. change (2 ^ 32) with 4294967296.
  intros H. rewrite Z.mod_small by lia. lia.
Qed.

(** Where the hook is once it has been placed on a column that a C [int]
    holds. *)
Lemma hook_rect_placed (v : Z) (r : Rect.t) :
  c_int v →
  Rect.centerx (hook_at v r) = v ∧ Rect.top (hook_at v r) = 300 ∧
  Rect.width (hook_at v r) = Rect.width r ∧ Rect.height (hook_at v r) = Rect.height r.
Proof.
  intros Hv. unfold Rect.centerx, Rect.top, hook_at. cbn [Rect.x Rect.y Rect.width Rect.height].
  rewrite wrap_shift, wrap_c_int by done. done.
Qed.

(** What one [update] does to a descending line. *)
Lemma update_descending
    (game_state : option GameState.t) (start_pos : Z * Z) (l : FishingLine.t)
    (max_depth : Z) :
  FishingLine.get_max_depth game_state = Ok max_depth →
  FishingLine.descending l = true →
  FishingLine.update game_state start_pos l =
    if Rect.is_int (start_pos.1 + FishingLine.horizontal_offset l)
    then Ok (FishingLine.mk
               (if Qle_bool (inject_Z max_depth)
                            (FishingLine.current_depth l + Config.BASE_LINE_SPEED)
                then inject_Z max_depth
                else (FishingLine.current_depth l + Config.BASE_LINE_SPEED)%Q)
               true
               (hook_at (start_pos.1 + FishingLine.horizontal_offset l)
                        (FishingLine.hook_rect l))
               (FishingLine.horizontal_offset l)
               (FishingLine.caught_fish l))
    else Raise TypeError.
Proof.
  intros Hmax Hdesc. unfold FishingLine.update. rewrite Hdesc, Hmax. cbn [bind].
  destruct (Qle_bool _ _); cbn [bind FishingLine.horizontal_offset FishingLine.hook_rect];
    unfold Rect.set_centerx; destruct (Rect.is_int _); reflexivity.
Qed.

(** What one [update] does to a line that is being reeled in. *)
Lemma update_retracting
    (game_state : option GameState.t) (start_pos : Z * Z) (l : FishingLine.t) :
  FishingLine.descending l = false →
  FishingLine.update game_state start_pos l =
    if Qle_bool (FishingLine.current_depth l - inject_Z Config.BASE_REEL_SPEED) 0
    then if Rect.is_int start_pos.1
         then Ok (FishingLine.mk 0 true (hook_at start_pos.1 (FishingLine.hook_rect l)) 0 [])
         else Raise TypeError
    else if Rect.is_int (start_pos.1 + FishingLine.horizontal_offset l)
         then Ok (FishingLine.mk
                    (FishingLine.current_depth l - inject_Z Config.BASE_REEL_SPEED)
                    false
                    (hook_at (start_pos.1 + FishingLine.horizontal_offset l)
                             (FishingLine.hook_rect l))
                    (FishingLine.horizontal_offset l)
                    (FishingLine.caught_fish l))
         else Raise TypeError.
Proof.
  intros Hdesc. unfold FishingLine.update. rewrite Hdesc.
  destruct (Qle_bool _ _); cbn [bind FishingLine.horizontal_offset FishingLine.hook_rect];
    rewrite ?Z.add_0_r; unfold Rect.set_centerx; destruct (Rect.is_int _); reflexivity.
Qed.

(** What an [update] that returns has done to the hook and the lists. *)
Lemma update_returned
    (game_state : option GameState.t) (start_pos : Z * Z) (l l' : FishingLine.t) :
  FishingLine.update game_state start_pos l = Ok l' →
  c_int (start_pos.1 + FishingLine.horizontal_offset l') ∧
  FishingLine.hook_rect l'
    = hook_at (start_pos.1 + FishingLine.horizontal_offset l') (FishingLine.hook_rect l) ∧
  (FishingLine.horizontal_offset l' = FishingLine.horizontal_offset l ∨
   FishingLine.descending l = false ∧ FishingLine.horizontal_offset l' = 0) ∧
  (FishingLine.descending l = true →
   FishingLine.descending l' = true ∧
   FishingLine.horizontal_offset l' = FishingLine.horizontal_offset l ∧
   FishingLine.caught_fish l' = FishingLine.caught_fish l).
Proof.
  destruct (FishingLine.descending l) eqn:Hdesc.
  - destruct (FishingLine.get_max_depth game_state) as [max_depth |] eqn:Hmax.
    2:{ unfold FishingLine.update. by rewrite Hdesc, Hmax. }
    rewrite (update_descending game_state start_pos l max_depth Hmax Hdesc).
    destruct (Rect.is_int _) eqn:Hint; [| done]. apply is_int_c_int in Hint.
    intros [= <-]. cbn [FishingLine.horizontal_offset FishingLine.hook_rect
                        FishingLine.descending FishingLine.caught_fish].
    split; [done |]. split; [done |]. split; [by left |]. done.
  - rewrite (update_retracting game_state start_pos l Hdesc).
    destruct (Qle_bool _ _).
    + destruct (Rect.is_int _) eqn:Hint; [| done]. apply is_int_c_int in Hint.
      intros [= <-]. cbn [FishingLine.horizontal_offset FishingLine.hook_rect].
      rewrite Z.add_0_r. split; [done |]. split; [done |]. split; [by right |]. done.
    + destruct (Rect.is_int _) eqn:Hint; [| done]. apply is_int_c_int in Hint.
      intros [= <-]. cbn [FishingLine.horizontal_offset FishingLine.hook_rect].
      split; [done |]. split; [done |]. split; [by left |]. done.
Qed.

Lemma float_depth_nonneg (depth : Q) : float_depth depth → (0 <= depth)%Q.
Proof.
  intros (k & [Hk _] & Heq). rewrite Heq.
  assert (Hk' : (0 <= inject_Z k)%Q).
  { change 0%Q with (inject_Z 0). by rewrite <- Zle_Qle. }
  lra.
Qed.

Lemma float_depth_limit (max_depth : Z) :
  0 ≤ max_depth ≤ 2 ^ 51 → float_depth (inject_Z max_depth).
Proof.
  intros Hm. exists (2 * max_depth). split.
  - change (2 ^ 52) with (2 * 2 ^ 51). lia.
  - rewrite inject_Z_mult. change (inject_Z 2) with 2%Q. lra.
Qed.

(** X12. One [update] of a line at a depth the floats hold exactly, under
    a maximum depth of at most 2^51, with the rod and the hook on columns
    a C integer holds: the call returns, and the depth stays within
    0 .. max_depth and exact.  From a non-negative depth the result is
    non-negative; a descending line ends at most at the maximum depth
    (also when it started beyond it) and, when it started within the
    limit, no higher than it was; a line being reeled in never gets
    deeper.  The caught list of a descending line is not touched.  When
    the hook's column is not a C integer, the update of a descending line
    raises [TypeError]. *)
Theorem update_depth_in_range
    (game_state : option GameState.t) (start_pos : Z * Z) (l : FishingLine.t)
    (max_depth : Z) :
  FishingLine.get_max_depth game_state = Ok max_depth → 0 ≤ max_depth ≤ 2 ^ 51 →
  float_depth (FishingLine.current_depth l) →
  (c_int start_pos.1 → c_int (start_pos.1 + FishingLine.horizontal_offset l) →
   ∃ l', FishingLine.update game_state start_pos l = Ok l' ∧
         float_depth (FishingLine.current_depth l') ∧
         (0 <= FishingLine.current_depth l')%Q ∧
         (FishingLine.descending l = true →
          (FishingLine.current_depth l' <= inject_Z max_depth)%Q ∧
          ((FishingLine.current_depth l <= inject_Z max_depth)%Q →
           (FishingLine.current_depth l <= FishingLine.current_depth l')%Q) ∧
          FishingLine.descending l' = true ∧
          FishingLine.caught_fish l' = FishingLine.caught_fish l) ∧
         (FishingLine.descending l = false →
          (FishingLine.current_depth l' <= FishingLine.current_depth l)%Q)) ∧
  (FishingLine.descending l = true →
   ¬ c_int (start_pos.1 + FishingLine.horizontal_offset l) →
   FishingLine.update game_state start_pos l = Raise TypeError).
Proof.
  intros Hmax Hpos Hfloat. split.
  2:{ intros Hdesc Hno. rewrite (update_descending _ _ _ _ Hmax Hdesc).
      apply is_int_not_c_int in Hno. by rewrite Hno. }
  intros Hrod Hhook.
  assert (Hd : (0 <= FishingLine.current_depth l)%Q) by by apply float_depth_nonneg.
  assert (Hm : (0 <= inject_Z max_depth)%Q).
  { change 0%Q with (inject_Z 0). rewrite <- Zle_Qle. lia. }
  assert (Hlimit := float_depth_limit max_depth Hpos).
  destruct Hfloat as (k & Hk & Heq).
  apply is_int_c_int in Hrod, Hhook.
  destruct (FishingLine.descending l) eqn:Hdesc.
  - rewrite (update_descending game_state start_pos l max_depth Hmax Hdesc), Hhook.
    eexists. split; [reflexivity |]. cbn [FishingLine.current_depth
      FishingLine.descending FishingLine.caught_fish].
    unfold Config.BASE_LINE_SPEED.
    destruct (Qle_bool (inject_Z max_depth) (FishingLine.current_depth l + (1 # 2)))
      eqn:Hcmp.
    + apply Qle_bool_iff in Hcmp.
      split; [done |]. split; [done |]. split; [| done]. intros _.
      split; [apply Qle_refl |]. split; [done |]. done.
    + assert (Hlt : ¬ (inject_Z max_depth <= FishingLine.current_depth l + (1 # 2))%Q).
      { rewrite <- Qle_bool_iff. by rewrite Hcmp. }
      split.
      { exists (k + 1). split.
        - assert (k + 1 < 2 * max_depth).
          { rewrite Zlt_Qlt, inject_Z_mult, inject_Z_plus.
            change (inject_Z 2) with 2%Q. change (inject_Z 1) with 1%Q. lra. }
          change (2 ^ 52) with (2 * 2 ^ 51). lia.
        - rewrite inject_Z_plus. change (inject_Z 1) with 1%Q. lra. }
      split; [lra |]. split; [| done]. intros _.
      split; [lra |]. split; [intros _; lra |]. done.
  - rewrite (update_retracting game_state start_pos l Hdesc).
    unfold Config.BASE_REEL_SPEED.
    assert (H5 : (inject_Z 5 == 5)%Q) by reflexivity.
    destruct (Qle_bool (FishingLine.current_depth l - inject_Z 5) 0) eqn:Hcmp.
    + rewrite Hrod. eexists. split; [reflexivity |]. cbn [FishingLine.current_depth].
      split; [exists 0; split; [lia | reflexivity] |].
      split; [apply Qle_refl |]. split; [done |]. intros _. done.
    + rewrite Hhook. eexists. split; [reflexivity |]. cbn [FishingLine.current_depth].
      assert (Hlt : ¬ (FishingLine.current_depth l - inject_Z 5 <= 0)%Q).
      { rewrite <- Qle_bool_iff. by rewrite Hcmp. }
      split.
      { exists (k - 10). split.
        - assert (10 < k).
          { rewrite Zlt_Qlt. change (inject_Z 10) with 10%Q. lra. }
          lia.
        - unfold Z.sub. rewrite inject_Z_plus. change (inject_Z (- (10))) with (- (10))%Q.
          lra. }
      split; [lra |]. split; [done |]. intros _. lra.
Qed.

(** One frame from depth 299.5 under the starting economy's limit of 300
    stops at 300. *)
Lemma update_depth_in_range_witness :
  let l := FishingLine.mk (599 # 2) true (Rect.mk 390 300 20 20) 0 [] in
  ∃ l', FishingLine.update (Some GameState.init) (420, 5) l = Ok l' ∧
        FishingLine.current_depth l' = 300%Q.
Proof.
  intros l.
  assert (Hfloat : float_depth (FishingLine.current_depth l)).
  { exists 599. split; [split; [lia | apply (bool_decide_unpack _); vm_compute; exact I] |].
    reflexivity. }
  assert (Hlimit : 0 ≤ 300 ≤ 2 ^ 51).
  { split; [lia | apply (bool_decide_unpack _); vm_compute; exact I]. }
  destruct (update_depth_in_range (Some GameState.init) (420, 5) l 300 eq_refl Hlimit Hfloat)
    as [Hreturns _].
  destruct Hreturns as (l' & Hrun & _).
  - apply is_int_c_int. reflexivity.
  - apply is_int_c_int. reflexivity.
  - exists l'. split; [exact Hrun |].
    vm_compute in Hrun. injection Hrun as <-. reflexivity.
Defined.

Lemma descent_step
    (game_state : option GameState.t) (start_pos : Z * Z) (l : FishingLine.t)
    (max_depth k : Z) :
  FishingLine.get_max_depth game_state = Ok max_depth →
  c_int (start_pos.1 + FishingLine.horizontal_offset l) →
  FishingLine.descending l = true →
  descended max_depth k (FishingLine.current_depth l) →
  ∃ l', FishingLine.update game_state start_pos l = Ok l' ∧
        FishingLine.descending l' = true ∧
        FishingLine.horizontal_offset l' = FishingLine.horizontal_offset l ∧
        FishingLine.caught_fish l' = FishingLine.caught_fish l ∧
        descended max_depth (k + 1) (FishingLine.current_depth l').
Proof.
  intros Hmax Hhook Hdesc [Hbelow Hat]. apply is_int_c_int in Hhook.
  rewrite (update_descending game_state start_pos l max_depth Hmax Hdesc), Hhook.
  eexists. split; [reflexivity |]. split; [done |]. split; [done |]. split; [done |].
  cbn [FishingLine.current_depth].
  unfold Config.BASE_LINE_SPEED.
  assert (Hk1 : (inject_Z (k + 1) == inject_Z k + 1)%Q) by (rewrite inject_Z_plus; reflexivity).
  destruct (Z.le_gt_cases k (2 * max_depth)) as [Hle | Hgt].
  - specialize (Hbelow Hle).
    assert (Hle' : (inject_Z k <= 2 * inject_Z max_depth)%Q).
    { change 2%Q with (inject_Z 2). rewrite <- inject_Z_mult, <- Zle_Qle. lia. }
    destruct (Qle_bool (inject_Z max_depth) (FishingLine.current_depth l + (1 # 2)))
      eqn:Hcmp.
    + apply Qle_bool_iff in Hcmp.
      assert (Hge : 2 * max_depth ≤ k + 1).
      { rewrite Zle_Qle, inject_Z_mult, inject_Z_plus.
        change (inject_Z 2) with 2%Q. change (inject_Z 1) with 1%Q. lra. }
      split; [| done]. intros Hle1.
      assert (k + 1 = 2 * max_depth) by lia.
      assert (Heq : (inject_Z (k + 1) == 2 * inject_Z max_depth)%Q).
      { change 2%Q with (inject_Z 2). rewrite <- inject_Z_mult. by f_equiv. }
      lra.
    + assert (Hlt : ¬ (inject_Z max_depth <= FishingLine.current_depth l + (1 # 2))%Q).
      { rewrite <- Qle_bool_iff. by rewrite Hcmp. }
      split; [intros _; lra |]. intros Hge. exfalso. apply Hlt.
      assert (Hge' : (2 * inject_Z max_depth <= inject_Z (k + 1))%Q).
      { change 2%Q with (inject_Z 2). rewrite <- inject_Z_mult, <- Zle_Qle. lia. }
      lra.
  - specialize (Hat ltac:(lia)).
    rewrite (proj2 (Qle_bool_iff _ _)) by lra.
    split; [intros ?; lia | done].
Qed.

Lemma descent_steps
    (n : nat) (game_state : option GameState.t) (start_pos : Z * Z) (l : FishingLine.t)
    (max_depth k : Z) :
  FishingLine.get_max_depth game_state = Ok max_depth →
  c_int (start_pos.1 + FishingLine.horizontal_offset l) →
  FishingLine.descending l = true →
  descended max_depth k (FishingLine.current_depth l) →
  ∃ l', FishingLine.updates n game_state start_pos l = Ok l' ∧
        FishingLine.descending l' = true ∧
        FishingLine.caught_fish l' = FishingLine.caught_fish l ∧
        descended max_depth (k + Z.of_nat n) (FishingLine.current_depth l').
Proof.
  intros Hmax. revert l k. induction n as [| n IH]; intros l k Hhook Hdesc Hd.
  - exists l. simpl. rewrite Z.add_0_r. done.
  - destruct (descent_step game_state start_pos l max_depth k Hmax Hhook Hdesc Hd)
      as (l1 & Hrun & Hdesc1 & Hoff1 & Hc1 & Hd1).
    rewrite <- Hoff1 in Hhook.
    destruct (IH l1 (k + 1) Hhook Hdesc1 Hd1) as (l' & Hrun' & Hdesc' & Hc' & Hd').
    exists l'. cbn [FishingLine.updates]. rewrite Hrun. cbn [bind].
    split; [done |]. split; [done |]. split; [congruence |].
    replace (k + Z.of_nat (S n)) with (k + 1 + Z.of_nat n) by lia. done.
Qed.

(** X13. After a full reset, with the rod on a column a C integer holds
    and a maximum depth of at most 2^51 (so that every depth on the way
    is a float without rounding), [n] frames of [update] return and take
    the line to depth n/2 as long as that is within the maximum depth,
    and to the maximum depth from then on: the hook holds at the limit.
    The line stays descending all along, so [reached_max_depth] never
    answers true, and the caught list is not touched by the descent. *)
Theorem descent_holds_at_max_depth
    (n : nat) (game_state : option GameState.t) (start_pos : Z * Z) (l : FishingLine.t)
    (max_depth : Z) :
  FishingLine.get_max_depth game_state = Ok max_depth → 0 ≤ max_depth ≤ 2 ^ 51 →
  c_int start_pos.1 →
  ∃ l', FishingLine.updates n game_state start_pos (FishingLine.full_reset l) = Ok l' ∧
        float_depth (FishingLine.current_depth l') ∧
        (Z.of_nat n ≤ 2 * max_depth →
         (FishingLine.current_depth l' == inject_Z (Z.of_nat n) * (1 # 2))%Q) ∧
        (2 * max_depth ≤ Z.of_nat n →
         (FishingLine.current_depth l' == inject_Z max_depth)%Q) ∧
        FishingLine.descending l' = true ∧
        FishingLine.caught_fish l' = [] ∧
        FishingLine.reached_max_depth game_state l' = Ok false.
Proof.
  intros Hmax Hpos Hrod.
  destruct (descent_steps n game_state start_pos (FishingLine.full_reset l) max_depth 0 Hmax)
    as (l' & Hrun & Hdesc & Hc & Hb & Ha).
  - cbn [FishingLine.full_reset FishingLine.horizontal_offset]. by rewrite Z.add_0_r.
  - done.
  - split; simpl.
    + intros _. reflexivity.
    + intros H. assert (max_depth = 0) by lia. subst. reflexivity.
  - exists l'. split; [done |]. rewrite Z.add_0_l in Hb, Ha.
    split.
    { destruct (Z.le_gt_cases (Z.of_nat n) (2 * max_depth)) as [Hle | Hgt].
      - exists (Z.of_nat n). split; [| by apply Hb].
        change (2 ^ 52) with (2 * 2 ^ 51). lia.
      - destruct (float_depth_limit max_depth Hpos) as (k & Hk & Heq).
        exists k. split; [done |]. rewrite Ha by lia. done. }
    split; [done |]. split; [done |]. split; [done |]. split; [done |].
    unfold FishingLine.reached_max_depth. rewrite Hmax. simpl. rewrite Hdesc.
    by rewrite andb_false_r.
Qed.

(** With the starting economy (maximum depth 300) the line is at depth 50
    after 100 frames and still at 300 after 700. *)
Lemma descent_holds_at_max_depth_witness :
  let l := FishingLine.mk 17 false (Rect.mk 390 300 20 20) 0 [3%nat] in
  (∃ l', FishingLine.updates 100 (Some GameState.init) (420, 5) (FishingLine.full_reset l)
           = Ok l' ∧ (FishingLine.current_depth l' == 50)%Q) ∧
  (∃ l', FishingLine.updates 700 (Some GameState.init) (420, 5) (FishingLine.full_reset l)
           = Ok l' ∧ (FishingLine.current_depth l' == 300)%Q).
Proof.
  intros l.
  assert (Hlimit : 0 ≤ 300 ≤ 2 ^ 51).
  { split; [lia | apply (bool_decide_unpack _); vm_compute; exact I]. }
  assert (Hrod : c_int (420, 5).1) by (apply is_int_c_int; reflexivity).
  split.
  - destruct (descent_holds_at_max_depth 100 (Some GameState.init) (420, 5) l 300
                eq_refl Hlimit Hrod) as (l' & Hrun & _ & Hb & _).
    exists l'. split; [exact Hrun |]. rewrite Hb by (simpl; lia). reflexivity.
  - destruct (descent_holds_at_max_depth 700 (Some GameState.init) (420, 5) l 300
                eq_refl Hlimit Hrod) as (l' & Hrun & _ & _ & Ha & _).
    exists l'. split; [exact Hrun |]. rewrite Ha by (simpl; lia). reflexivity.
Defined.

(** X14. A line that is being reeled in, at a depth the floats hold
    exactly and with the rod and the hook on columns a C integer holds,
    comes up five units per frame without consulting the economy; the
    frame that takes it to the surface (depth at most 5 before) puts it
    at depth 0, descending again, centered, and empties its caught list.
    When the column the hook is sent to (the rod's own on surfacing, the
    rod's plus the offset otherwise) is not a C integer, the update
    raises [TypeError]. *)
Theorem retraction_rearms
    (game_state : option GameState.t) (start_pos : Z * Z) (l : FishingLine.t) :
  FishingLine.descending l = false →
  float_depth (FishingLine.current_depth l) →
  (c_int start_pos.1 → c_int (start_pos.1 + FishingLine.horizontal_offset l) →
   ∃ l', FishingLine.update game_state start_pos l = Ok l' ∧
         float_depth (FishingLine.current_depth l') ∧
         ((FishingLine.current_depth l <= 5)%Q →
          FishingLine.current_depth l' = 0%Q ∧
          FishingLine.descending l' = true ∧
          FishingLine.horizontal_offset l' = 0 ∧
          FishingLine.caught_fish l' = []) ∧
         ((5 < FishingLine.current_depth l)%Q →
          (FishingLine.current_depth l' == FishingLine.current_depth l - 5)%Q ∧
          FishingLine.descending l' = false ∧
          FishingLine.horizontal_offset l' = FishingLine.horizontal_offset l ∧
          FishingLine.caught_fish l' = FishingLine.caught_fish l)) ∧
  ((FishingLine.current_depth l <= 5)%Q → ¬ c_int start_pos.1 →
   FishingLine.update game_state start_pos l = Raise TypeError) ∧
  ((5 < FishingLine.current_depth l)%Q →
   ¬ c_int (start_pos.1 + FishingLine.horizontal_offset l) →
   FishingLine.update game_state start_pos l = Raise TypeError).
Proof.
  intros Hdesc (k & Hk & Heq). rewrite (update_retracting game_state start_pos l Hdesc).
  unfold Config.BASE_REEL_SPEED.
  assert (H5 : (inject_Z 5 == 5)%Q) by reflexivity.
  destruct (Qle_bool (FishingLine.current_depth l - inject_Z 5) 0) eqn:Hcmp.
  - apply Qle_bool_iff in Hcmp. split; [| split].
    + intros Hrod _. apply is_int_c_int in Hrod. rewrite Hrod.
      eexists. split; [reflexivity |]. cbn [FishingLine.current_depth].
      split; [exists 0; split; [lia | reflexivity] |].
      split; [done |]. intros Hdeep. lra.
    + intros _ Hno. apply is_int_not_c_int in Hno. by rewrite Hno.
    + intros Hdeep. lra.
  - assert (Hlt : ¬ (FishingLine.current_depth l - inject_Z 5 <= 0)%Q).
    { rewrite <- Qle_bool_iff. by rewrite Hcmp. }
    split; [| split].
    + intros _ Hhook. apply is_int_c_int in Hhook. rewrite Hhook.
      eexists. split; [reflexivity |].
      cbn [FishingLine.current_depth FishingLine.descending
           FishingLine.horizontal_offset FishingLine.caught_fish].
      split.
      { exists (k - 10). split.
        - assert (10 < k).
          { rewrite Zlt_Qlt. change (inject_Z 10) with 10%Q. lra. }
          lia.
        - unfold Z.sub. rewrite inject_Z_plus. change (inject_Z (- (10))) with (- (10))%Q.
          lra. }
      split; [intros Hshallow; lra |]. intros _.
      split; [| done]. by rewrite H5.
    + intros Hshallow. lra.
    + intros _ Hno. apply is_int_not_c_int in Hno. by rewrite Hno.
Qed.

(** A line at depth 4 with two fish on it surfaces in one frame. *)
Lemma retraction_rearms_witness :
  let l := FishingLine.mk 4 false (Rect.mk 390 300 20 20) 35 [1%nat; 2%nat] in
  ∃ l', FishingLine.update None (420, 5) l = Ok l' ∧
        FishingLine.current_depth l' = 0%Q ∧
        FishingLine.descending l' = true ∧
        FishingLine.caught_fish l' = [].
Proof.
  intros l.
  assert (Hfloat : float_depth (FishingLine.current_depth l)).
  { exists 8. split; [split; [lia | apply (bool_decide_unpack _); vm_compute; exact I] |].
    reflexivity. }
  destruct (retraction_rearms None (420, 5) l eq_refl Hfloat) as [Hreturns _].
  destruct Hreturns as (l' & Hrun & _ & Hup & _).
  - apply is_int_c_int. reflexivity.
  - apply is_int_c_int. reflexivity.
  - exists l'. split; [exact Hrun |].
    destruct Hup as (H1 & H2 & _ & H3); [vm_compute; discriminate |].
    done.
Defined.

(** X15. After the mouse has been taken into account ([aim]) and the line
    updated, the hook is centered on the rod's column plus the offset,
    the offset is within 350 either way, the hook's top is at row 300 and
    its size is unchanged; while the line descends and the mouse is
    within 350 of the rod, the hook is centered under the mouse. *)
Theorem hook_follows_mouse
    (game_state : option GameState.t) (mouse_pos rod_pos : Z * Z)
    (l l' : FishingLine.t) :
  FishingLine.update game_state rod_pos (Game.aim mouse_pos rod_pos l) = Ok l' →
  Rect.centerx (FishingLine.hook_rect l') = rod_pos.1 + FishingLine.horizontal_offset l' ∧
  -350 ≤ FishingLine.horizontal_offset l' ≤ 350 ∧
  Rect.top (FishingLine.hook_rect l') = 300 ∧
  Rect.width (FishingLine.hook_rect l') = Rect.width (FishingLine.hook_rect l) ∧
  Rect.height (FishingLine.hook_rect l') = Rect.height (FishingLine.hook_rect l) ∧
  (FishingLine.descending l = true → -350 ≤ mouse_pos.1 - rod_pos.1 ≤ 350 →
   Rect.centerx (FishingLine.hook_rect l') = mouse_pos.1).
Proof.
  set (la := Game.aim mouse_pos rod_pos l).
  assert (Hoff : -350 ≤ FishingLine.horizontal_offset la ≤ 350 ∧
                 (-350 ≤ mouse_pos.1 - rod_pos.1 ≤ 350 →
                  FishingLine.horizontal_offset la = mouse_pos.1 - rod_pos.1)).
  { unfold la, Game.aim, FishingLine.max_horizontal_range. simpl.
    destruct (Z.ltb_spec 350 (mouse_pos.1 - rod_pos.1));
      [| destruct (Z.ltb_spec (mouse_pos.1 - rod_pos.1) (- (350)))]; lia. }
  assert (Hrect : FishingLine.hook_rect la = FishingLine.hook_rect l) by done.
  assert (Hd : FishingLine.descending la = FishingLine.descending l) by done.
  clearbody la. destruct Hoff as [Hrange Hmouse].
  intros Hrun.
  destruct (update_returned game_state rod_pos la l' Hrun) as (Hint & Hhook & Hoff & Hkeep).
  destruct (hook_rect_placed (rod_pos.1 + FishingLine.horizontal_offset l')
              (FishingLine.hook_rect la) Hint) as (Hc & Ht & Hw & Hh).
  rewrite Hhook, Hc, Ht, Hw, Hh, Hrect.
  split; [done |].
  split; [destruct Hoff as [-> | [_ ->]]; lia |].
  split; [done |]. split; [done |]. split; [done |].
  intros Htrue Hin. rewrite <- Hd in Htrue.
  destruct (Hkeep Htrue) as (_ & -> & _). rewrite (Hmouse Hin). lia.
Qed.

Lemma hook_follows_mouse_witness :
  let l := FishingLine.mk 10 true (Rect.mk 390 300 20 20) 0 [] in
  ∃ l', FishingLine.update (Some GameState.init) (420, 5) (Game.aim (900, 40) (420, 5) l)
          = Ok l' ∧
        Rect.centerx (FishingLine.hook_rect l') = 770 ∧
        FishingLine.horizontal_offset l' = 350.
Proof.
  intros l. eexists. split; [vm_compute; reflexivity |].
  match goal with
  | |- Rect.centerx (FishingLine.hook_rect ?l') = _ ∧ _ =>
      destruct (hook_follows_mouse (Some GameState.init) (900, 40) (420, 5) l l')
        as (Hc & _)
  end.
  - vm_compute. reflexivity.
  - split; [rewrite Hc |]; reflexivity.
Defined.

(** * Further properties of catching *)

Lemma add_caught_fish_shape
    (game_state : option GameState.t) (fish : nat) (l l' : FishingLine.t) (added : bool) :
  FishingLine.add_caught_fish game_state fish l = Ok (added, l') →
  l' = (if added
        then FishingLine.set_caught_fish (FishingLine.caught_fish l ++ [fish]) l
        else l) ∧
  (added = true → fish ∉ FishingLine.caught_fish l) ∧
  ∃ capacity, FishingLine.get_hook_capacity game_state = Ok capacity ∧
              (added = true → Py.len (FishingLine.caught_fish l) < capacity).
Proof.
  unfold FishingLine.add_caught_fish.
  destruct (FishingLine.get_hook_capacity game_state) as [capacity |]; [| done].
  simpl. destruct (Z.ltb_spec (Py.len (FishingLine.caught_fish l)) capacity).
  - unfold Py.ref_in. destruct (decide (fish ∈ FishingLine.caught_fish l)).
    + rewrite bool_decide_eq_true_2 by done. simpl. intros [= <- <-].
      split; [done |]. split; [done |]. exists capacity. by split.
    + rewrite bool_decide_eq_false_2 by done. simpl. intros [= <- <-].
      split; [done |]. split; [done |]. exists capacity. by split.
  - intros [= <- <-]. split; [done |]. split; [done |]. exists capacity. by split.
Qed.

(** Every iteration that returns has treated its fish in one of the
    three ways. *)
Lemma check_fish_treated
    (mouse_pos hook_center : Z * Z) (game_state : option GameState.t)
    (caught_any caught_any' : bool) (w w' : FishManager.world) (r : nat) :
  FishManager.check_fish mouse_pos hook_center game_state (caught_any, w) r
    = Ok (caught_any', w') →
  ∃ f, FishManager.w_heap w !! r = Some f ∧
       treated game_state mouse_pos hook_center r f caught_any w caught_any' w'.
Proof.
  unfold FishManager.check_fish, FishManager.fish_catch, deref.
  destruct (FishManager.w_heap w !! r) as [f |] eqn:Hf; [| done]. cbn [bind].
  intros Hrun. exists f. split; [done |].
  destruct (Fish.caught f) eqn:Hcaught.
  { injection Hrun as <- <-. apply passed_over. by left. }
  destruct (FishManager.catch_condition mouse_pos hook_center f) eqn:Hcond.
  2:{ injection Hrun as <- <-. apply passed_over. by right. }
  unfold Fish.catch in Hrun. rewrite Hcaught in Hrun. cbn in Hrun.
  destruct (FishingLine.add_caught_fish game_state r (FishManager.w_line w))
    as [[added line1] |] eqn:Hadd; [| done]. cbn in Hrun.
  destruct (add_caught_fish_shape _ _ _ _ _ Hadd) as (Hline & _).
  destruct added; injection Hrun as <- <-; subst line1.
  - by apply hooked_fish.
  - by apply refused_fish.
Qed.

Lemma flagged_trans (f f1 f2 : Fish.t) : flagged f f1 → flagged f1 f2 → flagged f f2.
Proof.
  intros [-> | [Hlive ->]] [-> | [Hlive' ->]]; unfold flagged; auto.
Qed.

Lemma flagged_keeps (f f' : Fish.t) :
  flagged f f' →
  Fish.name f' = Fish.name f ∧ Fish.rarity f' = Fish.rarity f ∧
  Fish.value f' = Fish.value f ∧ Fish.depth_range f' = Fish.depth_range f ∧
  Fish.rect f' = Fish.rect f ∧ Fish.direction f' = Fish.direction f ∧
  Fish.speed f' = Fish.speed f ∧
  (Fish.caught f = true → Fish.caught f' = true).
Proof. intros [-> | [_ ->]]; repeat split; done. Qed.

(** What the whole loop does to the fish objects. *)
Lemma check_loop_heap
    (mouse_pos hook_center : Z * Z) (game_state : option GameState.t)
    (sprites : list nat) (caught_any caught_any' : bool) (w w' : FishManager.world) :
  FishManager.check_loop mouse_pos hook_center game_state sprites (caught_any, w)
    = Ok (caught_any', w') →
  ∀ r,
    match FishManager.w_heap w !! r with
    | None => FishManager.w_heap w' !! r = None
    | Some f =>
        ∃ f', FishManager.w_heap w' !! r = Some f' ∧ flagged f f' ∧
              (f' ≠ f → r ∈ sprites ∧
                        FishManager.catch_condition mouse_pos hook_center f = true)
    end.
Proof.
  revert caught_any w. induction sprites as [| x sprites IH]; intros caught_any w Hrun r.
  - injection Hrun as <- <-. destruct (FishManager.w_heap w !! r) as [f |]; [| done].
    exists f. split; [done |]. split; [by left | done].
  - cbn [FishManager.check_loop] in Hrun.
    destruct (FishManager.check_fish mouse_pos hook_center game_state (caught_any, w) x)
      as [[any1 w1] |] eqn:Hstep; [| done]. cbn [bind] in Hrun.
    destruct (check_fish_treated _ _ _ _ _ _ _ _ Hstep) as (fx & Hfx & Ht).
    specialize (IH any1 w1 Hrun r).
    assert (Hone :
      match FishManager.w_heap w !! r with
      | None => FishManager.w_heap w1 !! r = None
      | Some f =>
          ∃ f1, FishManager.w_heap w1 !! r = Some f1 ∧ flagged f f1 ∧
                (f1 ≠ f → r = x ∧
                          FishManager.catch_condition mouse_pos hook_center f = true)
      end).
    { inversion Ht; subst; clear Ht; cbn [FishManager.w_heap].
      - destruct (FishManager.w_heap _ !! r) as [f |]; [| done].
        exists f. split; [done |]. split; [by left | done].
      - destruct (decide (r = x)) as [-> | Hne].
        + rewrite Hfx, lookup_insert_eq. eexists. split; [done |].
          split; [by right | done].
        + rewrite lookup_insert_ne by done.
          destruct (FishManager.w_heap w !! r) as [f |]; [| done].
          exists f. split; [done |]. split; [by left | done].
      - destruct (decide (r = x)) as [-> | Hne].
        + rewrite Hfx, lookup_insert_eq. eexists. split; [done |].
          split; [by right | done].
        + rewrite lookup_insert_ne by done.
          destruct (FishManager.w_heap w !! r) as [f |]; [| done].
          exists f. split; [done |]. split; [by left | done]. }
    destruct (FishManager.w_heap w !! r) as [f |].
    + destruct Hone as (f1 & Hf1 & Hfl1 & Hch1). rewrite Hf1 in IH.
      destruct IH as (f' & Hf' & Hfl' & Hch'). exists f'. split; [done |].
      split; [by eapply flagged_trans |]. intros Hne.
      destruct Hfl1 as [-> | [Hlive ->]].
      * destruct (Hch' Hne) as [Hin Hc]. split; [by right | done].
      * destruct Hch1 as [-> Hc]; [| split; [by left | done]].
        intros Heq. rewrite <- Heq in Hlive. simpl in Hlive. discriminate.
    + by rewrite Hone in IH.
Qed.

Lemma filter_all {A : Type} (P : A → Prop) `{!∀ x, Decision (P x)} (l : list A) :
  (∀ x, P x) → filter P l = l.
Proof.
  intros HP. induction l as [| x l IH]; [done |].
  rewrite filter_cons_True by done. by rewrite IH.
Qed.

(** What the whole loop does to the lists. *)
Lemma check_loop_lists
    (mouse_pos hook_center : Z * Z) (game_state : option GameState.t)
    (sprites : list nat) (caught_any caught_any' : bool) (w w' : FishManager.world) :
  FishManager.check_loop mouse_pos hook_center game_state sprites (caught_any, w)
    = Ok (caught_any', w') →
  ∃ new,
    new `sublist_of` sprites ∧
    FishManager.w_line w' =
      FishingLine.set_caught_fish
        (FishingLine.caught_fish (FishManager.w_line w) ++ new) (FishManager.w_line w) ∧
    FishManager.caught_fish (FishManager.w_self w') =
      (FishManager.caught_fish (FishManager.w_self w) ++ new)%list ∧
    FishManager.all_fish (FishManager.w_self w') =
      filter (fun r => r ∉ new) (FishManager.all_fish (FishManager.w_self w)) ∧
    caught_any' = caught_any || negb (bool_decide (new = [])).
Proof.
  revert caught_any w. induction sprites as [| r sprites IH]; intros caught_any w Hrun.
  - injection Hrun as <- <-. exists []. split; [done |].
    rewrite !app_nil_r. split; [by destruct (FishManager.w_line w) |].
    split; [done |]. split; [| by rewrite orb_false_r].
    symmetry. apply filter_all. intros x. apply not_elem_of_nil.
  - cbn [FishManager.check_loop] in Hrun.
    destruct (FishManager.check_fish mouse_pos hook_center game_state (caught_any, w) r)
      as [[any1 w1] |] eqn:Hstep; [| done]. cbn [bind] in Hrun.
    destruct (check_fish_treated _ _ _ _ _ _ _ _ Hstep) as (f & Hf & Ht).
    destruct (IH any1 w1 Hrun) as (new & Hsub & Hline & Hself & Hall & Hany).
    inversion Ht; subst; clear Ht.
    + exists new. split; [by apply sublist_cons |]. done.
    + exists (r :: new). split; [by apply sublist_skip |].
      cbn in Hline, Hself, Hall.
      rewrite <- !app_assoc in *. cbn in *.
      split; [done |]. split; [done |]. split; [| by rewrite orb_true_r].
      rewrite Hall. unfold FishManager.group_remove. rewrite list_filter_filter.
      apply list_filter_iff. intros x. rewrite not_elem_of_cons. tauto.
    + exists new. split; [by apply sublist_cons |]. done.
Qed.

(** X16. A tick of [check_catches] that returns has caught some of the
    sprites, in group order: these are appended, in the same order, to
    the line's caught list and to the manager's caught list, and removed
    from the group; nothing else in the line changes; and the tick
    reports a catch exactly when at least one fish was caught. *)
Theorem check_catches_moves_fish
    (mouse_pos : Z * Z) (game_state : option GameState.t)
    (w w' : FishManager.world) (caught_any : bool) :
  FishManager.check_catches mouse_pos game_state w = Ok (caught_any, w') →
  ∃ new,
    new `sublist_of` FishManager.all_fish (FishManager.w_self w) ∧
    FishManager.w_line w' =
      FishingLine.set_caught_fish
        (FishingLine.caught_fish (FishManager.w_line w) ++ new) (FishManager.w_line w) ∧
    FishManager.caught_fish (FishManager.w_self w') =
      (FishManager.caught_fish (FishManager.w_self w) ++ new)%list ∧
    FishManager.all_fish (FishManager.w_self w') =
      filter (fun r => r ∉ new) (FishManager.all_fish (FishManager.w_self w)) ∧
    (caught_any = true ↔ new ≠ []).
Proof.
  unfold FishManager.check_catches. intros Hrun.
  destruct (check_loop_lists _ _ _ _ _ _ _ _ Hrun) as (new & Hsub & Hl & Hs & Ha & Hany).
  exists new. split; [done |]. split; [done |]. split; [done |]. split; [done |].
  rewrite Hany. simpl. destruct new; [by rewrite bool_decide_eq_true_2 |].
  by rewrite bool_decide_eq_false_2.
Qed.

Lemma check_catches_moves_fish_witness :
  ∃ w', FishManager.check_catches (0, 0) (Some GameState.init) crowded_hook = Ok (true, w') ∧
        FishManager.caught_fish (FishManager.w_self w') = [0; 1; 2; 3]%nat ∧
        FishManager.all_fish (FishManager.w_self w') = [4%nat].
Proof.
  eexists. split; [vm_compute; reflexivity |].
  match goal with
  | |- FishManager.caught_fish (FishManager.w_self ?w') = _ ∧ _ =>
      destruct (check_catches_moves_fish (0, 0) (Some GameState.init) crowded_hook w' true)
        as (new & _)
  end.
  - vm_compute. reflexivity.
  - split; reflexivity.
Defined.

Lemma check_loop_capacity
    (mouse_pos hook_center : Z * Z) (game_state : option GameState.t) (capacity : Z)
    (sprites : list nat) (caught_any caught_any' : bool) (w w' : FishManager.world) :
  FishingLine.get_hook_capacity game_state = Ok capacity →
  FishManager.check_loop mouse_pos hook_center game_state sprites (caught_any, w)
    = Ok (caught_any', w') →
  (Py.len (FishingLine.caught_fish (FishManager.w_line w)) ≤ capacity →
   Py.len (FishingLine.caught_fish (FishManager.w_line w')) ≤ capacity) ∧
  (NoDup (FishingLine.caught_fish (FishManager.w_line w)) →
   NoDup (FishingLine.caught_fish (FishManager.w_line w'))).
Proof.
  intros Hcap. revert caught_any w.
  induction sprites as [| r sprites IH]; intros caught_any w Hrun.
  - by injection Hrun as <- <-.
  - cbn [FishManager.check_loop] in Hrun.
    destruct (FishManager.check_fish mouse_pos hook_center game_state (caught_any, w) r)
      as [[any1 w1] |] eqn:Hstep; [| done]. cbn [bind] in Hrun.
    destruct (check_fish_treated _ _ _ _ _ _ _ _ Hstep) as (f & Hf & Ht).
    destruct (IH any1 w1 Hrun) as [IHlen IHnd].
    inversion Ht as [Hskip | Hlive Hcond Hadd | Hlive Hcond Hadd]; subst; clear Ht.
    + done.
    + destruct (add_caught_fish_shape _ _ _ _ _ Hadd) as (_ & Hnew & cap' & Hcap' & Hroom).
      rewrite Hcap in Hcap'. injection Hcap' as <-.
      specialize (Hnew eq_refl). specialize (Hroom eq_refl).
      cbn in IHlen, IHnd. split.
      * intros _. apply IHlen. unfold Py.len in *. rewrite length_app. simpl. lia.
      * intros Hnd. apply IHnd. apply NoDup_app. split; [done |].
        split; [| apply NoDup_singleton].
        intros x Hx Hx'. apply list_elem_of_singleton in Hx'. by subst.
    + done.
Qed.

(** X17. Under a defined capacity, a tick of [check_catches] that starts
    with at most [capacity] fish on the hook ends with at most [capacity]
    fish on it, however many fish meet the catch condition, and a hook
    without repetitions stays without repetitions. *)
Theorem check_catches_respects_capacity
    (mouse_pos : Z * Z) (game_state : option GameState.t) (capacity : Z)
    (w w' : FishManager.world) (caught_any : bool) :
  FishingLine.get_hook_capacity game_state = Ok capacity →
  FishManager.check_catches mouse_pos game_state w = Ok (caught_any, w') →
  (Py.len (FishingLine.caught_fish (FishManager.w_line w)) ≤ capacity →
   Py.len (FishingLine.caught_fish (FishManager.w_line w')) ≤ capacity) ∧
  (NoDup (FishingLine.caught_fish (FishManager.w_line w)) →
   NoDup (FishingLine.caught_fish (FishManager.w_line w'))).
Proof.
  unfold FishManager.check_catches. intros Hcap Hrun.
  exact (check_loop_capacity _ _ _ _ _ _ _ _ _ Hcap Hrun).
Qed.

Lemma check_catches_respects_capacity_witness :
  ∃ w', FishManager.check_catches (0, 0) (Some GameState.init) crowded_hook = Ok (true, w') ∧
        Py.len (FishingLine.caught_fish (FishManager.w_line w')) ≤ 4.
Proof.
  eexists. split; [vm_compute; reflexivity |].
  match goal with
  | |- Py.len (FishingLine.caught_fish (FishManager.w_line ?w')) ≤ 4 =>
      destruct (check_catches_respects_capacity (0, 0) (Some GameState.init) 4
                  crowded_hook w' true eq_refl) as [Hlen _]
  end.
  - vm_compute. reflexivity.
  - apply Hlen. vm_compute. discriminate.
Defined.

(** X18. A tick of [check_catches] that returns creates and destroys no
    fish object and changes nothing in an object but its caught flag: the
    name, rarity, value, native zone, rectangle, direction and speed of
    every fish are as before, a flag that was set stays set, and a flag
    is newly set only for a sprite of the group that meets the catch
    condition. *)
Theorem check_catches_only_flags
    (mouse_pos : Z * Z) (game_state : option GameState.t)
    (w w' : FishManager.world) (caught_any : bool) (r : nat) :
  FishManager.check_catches mouse_pos game_state w = Ok (caught_any, w') →
  match FishManager.w_heap w !! r with
  | None => FishManager.w_heap w' !! r = None
  | Some f =>
      ∃ f', FishManager.w_heap w' !! r = Some f' ∧
        Fish.name f' = Fish.name f ∧ Fish.rarity f' = Fish.rarity f ∧
        Fish.value f' = Fish.value f ∧ Fish.depth_range f' = Fish.depth_range f ∧
        Fish.rect f' = Fish.rect f ∧ Fish.direction f' = Fish.direction f ∧
        Fish.speed f' = Fish.speed f ∧
        (Fish.caught f = true → Fish.caught f' = true) ∧
        (Fish.caught f' ≠ Fish.caught f →
         r ∈ FishManager.all_fish (FishManager.w_self w) ∧
         FishManager.catch_condition mouse_pos
           (Rect.center (FishingLine.hook_rect (FishManager.w_line w))) f = true)
  end.
Proof.
  unfold FishManager.check_catches. intros Hrun.
  pose proof (check_loop_heap _ _ _ _ _ _ _ _ Hrun r) as H.
  destruct (FishManager.w_heap w !! r) as [f |]; [| done].
  destruct H as (f' & Hf' & Hfl & Hch). exists f'. split; [done |].
  destruct (flagged_keeps f f' Hfl) as (? & ? & ? & ? & ? & ? & ? & ?).
  repeat (split; [done |]). intros Hne. apply Hch. intros ->. done.
Qed.

Lemma check_catches_only_flags_witness :
  ∃ w', FishManager.check_catches (0, 0) (Some GameState.init) crowded_hook = Ok (true, w') ∧
        Fish.value <$> FishManager.w_heap w' !! 3%nat = Some 15 ∧
        Fish.caught <$> FishManager.w_heap w' !! 0%nat = Some true.
Proof.
  eexists. split; [vm_compute; reflexivity |].
  match goal with
  | |- _ <$> FishManager.w_heap ?w' !! _ = _ ∧ _ =>
      assert (Hrun : FishManager.check_catches (0, 0) (Some GameState.init) crowded_hook
                     = Ok (true, w')) by (vm_compute; reflexivity);
      pose proof (check_catches_only_flags (0, 0) (Some GameState.init) crowded_hook
                    w' true 3%nat Hrun) as H3;
      pose proof (check_catches_only_flags (0, 0) (Some GameState.init) crowded_hook
                    w' true 0%nat Hrun) as H0
  end.
  change (FishManager.w_heap crowded_hook !! 3%nat)
    with (Some (swimming "Blue Tang" 15 378)) in H3.
  change (FishManager.w_heap crowded_hook !! 0%nat)
    with (Some (hooked "Clownfish" 10)) in H0.
  destruct H3 as (f3 & Hf3 & _ & _ & Hv & _).
  destruct H0 as (f0 & Hf0 & _ & _ & _ & _ & _ & _ & _ & Hc & _).
  rewrite Hf3, Hf0. simpl. rewrite Hv, (Hc eq_refl). split; reflexivity.
Defined.

Lemma check_fish_returns
    (mouse_pos hook_center : Z * Z) (game_state : option GameState.t) (capacity : Z)
    (caught_any : bool) (w : FishManager.world) (r : nat) :
  FishingLine.get_hook_capacity game_state = Ok capacity →
  is_Some (FishManager.w_heap w !! r) →
  ∃ caught_any' w',
    FishManager.check_fish mouse_pos hook_center game_state (caught_any, w) r
      = Ok (caught_any', w') ∧
    ∀ x, is_Some (FishManager.w_heap w !! x) → is_Some (FishManager.w_heap w' !! x).
Proof.
  intros Hcap [f Hf].
  unfold FishManager.check_fish, FishManager.fish_catch, deref. rewrite Hf. cbn [bind].
  destruct (Fish.caught f) eqn:Hcaught; [by eauto |].
  destruct (FishManager.catch_condition mouse_pos hook_center f); [| by eauto].
  unfold Fish.catch. rewrite Hcaught. cbn.
  unfold FishingLine.add_caught_fish. rewrite Hcap. cbn.
  assert (Hdom : ∀ x, is_Some (FishManager.w_heap w !! x) →
                      is_Some (<[r := Fish.set_caught true f]> (FishManager.w_heap w) !! x)).
  { intros x Hx. rewrite lookup_insert. case_decide; eauto. }
  destruct (_ <? _); [destruct (negb _) |]; cbn; eauto.
Qed.

(** X19. [check_catches] raises nothing when the capacity is defined and
    every sprite of the group is a fish object: whatever the pointer
    position, the hook and the fish, the tick returns. *)
Theorem check_catches_returns
    (mouse_pos : Z * Z) (game_state : option GameState.t) (capacity : Z)
    (w : FishManager.world) :
  FishingLine.get_hook_capacity game_state = Ok capacity →
  (∀ r, r ∈ FishManager.all_fish (FishManager.w_self w) →
        is_Some (FishManager.w_heap w !! r)) →
  ∃ caught_any w', FishManager.check_catches mouse_pos game_state w = Ok (caught_any, w').
Proof.
  intros Hcap. unfold FishManager.check_catches.
  generalize (Rect.center (FishingLine.get_hook_rect (FishManager.w_line w))).
  intros hook_center. generalize false. generalize (FishManager.all_fish (FishManager.w_self w)).
  intros sprites. revert w. induction sprites as [| r sprites IH]; intros w caught_any Hall.
  - simpl. eauto.
  - destruct (check_fish_returns mouse_pos hook_center game_state capacity caught_any w r Hcap)
      as (any1 & w1 & Hstep & Hdom).
    { apply Hall. by left. }
    cbn [FishManager.check_loop]. rewrite Hstep. cbn [bind].
    apply IH. intros x Hx. apply Hdom, Hall. by right.
Qed.

Lemma check_catches_returns_witness :
  ∃ caught_any w',
    FishManager.check_catches (395, 305) (Some GameState.init) crowded_hook
      = Ok (caught_any, w').
Proof.
  apply (check_catches_returns (395, 305) (Some GameState.init) 4 crowded_hook eq_refl).
  intros r Hr. vm_compute in Hr.
  apply list_elem_of_In in Hr. destruct Hr as [<- | [<- | []]]; vm_compute; eauto.
Defined.

(** ** The catch rule *)

Lemma add_caught_fish_refused
    (game_state : option GameState.t) (capacity : Z) (fish : nat) (l l' : FishingLine.t) :
  FishingLine.get_hook_capacity game_state = Ok capacity →
  FishingLine.add_caught_fish game_state fish l = Ok (false, l') →
  capacity ≤ Py.len (FishingLine.caught_fish l) ∨ fish ∈ FishingLine.caught_fish l.
Proof.
  intros Hcap. unfold FishingLine.add_caught_fish. rewrite Hcap. cbn [bind].
  destruct (Z.ltb_spec (Py.len (FishingLine.caught_fish l)) capacity); [| by left].
  unfold Py.ref_in. destruct (decide (fish ∈ FishingLine.caught_fish l)); [by right |].
  rewrite bool_decide_eq_false_2 by done. simpl. discriminate.
Qed.

(** The fish a loop puts on the hook were live and met the condition when
    the loop began. *)
Lemma check_loop_hooked
    (mouse_pos hook_center : Z * Z) (game_state : option GameState.t)
    (sprites : list nat) (caught_any caught_any' : bool) (w w' : FishManager.world) :
  FishManager.check_loop mouse_pos hook_center game_state sprites (caught_any, w)
    = Ok (caught_any', w') →
  ∀ r, r ∈ FishingLine.caught_fish (FishManager.w_line w') →
       r ∈ FishingLine.caught_fish (FishManager.w_line w) ∨
       (r ∈ sprites ∧
        ∃ f, FishManager.w_heap w !! r = Some f ∧ Fish.caught f = false ∧
             FishManager.catch_condition mouse_pos hook_center f = true).
Proof.
  revert caught_any w. induction sprites as [| x sprites IH]; intros caught_any w Hrun r Hr.
  - injection Hrun as <- <-. by left.
  - cbn [FishManager.check_loop] in Hrun.
    destruct (FishManager.check_fish mouse_pos hook_center game_state (caught_any, w) x)
      as [[any1 w1] |] eqn:Hstep; [| done]. cbn [bind] in Hrun.
    destruct (check_fish_treated _ _ _ _ _ _ _ _ Hstep) as (fx & Hfx & Ht).
    destruct (IH any1 w1 Hrun r Hr) as [Hold | (Hin & f1 & Hf1 & Hlive1 & Hcond1)].
    + inversion Ht as [Hskip | Hlive Hcond Hadd | Hlive Hcond Hadd]; subst; clear Ht.
      * by left.
      * cbn [FishManager.w_line FishingLine.set_caught_fish FishingLine.caught_fish] in Hold.
        apply elem_of_app in Hold as [Hold | Hx]; [by left |].
        apply list_elem_of_singleton in Hx as ->. right.
        split; [by left |]. by exists fx.
      * by left.
    + right. split; [by right |].
      inversion Ht as [Hskip | Hlive Hcond Hadd | Hlive Hcond Hadd]; subst; clear Ht.
      * by exists f1.
      * cbn [FishManager.w_heap] in Hf1.
        destruct (decide (r = x)) as [-> | Hne].
        -- rewrite lookup_insert_eq in Hf1. injection Hf1 as <-. done.
        -- rewrite lookup_insert_ne in Hf1 by congruence. by exists f1.
      * cbn [FishManager.w_heap] in Hf1.
        destruct (decide (r = x)) as [-> | Hne].
        -- rewrite lookup_insert_eq in Hf1. injection Hf1 as <-. done.
        -- rewrite lookup_insert_ne in Hf1 by congruence. by exists f1.
Qed.

(** A live sprite that meets the condition ends on the hook, unless the
    hook is full when the loop ends. *)
Lemma check_loop_catches
    (mouse_pos hook_center : Z * Z) (game_state : option GameState.t) (capacity : Z)
    (sprites : list nat) (caught_any caught_any' : bool) (w w' : FishManager.world) :
  FishingLine.get_hook_capacity game_state = Ok capacity →
  FishManager.check_loop mouse_pos hook_center game_state sprites (caught_any, w)
    = Ok (caught_any', w') →
  ∀ r f, r ∈ sprites → FishManager.w_heap w !! r = Some f → Fish.caught f = false →
         FishManager.catch_condition mouse_pos hook_center f = true →
         r ∈ FishingLine.caught_fish (FishManager.w_line w') ∨
         capacity ≤ Py.len (FishingLine.caught_fish (FishManager.w_line w')).
Proof.
  intros Hcap. revert caught_any w.
  induction sprites as [| x sprites IH]; intros caught_any w Hrun r f Hin Hf Hlive Hcond.
  - by apply elem_of_nil in Hin.
  - cbn [FishManager.check_loop] in Hrun.
    destruct (FishManager.check_fish mouse_pos hook_center game_state (caught_any, w) x)
      as [[any1 w1] |] eqn:Hstep; [| done]. cbn [bind] in Hrun.
    destruct (check_fish_treated _ _ _ _ _ _ _ _ Hstep) as (fx & Hfx & Ht).
    destruct (check_loop_lists _ _ _ _ _ _ _ _ Hrun) as (new & _ & Hline & _).
    assert (Hgrow : ∀ y, y ∈ FishingLine.caught_fish (FishManager.w_line w1) →
                         y ∈ FishingLine.caught_fish (FishManager.w_line w')).
    { intros y Hy. rewrite Hline. cbn [FishingLine.set_caught_fish FishingLine.caught_fish].
      apply elem_of_app. by left. }
    assert (Hlen : Py.len (FishingLine.caught_fish (FishManager.w_line w1))
                   ≤ Py.len (FishingLine.caught_fish (FishManager.w_line w'))).
    { rewrite Hline. cbn [FishingLine.set_caught_fish FishingLine.caught_fish].
      unfold Py.len. rewrite length_app. lia. }
    destruct (decide (r = x)) as [-> | Hne].
    + rewrite Hf in Hfx. injection Hfx as <-.
      inversion Ht as [Hskip | Hlive' Hcond' Hadd | Hlive' Hcond' Hadd]; subst; clear Ht.
      * destruct Hskip as [Hskip | Hskip]; congruence.
      * left. apply Hgrow.
        cbn [FishManager.w_line FishingLine.set_caught_fish FishingLine.caught_fish].
        apply elem_of_app. right. by apply list_elem_of_singleton.
      * cbn [FishManager.w_line] in Hgrow, Hlen.
        destruct (add_caught_fish_refused _ _ _ _ _ Hcap Hadd) as [Hfull | Hon].
        -- right. lia.
        -- left. by apply Hgrow.
    + apply elem_of_cons in Hin as [-> | Hin]; [done |].
      apply (IH any1 w1 Hrun r f Hin); [| done | done].
      inversion Ht as [Hskip | Hlive' Hcond' Hadd | Hlive' Hcond' Hadd]; subst; clear Ht.
      * done.
      * cbn [FishManager.w_heap]. rewrite lookup_insert_ne by congruence. done.
      * cbn [FishManager.w_heap]. rewrite lookup_insert_ne by congruence. done.
Qed.

(** C4.  For a live fish that a tick of [check_catches] checks, the
    condition of the catch holds exactly when the pointer is within the
    fish's bounding box and the fish is at most 80 from the hook center,
    or the fish is at most 30 from the hook center; at distance 25 it
    holds wherever the pointer is, at distance 100 it fails wherever the
    pointer is.  A fish for which it fails is left alone.  A fish for
    which it holds is caught when the hook has room for it (fewer fish on
    it than its capacity, and not this fish): it is appended to the hook
    and to the round's list and leaves the group.  On a full hook it is
    added to neither list.  Over a whole tick, a fish of the group that
    meets the condition is caught whenever the tick ends with room on the
    hook, and one that does not meet it is never caught. *)
Theorem catch_rule_spec
    (mouse_pos : Z * Z) (game_state : option GameState.t) (capacity : Z)
    (w : FishManager.world) (r : nat) (f : Fish.t) :
  let hook_center := Rect.center (FishingLine.get_hook_rect (FishManager.w_line w)) in
  let d := distance (Rect.center (Fish.rect f)) hook_center in
  let on_hook := FishingLine.caught_fish (FishManager.w_line w) in
  let caught :=
    FishManager.mk_world
      (<[r := Fish.set_caught true f]> (FishManager.w_heap w))
      (FishManager.mk
         (FishManager.group_remove r (FishManager.all_fish (FishManager.w_self w)))
         (FishManager.caught_fish (FishManager.w_self w) ++ [r]))
      (FishingLine.set_caught_fish (on_hook ++ [r]) (FishManager.w_line w)) in
  FishManager.w_heap w !! r = Some f →
  Fish.caught f = false →
  FishingLine.get_hook_capacity game_state = Ok capacity →
  (FishManager.catch_condition mouse_pos hook_center f = true ↔
   (within mouse_pos (Fish.rect f) ∧ (d <= 80)%R) ∨ (d <= 30)%R) ∧
  (d = 25%R → ∀ p, FishManager.catch_condition p hook_center f = true) ∧
  (d = 100%R → ∀ p, FishManager.catch_condition p hook_center f = false) ∧
  (∀ caught_any,
     (FishManager.catch_condition mouse_pos hook_center f = false →
      FishManager.check_fish mouse_pos hook_center game_state (caught_any, w) r
        = Ok (caught_any, w)) ∧
     (FishManager.catch_condition mouse_pos hook_center f = true →
      Py.len on_hook < capacity → r ∉ on_hook →
      FishManager.check_fish mouse_pos hook_center game_state (caught_any, w) r
        = Ok (true, caught)) ∧
     (FishManager.catch_condition mouse_pos hook_center f = true →
      capacity ≤ Py.len on_hook →
      ∃ w', FishManager.check_fish mouse_pos hook_center game_state (caught_any, w) r
              = Ok (caught_any, w') ∧
            FishManager.w_self w' = FishManager.w_self w ∧
            FishManager.w_line w' = FishManager.w_line w) ∧
     (d = 25%R → Py.len on_hook < capacity → r ∉ on_hook →
      FishManager.check_fish mouse_pos hook_center game_state (caught_any, w) r
        = Ok (true, caught)) ∧
     (d = 100%R →
      FishManager.check_fish mouse_pos hook_center game_state (caught_any, w) r
        = Ok (caught_any, w))) ∧
  (∀ caught_any w',
     FishManager.check_catches mouse_pos game_state w = Ok (caught_any, w') →
     r ∈ FishManager.all_fish (FishManager.w_self w) → r ∉ on_hook →
     (FishManager.catch_condition mouse_pos hook_center f = true →
      Py.len (FishingLine.caught_fish (FishManager.w_line w')) < capacity →
      caught_any = true ∧
      r ∈ FishingLine.caught_fish (FishManager.w_line w') ∧
      r ∈ FishManager.caught_fish (FishManager.w_self w') ∧
      r ∉ FishManager.all_fish (FishManager.w_self w')) ∧
     (FishManager.catch_condition mouse_pos hook_center f = false →
      r ∉ FishManager.caught_fish (FishManager.w_self w) →
      (r ∉ FishingLine.caught_fish (FishManager.w_line w')) ∧
      (r ∉ FishManager.caught_fish (FishManager.w_self w')) ∧
      r ∈ FishManager.all_fish (FishManager.w_self w') ∧
      FishManager.w_heap w' !! r = Some f)).
Proof.
  intros hook_center d on_hook caught Hf Hlive Hcap.
  assert (H25 : d = 25%R → ∀ p, FishManager.catch_condition p hook_center f = true).
  { intros Hd p. apply catch_condition_iff. right. fold hook_center d. rewrite Hd. lra. }
  assert (H100 : d = 100%R → ∀ p, FishManager.catch_condition p hook_center f = false).
  { intros Hd p. apply not_true_is_false. rewrite catch_condition_iff.
    fold hook_center d. rewrite Hd. intros [[_ H] | H]; lra. }
  assert (Hfails : ∀ caught_any,
            FishManager.catch_condition mouse_pos hook_center f = false →
            FishManager.check_fish mouse_pos hook_center game_state (caught_any, w) r
              = Ok (caught_any, w)).
  { intros caught_any Hcond. unfold FishManager.check_fish, deref. rewrite Hf. cbn [bind].
    by rewrite Hlive, Hcond. }
  assert (Hroom : ∀ caught_any,
            FishManager.catch_condition mouse_pos hook_center f = true →
            Py.len on_hook < capacity → r ∉ on_hook →
            FishManager.check_fish mouse_pos hook_center game_state (caught_any, w) r
              = Ok (true, caught)).
  { intros caught_any Hcond Hlt Hnew.
    exact (check_fish_room mouse_pos hook_center game_state w caught_any r f capacity
             Hf Hlive Hcond Hcap Hlt Hnew). }
  split; [apply catch_condition_iff |].
  split; [exact H25 |]. split; [exact H100 |].
  split.
  { intros caught_any. split; [by apply Hfails |]. split; [by apply Hroom |].
    split; [| split].
    - intros Hcond Hfull. eexists. split.
      + exact (check_fish_full mouse_pos hook_center game_state w caught_any r f capacity
                 Hf Hlive Hcond Hcap Hfull).
      + done.
    - intros Hd. apply Hroom. by apply H25.
    - intros Hd. apply Hfails. by apply H100. }
  intros caught_any w' Hrun Hin Hnew. unfold FishManager.check_catches in Hrun.
  fold hook_center in Hrun.
  destruct (check_loop_lists _ _ _ _ _ _ _ _ Hrun) as (new & _ & Hline & Hself & Hall & Hany).
  assert (Hhook : FishingLine.caught_fish (FishManager.w_line w') = (on_hook ++ new)%list).
  { by rewrite Hline. }
  split.
  - intros Hcond Hleft.
    destruct (check_loop_catches _ _ _ _ _ _ _ _ _ Hcap Hrun r f Hin Hf Hlive Hcond)
      as [Hon | Hfull]; [| lia].
    assert (Hr : r ∈ new).
    { rewrite Hhook in Hon. apply elem_of_app in Hon as [Hon | Hon]; done. }
    split.
    { rewrite Hany. destruct new; [by apply elem_of_nil in Hr |].
      by rewrite bool_decide_eq_false_2. }
    split; [done |]. split.
    { rewrite Hself. apply elem_of_app. by right. }
    rewrite Hall. rewrite list_elem_of_filter. tauto.
  - intros Hcond Hfresh.
    assert (Hr : r ∉ new).
    { intros Hr.
      destruct (check_loop_hooked _ _ _ _ _ _ _ _ Hrun r) as [Hon | (_ & f' & Hf' & _ & Hc)].
      - rewrite Hhook. apply elem_of_app. by right.
      - done.
      - rewrite Hf in Hf'. injection Hf' as <-. congruence. }
    split.
    { rewrite Hhook. intros H. apply elem_of_app in H as [H | H]; done. }
    split.
    { rewrite Hself. intros H. apply elem_of_app in H as [H | H]; done. }
    split.
    { rewrite Hall. by apply list_elem_of_filter. }
    specialize (check_loop_heap _ _ _ _ _ _ _ _ Hrun r) as Hheap.
    rewrite Hf in Hheap. destruct Hheap as (f' & Hf' & Hflag & Honly).
    destruct Hflag as [-> | [_ ->]]; [done |].
    destruct Honly as [_ Hc].
    + intros Heq. rewrite <- Heq in Hlive. done.
    + congruence.
Qed.

(** With two fish on the hook of capacity 4, the fish at distance 25 is
    caught while the pointer is far away. *)
Lemma catch_rule_spec_witness :
  distance (Rect.center (Fish.rect near_fish))
           (Rect.center (FishingLine.get_hook_rect (FishManager.w_line (near_hook [0; 1]%nat))))
    = 25%R ∧
  ∃ w', FishManager.check_catches (700, 20) (Some GameState.init) (near_hook [0; 1]%nat)
          = Ok (true, w') ∧
        4%nat ∈ FishingLine.caught_fish (FishManager.w_line w') ∧
        4%nat ∈ FishManager.caught_fish (FishManager.w_self w') ∧
        4%nat ∉ FishManager.all_fish (FishManager.w_self w').
Proof.
  assert (Hd : distance (Rect.center (Fish.rect near_fish))
                 (Rect.center (FishingLine.get_hook_rect
                                 (FishManager.w_line (near_hook [0; 1]%nat)))) = 25%R).
  { unfold distance. change (sqrt (IZR 625) = 25%R).
    replace (IZR 625) with (25 * 25)%R by lra. apply sqrt_square. lra. }
  split; [exact Hd |].
  destruct (catch_rule_spec (700, 20) (Some GameState.init) 4 (near_hook [0; 1]%nat)
              4%nat near_fish eq_refl eq_refl eq_refl) as (_ & H25 & _ & _ & Htick).
  eexists. split; [vm_compute; reflexivity |].
  match goal with
  | |- 4%nat ∈ FishingLine.caught_fish (FishManager.w_line ?w') ∧ _ =>
      destruct (Htick true w') as [Hcaught _]
  end.
  - vm_compute. reflexivity.
  - apply (bool_decide_unpack _). vm_compute. exact I.
  - apply (bool_decide_unpack _). vm_compute. exact I.
  - destruct (Hcaught (H25 Hd (700, 20))) as (_ & H1 & H2 & H3).
    + vm_compute. reflexivity.
    + done.
Defined.

(** On a full hook the fish at distance 25 is not caught: the tick
    reports no catch, the fish is on neither list and stays in the
    group. *)
Lemma full_hook_refuses_fish_at_25 :
  FishManager.w_heap (near_hook [0; 1; 2; 3]%nat) !! 4%nat = Some near_fish ∧
  Fish.caught near_fish = false ∧
  distance (Rect.center (Fish.rect near_fish))
           (Rect.center (FishingLine.get_hook_rect
                           (FishManager.w_line (near_hook [0; 1; 2; 3]%nat))))
    = 25%R ∧
  ∃ w', FishManager.check_catches (700, 20) (Some GameState.init)
          (near_hook [0; 1; 2; 3]%nat) = Ok (false, w') ∧
        FishingLine.caught_fish (FishManager.w_line w') = [0; 1; 2; 3]%nat ∧
        FishManager.caught_fish (FishManager.w_self w') = [0; 1; 2; 3]%nat ∧
        FishManager.all_fish (FishManager.w_self w') = [4%nat].
Proof.
  split; [reflexivity |]. split; [reflexivity |]. split.
  { unfold distance. change (sqrt (IZR 625) = 25%R).
    replace (IZR 625) with (25 * 25)%R by lra. apply sqrt_square. lra. }
  eexists. split; [vm_compute; reflexivity |]. repeat split.
Qed.

(** * Further properties of spawning *)

Lemma choice_elem {A : Type} (draw : nat) (l : list A) (a : A) :
  Py.choice draw l = Ok a → a ∈ l.
Proof.
  unfold Py.choice. destruct (l !! _) as [a' |] eqn:Hl; [| done].
  intros [= <-]. apply list_elem_of_lookup. eauto.
Qed.

Lemma choice_nonempty {A : Type} (draw : nat) (l : list A) :
  l ≠ [] → ∃ a, Py.choice draw l = Ok a.
Proof.
  intros Hl. unfold Py.choice.
  destruct (lookup_lt_is_Some_2 l (draw mod length l)%nat) as [a ->]; [| eauto].
  apply Nat.mod_upper_bound. by destruct l.
Qed.

Lemma choice_any {A : Type} (l : list A) (a : A) :
  a ∈ l → ∃ draw, Py.choice draw l = Ok a.
Proof.
  intros Hin. apply list_elem_of_lookup in Hin as [i Hi]. exists i.
  unfold Py.choice. rewrite Nat.mod_small by (by eapply lookup_lt_Some). by rewrite Hi.
Qed.

Lemma randint_range (draw : nat) (a b y : Z) :
  Py.randint draw a b = Some y → a ≤ y ≤ b.
Proof.
  unfold Py.randint. destruct (Z.ltb_spec b a); [done |]. intros [= <-].
  pose proof (Z.mod_pos_bound (Z.of_nat draw) (b - a + 1) ltac:(lia)). lia.
Qed.

Lemma index_range (x : string) (l : list string) (i : Z) :
  Py.index x l = Some i → 0 ≤ i < Py.len l ∧ l !! Z.to_nat i = Some x.
Proof.
  revert i. induction l as [| y l IH]; intros i; simpl; [done |].
  destruct (String.eqb_spec y x) as [-> | Hne].
  - intros [= <-]. unfold Py.len. simpl. split; [lia | done].
  - destruct (Py.index x l) as [j |]; [| done]. simpl. intros [= <-].
    destruct (IH j eq_refl) as [Hj Hl]. unfold Py.len in *. simpl. split; [lia |].
    rewrite Z2Nat.inj_succ by lia. done.
Qed.

Lemma list_getitem_in_range {A : Type} (l : list A) (i : Z) :
  0 ≤ i < Py.len l → ∃ a, Py.list_getitem l i = Ok a ∧ l !! Z.to_nat i = Some a.
Proof.
  intros Hi. unfold Py.list_getitem. destruct (Z.ltb_spec i 0); [lia |].
  destruct (Z.ltb_spec i 0); [lia |].
  destruct (lookup_lt_is_Some_2 l (Z.to_nat i)) as [a Ha].
  { unfold Py.len in Hi. lia. }
  rewrite Ha. eauto.
Qed.

Lemma str_in_elem (x : string) (l : list string) : Py.str_in x l = true ↔ x ∈ l.
Proof. unfold Py.str_in. by rewrite bool_decide_eq_true. Qed.

(** The zones a spawn may draw from: never an error when some zone is
    unlocked, never empty, and only unlocked zones. *)
Lemma spawn_fish_available_zones_ok (unlocked_zones : list string) (current_depth : Q) :
  unlocked_zones ≠ [] →
  ∃ available_zones,
    FishManager.spawn_fish_available_zones unlocked_zones current_depth
      = Ok available_zones ∧
    available_zones ≠ [] ∧
    ∀ zone, zone ∈ available_zones → zone ∈ unlocked_zones.
Proof.
  intros Hne. unfold FishManager.spawn_fish_available_zones.
  set (zone0 := FishManager.spawn_fish_current_zone current_depth).
  assert (Hcz : ∃ cz,
    (if negb (Py.str_in zone0 unlocked_zones) && negb (bool_decide (unlocked_zones = []))
     then Py.list_getitem unlocked_zones 0 else Ok zone0) = Ok cz).
  { destruct (negb _ && negb _); [| eauto].
    destruct (list_getitem_in_range unlocked_zones 0) as (a & -> & _); [| eauto].
    unfold Py.len. destruct unlocked_zones; [done | simpl; lia]. }
  destruct Hcz as [cz ->]. cbn [bind].
  set (zone_list := Py.odict_keys Config.DEPTH_ZONES).
  assert (Hadj : ∀ j, 0 ≤ j < Py.len zone_list →
    ∃ side, (let* zone := Py.list_getitem zone_list j in
             Ok (if Py.str_in zone unlocked_zones then [zone] else [])) = Ok side ∧
            ∀ zone, zone ∈ side → zone ∈ unlocked_zones).
  { intros j Hj. destruct (list_getitem_in_range zone_list j Hj) as (z & -> & _).
    cbn [bind]. eexists. split; [reflexivity |].
    destruct (Py.str_in z unlocked_zones) eqn:Hz; [| by intros ? ?%elem_of_nil].
    intros zone Hzone%list_elem_of_singleton. subst. by apply str_in_elem. }
  set (first := if Py.str_in cz unlocked_zones then [cz] else []).
  assert (Hfirst : ∀ zone, zone ∈ first → zone ∈ unlocked_zones).
  { unfold first. destruct (Py.str_in cz unlocked_zones) eqn:Hz; [| by intros ? ?%elem_of_nil].
    intros zone Hzone%list_elem_of_singleton. subst. by apply str_in_elem. }
  assert (Hsome : ∃ av,
    match Py.index cz zone_list with
    | Some current_index =>
        let* above :=
          if 0 <? current_index then
            let* zone := Py.list_getitem zone_list (current_index - 1) in
            Ok (if Py.str_in zone unlocked_zones then [zone] else [])
          else Ok [] in
        let* below :=
          if current_index <? Py.len zone_list - 1 then
            let* zone := Py.list_getitem zone_list (current_index + 1) in
            Ok (if Py.str_in zone unlocked_zones then [zone] else [])
          else Ok [] in
        Ok (first ++ above ++ below)%list
    | None => Ok first
    end = Ok av ∧ ∀ zone, zone ∈ av → zone ∈ unlocked_zones).
  { destruct (Py.index cz zone_list) as [i |] eqn:Hi; [| eauto].
    destruct (index_range _ _ _ Hi) as [Hrange _].
    assert (Ha : ∃ above,
      (if 0 <? i then
         let* zone := Py.list_getitem zone_list (i - 1) in
         Ok (if Py.str_in zone unlocked_zones then [zone] else [])
       else Ok []) = Ok above ∧ ∀ zone, zone ∈ above → zone ∈ unlocked_zones).
    { destruct (Z.ltb_spec 0 i); [apply Hadj; lia |].
      eexists. split; [reflexivity |]. by intros ? ?%elem_of_nil. }
    assert (Hb : ∃ below,
      (if i <? Py.len zone_list - 1 then
         let* zone := Py.list_getitem zone_list (i + 1) in
         Ok (if Py.str_in zone unlocked_zones then [zone] else [])
       else Ok []) = Ok below ∧ ∀ zone, zone ∈ below → zone ∈ unlocked_zones).
    { destruct (Z.ltb_spec i (Py.len zone_list - 1)); [apply Hadj; lia |].
      eexists. split; [reflexivity |]. by intros ? ?%elem_of_nil. }
    destruct Ha as (above & -> & Habove). destruct Hb as (below & -> & Hbelow).
    cbn [bind]. eexists. split; [reflexivity |].
    intros zone. rewrite !elem_of_app. intros [? | [? | ?]]; auto. }
  destruct Hsome as (av & -> & Hav). cbn [bind]. eexists. split; [reflexivity |].
  destruct (decide (av = [])) as [-> | Hav'].
  - rewrite bool_decide_eq_true_2 by done. done.
  - rewrite bool_decide_eq_false_2 by done. done.
Qed.

Lemma odict_get_zone (zone_name : string) (bounds : Z * Z) :
  Py.odict_get Config.DEPTH_ZONES zone_name = Some bounds → zone_name ∈ zone_order.
Proof.
  unfold Config.DEPTH_ZONES, zone_order. cbn [Py.odict_get].
  repeat (match goal with
          | |- context [String.eqb ?a zone_name] =>
              destruct (String.eqb_spec a zone_name) as [<- | _];
              [intros _; apply (bool_decide_unpack _); vm_compute; exact I |]
          end).
  done.
Qed.

Lemma zone_order_cases (zone_name : string) :
  zone_name ∈ zone_order →
  zone_name = "surface" ∨ zone_name = "shallows" ∨ zone_name = "mid_water" ∨
  zone_name = "deep_sea" ∨ zone_name = "abyss".
Proof. unfold zone_order. rewrite !elem_of_cons, elem_of_nil. tauto. Qed.

(** The rows of each zone: 200 rows starting between row 400 (abyss) and
    row 450 (surface). *)
Lemma spawn_fish_band_zone (zone_name : string) :
  zone_name ∈ zone_order →
  ∃ lo, FishManager.spawn_fish_band zone_name = Some (lo, lo + 200) ∧ 400 ≤ lo ≤ 450.
Proof.
  intros H. apply zone_order_cases in H as [-> | [-> | [-> | [-> | ->]]]].
  - exists 450. split; [reflexivity | lia].
  - exists 437. split; [reflexivity | lia].
  - exists 425. split; [reflexivity | lia].
  - exists 412. split; [reflexivity | lia].
  - exists 400. split; [reflexivity | lia].
Qed.

(** What stands behind a spawned fish. *)
Lemma spawn_fish_spawned
    (unlocked_zones : list string) (fish_data : list Fish.data)
    (image_size : Fish.data → Z * Z) (current_depth : Q) (d : FishManager.draws)
    (f : Fish.t) :
  FishManager.spawn_fish unlocked_zones fish_data image_size current_depth d
    = FishManager.Spawned f →
  ∃ zone_name species lo y,
    zone_name ∈ unlocked_zones ∧ zone_name ∈ zone_order ∧
    species ∈ FishManager.spawn_fish_valid_fish fish_data zone_name current_depth ∧
    FishManager.spawn_fish_band zone_name = Some (lo, lo + 200) ∧ 400 ≤ lo ≤ 450 ∧
    lo ≤ y ≤ lo + 200 ∧
    Fish.init_random species (lo, lo + 200) (image_size species)
      (FishManager.dir_draw d) (FishManager.speed_draw d) (FishManager.y_draw d) = Some f ∧
    Fish.rect f = Rect.mk (if Fish.direction f =? -1
                           then Config.SCREEN_WIDTH + (image_size species).1
                           else - (image_size species).1)
                          y (image_size species).1 (image_size species).2 ∧
    (Fish.direction f = -1 ∨ Fish.direction f = 1) ∧
    Fish.speed f = FishManager.speed_draw d ∧
    Fish.caught f = false ∧
    instance_of species f.
Proof.
  unfold FishManager.spawn_fish.
  destruct (decide (unlocked_zones = [])) as [-> | Hne]; [done |].
  rewrite bool_decide_eq_false_2 by done.
  destruct (spawn_fish_available_zones_ok unlocked_zones current_depth Hne)
    as (av & -> & Hav & Hsub).
  destruct (Py.choice (FishManager.zone_draw d) av) as [zone_name |] eqn:Hzone; [| done].
  apply choice_elem in Hzone.
  destruct (Py.odict_get Config.DEPTH_ZONES zone_name) as [bounds |] eqn:Hbounds; [| done].
  apply odict_get_zone in Hbounds.
  destruct (bool_decide _); [done |].
  destruct (Py.choice (FishManager.fish_draw d) _) as [species |] eqn:Hsp; [| done].
  apply choice_elem in Hsp.
  destruct (spawn_fish_band_zone zone_name Hbounds) as (lo & Hband & Hlo).
  rewrite Hband.
  destruct (Fish.init_random _ _ _ _ _ _) as [new_fish |] eqn:Hinit; [| done].
  intros [= <-]. exists zone_name, species, lo.
  unfold Fish.init_random in Hinit. cbn [fst snd] in Hinit.
  destruct (Py.randint (FishManager.y_draw d) lo (lo + 200)) as [y |] eqn:Hy; [| done].
  pose proof (randint_range _ _ _ _ Hy) as Hrange.
  exists y. split; [by apply Hsub |]. split; [done |]. split; [done |].
  split; [done |]. split; [done |]. split; [done |].
  split.
  { unfold Fish.init_random. cbn [fst snd]. by rewrite Hy. }
  destruct (FishManager.dir_draw d mod 2 =? 0)%nat; cbn in Hinit; injection Hinit as <-;
    unfold Fish.init, instance_of; cbn.
  - split; [reflexivity |]. split; [by left |]. repeat split.
  - split; [reflexivity |]. split; [by right |]. repeat split.
Qed.

Lemma randint_some (draw : nat) (a b : Z) :
  a ≤ b → ∃ y, Py.randint draw a b = Some y.
Proof. intros H. unfold Py.randint. destruct (Z.ltb_spec b a); [lia | eauto]. Qed.

Lemma odict_get_zone_order (zone_name : string) :
  zone_name ∈ zone_order → is_Some (Py.odict_get Config.DEPTH_ZONES zone_name).
Proof.
  intros H. apply zone_order_cases in H as [-> | [-> | [-> | [-> | ->]]]];
    vm_compute; eauto.
Qed.

(** Where [spawn_fish] ends when a zone and a species have been found. *)
Lemma spawn_fish_reaches
    (unlocked_zones : list string) (fish_data : list Fish.data)
    (image_size : Fish.data → Z * Z) (current_depth : Q) (d : FishManager.draws) :
  unlocked_zones ≠ [] →
  ∃ available_zones zone_name,
    FishManager.spawn_fish_available_zones unlocked_zones current_depth
      = Ok available_zones ∧
    Py.choice (FishManager.zone_draw d) available_zones = Ok zone_name ∧
    zone_name ∈ unlocked_zones ∧
    match Py.odict_get Config.DEPTH_ZONES zone_name with
    | None =>
        FishManager.spawn_fish unlocked_zones fish_data image_size current_depth d
          = FishManager.NotSpawned
    | Some _ =>
        match Py.choice (FishManager.fish_draw d)
                (FishManager.spawn_fish_valid_fish fish_data zone_name current_depth) with
        | Raise _ =>
            FishManager.spawn_fish_valid_fish fish_data zone_name current_depth = [] ∧
            FishManager.spawn_fish unlocked_zones fish_data image_size current_depth d
              = FishManager.NotSpawned
        | Ok species =>
            ∃ f, FishManager.spawn_fish unlocked_zones fish_data image_size current_depth d
                   = FishManager.Spawned f ∧ instance_of species f
        end
    end.
Proof.
  intros Hne.
  destruct (spawn_fish_available_zones_ok unlocked_zones current_depth Hne)
    as (av & Hav & Hav' & Hsub).
  destruct (choice_nonempty (FishManager.zone_draw d) av Hav') as [zone_name Hzone].
  exists av, zone_name. split; [done |]. split; [done |].
  split; [apply Hsub; by eapply choice_elem |].
  unfold FishManager.spawn_fish. rewrite bool_decide_eq_false_2 by done.
  rewrite Hav, Hzone.
  destruct (Py.odict_get Config.DEPTH_ZONES zone_name) as [bounds |] eqn:Hbounds; [| done].
  apply odict_get_zone in Hbounds.
  set (valid := FishManager.spawn_fish_valid_fish fish_data zone_name current_depth).
  destruct (decide (valid = [])) as [Hempty | Hfull].
  - rewrite bool_decide_eq_true_2 by done. rewrite Hempty. by unfold Py.choice.
  - rewrite bool_decide_eq_false_2 by done.
    destruct (choice_nonempty (FishManager.fish_draw d) valid Hfull) as [species ->].
    destruct (spawn_fish_band_zone zone_name Hbounds) as (lo & -> & Hlo).
    unfold Fish.init_random. cbn [fst snd].
    destruct (randint_some (FishManager.y_draw d) lo (lo + 200) ltac:(lia)) as [y ->].
    cbn. eexists. split; [reflexivity |]. unfold Fish.init, instance_of. by cbn.
Qed.

(** X20. [spawn_fish] raises nothing, whatever the unlocked zones, the
    catalog, the image sizes, the depth and the random draws: it either
    adds a fish or returns without one, and it returns without one at
    once when no zone is unlocked. *)
Theorem spawn_fish_never_raises
    (unlocked_zones : list string) (fish_data : list Fish.data)
    (image_size : Fish.data → Z * Z) (current_depth : Q) (d : FishManager.draws) :
  (∀ exception,
     FishManager.spawn_fish unlocked_zones fish_data image_size current_depth d
       ≠ FishManager.SpawnRaises exception) ∧
  (unlocked_zones = [] →
   FishManager.spawn_fish unlocked_zones fish_data image_size current_depth d
     = FishManager.NotSpawned).
Proof.
  split.
  - intros exception. destruct (decide (unlocked_zones = [])) as [-> | Hne]; [done |].
    destruct (spawn_fish_reaches unlocked_zones fish_data image_size current_depth d Hne)
      as (av & zone_name & _ & _ & _ & H).
    destruct (Py.odict_get Config.DEPTH_ZONES zone_name); [| by rewrite H].
    destruct (Py.choice _ _).
    + destruct H as (f & -> & _). done.
    + destruct H as [_ ->]. done.
  - by intros ->.
Qed.

(** X21. A fish that [spawn_fish] adds is an instance of an entry of the
    catalog; its row is between 400 and 650, it is not caught, it swims
    left or right at the drawn speed and starts just outside the edge it
    swims away from; and at a depth of at most 500 its native zone is one
    of the unlocked zones. *)
Theorem spawn_fish_respects_unlocked
    (unlocked_zones : list string) (fish_data : list Fish.data)
    (image_size : Fish.data → Z * Z) (current_depth : Q) (d : FishManager.draws)
    (f : Fish.t) :
  FishManager.spawn_fish unlocked_zones fish_data image_size current_depth d
    = FishManager.Spawned f →
  (∃ species, species ∈ fish_data ∧ instance_of species f ∧
              Rect.width (Fish.rect f) = (image_size species).1 ∧
              Rect.height (Fish.rect f) = (image_size species).2) ∧
  ((current_depth <= 500)%Q → Fish.depth_range f ∈ unlocked_zones) ∧
  400 ≤ Rect.y (Fish.rect f) ≤ 650 ∧
  Fish.caught f = false ∧
  Fish.speed f = FishManager.speed_draw d ∧
  ((Fish.direction f = 1 ∧ Rect.right (Fish.rect f) = 0) ∨
   (Fish.direction f = -1 ∧
    Rect.left (Fish.rect f) = Config.SCREEN_WIDTH + Rect.width (Fish.rect f))).
Proof.
  intros Hrun.
  destruct (spawn_fish_spawned _ _ _ _ _ _ Hrun)
    as (zone_name & species & lo & y & Hzone & _ & Hsp & _ & Hlo & Hy & _ & Hrect &
        Hdir & Hspeed & Hcaught & Hinst).
  assert (Hin : species ∈ fish_data ∧
                ((current_depth <= 500)%Q → Fish.d_depth_range species = zone_name)).
  { unfold FishManager.spawn_fish_valid_fish in Hsp.
    destruct (Qlt_le_dec 500 current_depth) as [Hdeep | Hshallow].
    - split; [done |]. intros Hle. exfalso. by apply (Qlt_not_le _ _ Hdeep).
    - apply list_elem_of_filter in Hsp as [Hz Hsp]. done. }
  destruct Hin as [Hin Hnative].
  split; [exists species; rewrite Hrect; done |].
  split. { intros Hle. destruct Hinst as (_ & _ & _ & ->). by rewrite (Hnative Hle). }
  rewrite Hrect. unfold Rect.right, Rect.left. cbn.
  split; [lia |]. split; [done |]. split; [done |].
  destruct Hdir as [Hd | Hd]; rewrite Hd; cbn; [right | left]; split; [done | lia | done | lia].
Qed.

Lemma spawn_fish_respects_unlocked_witness :
  ∃ f, FishManager.spawn_fish ["surface"] FishManager.initialize_fish_data
         (fun _ => (40, 20)) 120 (FishManager.mk_draws 3 1 1 2 77) = FishManager.Spawned f ∧
       Fish.name f = "Blue Tang" ∧ Fish.depth_range f = "surface" ∧
       Rect.y (Fish.rect f) = 527.
Proof.
  eexists. split; [vm_compute; reflexivity |].
  match goal with
  | |- Fish.name ?f = _ ∧ _ =>
      destruct (spawn_fish_respects_unlocked ["surface"] FishManager.initialize_fish_data
                  (fun _ => (40, 20)) 120 (FishManager.mk_draws 3 1 1 2 77) f)
        as (_ & Hzone & _)
  end.
  - vm_compute. reflexivity.
  - repeat split.
Defined.

(** X22. With the game's catalog and a non-empty list of unlocked zones
    taken from the zone table, [spawn_fish] always adds a fish: the early
    returns for an unknown zone or a zone without species are never
    taken, whatever the depth and the draws. *)
Theorem spawn_fish_always_spawns
    (unlocked_zones : list string) (image_size : Fish.data → Z * Z)
    (current_depth : Q) (d : FishManager.draws) :
  unlocked_zones ≠ [] →
  (∀ zone, zone ∈ unlocked_zones → zone ∈ zone_order) →
  ∃ f, FishManager.spawn_fish unlocked_zones FishManager.initialize_fish_data
         image_size current_depth d = FishManager.Spawned f.
Proof.
  intros Hne Hzones.
  destruct (spawn_fish_reaches unlocked_zones FishManager.initialize_fish_data
              image_size current_depth d Hne) as (av & zone_name & _ & _ & Hin & H).
  specialize (Hzones _ Hin).
  destruct (odict_get_zone_order zone_name Hzones) as [bounds Hb]. rewrite Hb in H.
  destruct (Py.choice _ _) as [species |].
  - destruct H as (f & Hf & _). eauto.
  - destruct H as [Hempty _]. exfalso. revert Hempty.
    unfold FishManager.spawn_fish_valid_fish.
    destruct (Qlt_le_dec 500 current_depth); [done |].
    apply zone_order_cases in Hzones as [-> | [-> | [-> | [-> | ->]]]]; vm_compute; done.
Qed.

Lemma spawn_fish_always_spawns_witness :
  ∃ f, FishManager.spawn_fish ["surface"; "shallows"] FishManager.initialize_fish_data
         (fun _ => (40, 20)) (301 # 2) (FishManager.mk_draws 5 4 0 1 300)
       = FishManager.Spawned f.
Proof.
  apply (spawn_fish_always_spawns ["surface"; "shallows"]); [done |].
  intros zone Hzone. unfold zone_order.
  apply elem_of_cons in Hzone as [-> | Hzone]; [constructor |].
  apply list_elem_of_singleton in Hzone as ->. do 2 constructor.
Defined.

(** X23. Deeper than 500, every entry of the catalog can be spawned,
    whatever its native zone and whatever zones are unlocked (as long as
    they are zones of the table): for every other draw there is a draw of
    the species that makes [spawn_fish] add an instance of it. *)
Theorem spawn_fish_abyss_any_species
    (unlocked_zones : list string) (fish_data : list Fish.data)
    (image_size : Fish.data → Z * Z) (current_depth : Q) (species : Fish.data)
    (zone_draw dir_draw y_draw : nat) (speed_draw : Q) :
  unlocked_zones ≠ [] →
  (∀ zone, zone ∈ unlocked_zones → zone ∈ zone_order) →
  (500 < current_depth)%Q →
  species ∈ fish_data →
  ∃ fish_draw f,
    FishManager.spawn_fish unlocked_zones fish_data image_size current_depth
      (FishManager.mk_draws zone_draw fish_draw dir_draw speed_draw y_draw)
      = FishManager.Spawned f ∧
    instance_of species f.
Proof.
  intros Hne Hzones Hdeep Hin.
  destruct (choice_any fish_data species Hin) as [n Hn]. exists n.
  destruct (spawn_fish_reaches unlocked_zones fish_data image_size current_depth
              (FishManager.mk_draws zone_draw n dir_draw speed_draw y_draw) Hne)
    as (av & zone_name & _ & _ & Hz & H).
  destruct (odict_get_zone_order zone_name (Hzones _ Hz)) as [bounds Hb]. rewrite Hb in H.
  assert (Hvalid : FishManager.spawn_fish_valid_fish fish_data zone_name current_depth
                   = fish_data).
  { unfold FishManager.spawn_fish_valid_fish.
    destruct (Qlt_le_dec 500 current_depth) as [_ | Hle]; [done |].
    exfalso. by apply (Qlt_not_le _ _ Hdeep). }
  rewrite Hvalid in H. cbn [FishManager.fish_draw] in H. rewrite Hn in H. done.
Qed.

(** At depth 650 with only the surface unlocked, the Kraken of the abyss
    can appear. *)
Lemma spawn_fish_abyss_any_species_witness :
  ∃ fish_draw f,
    FishManager.spawn_fish ["surface"] FishManager.initialize_fish_data
      (fun _ => (40, 20)) 650 (FishManager.mk_draws 0 fish_draw 1 3 10)
      = FishManager.Spawned f ∧
    Fish.name f = "Kraken" ∧ Fish.value f = 300.
Proof.
  destruct (spawn_fish_abyss_any_species ["surface"] FishManager.initialize_fish_data
              (fun _ => (40, 20)) 650
              (Fish.mk_data "Kraken" "fish/kraken.png" "Legendary" 300 "abyss")
              0 1 10 3) as (n & f & Hrun & Hname & _ & Hvalue & _).
  - done.
  - intros zone Hzone. apply list_elem_of_singleton in Hzone as ->. constructor.
  - reflexivity.
  - unfold FishManager.initialize_fish_data. do 8 constructor. constructor.
  - exists n, f. split; [exact Hrun |]. split; [exact Hname | exact Hvalue].
Defined.

(** * Further properties of the shop *)

(** A button of the table is hit exactly inside its rectangle. *)
Lemma button_hit_inside (button_id : string) (x0 y0 : Z) (mouse_pos : Z * Z) :
  Py.odict_get UI.buttons button_id = Some (Rect.mk x0 y0 200 50) →
  ∃ hit, UI.button_hit button_id mouse_pos = Ok hit ∧
         (hit = true ↔ x0 ≤ mouse_pos.1 < x0 + 200 ∧ y0 ≤ mouse_pos.2 < y0 + 50).
Proof.
  intros Hb. unfold UI.button_hit. rewrite Hb. eexists. split; [reflexivity |].
  rewrite collidepoint_within. unfold within. simpl. tauto.
Qed.

(** The test the shop makes before it lets a click through, for a known
    kind. *)
Lemma upgrade_gate (s : GameState.t) (kind : string) (level : Z) :
  kind ∈ upgrade_kinds →
  GameState.upgrades s !! kind = Some level → 0 ≤ level →
  (let* level := Py.dict_getitem (GameState.upgrades s) kind in
   let* costs := Py.dict_getitem Config.UPGRADE_COSTS kind in
   if Py.len costs <=? level then Ok None
   else
     let* cost := Py.list_getitem costs level in
     if GameState.get_coins s <? cost then Ok None else Ok (Some kind)) =
  Ok (match cost_at kind level with
      | Some cost => if decide (cost ≤ GameState.coins s) then Some kind else None
      | None => None
      end).
Proof.
  intros Hk Hlevel Hpos.
  destruct (upgrade_costs_length kind Hk) as (costs & Hcosts & Hlen).
  unfold Py.dict_getitem. rewrite Hlevel, Hcosts. cbn [bind]. rewrite Hlen.
  rewrite (list_getitem_cost kind level costs Hcosts Hpos).
  pose proof (cost_at_defined kind level Hk) as Hdef.
  destruct (Z.leb_spec 5 level).
  - destruct (cost_at kind level) as [c |]; [| done].
    assert (0 ≤ level < 5) by (apply Hdef; eauto). lia.
  - destruct (cost_at kind level) as [cost |].
    + cbn [bind]. unfold GameState.get_coins.
      destruct (Z.ltb_spec (GameState.coins s) cost).
      * by rewrite decide_False by lia.
      * by rewrite decide_True by lia.
    + assert (Hn : ¬ is_Some (None : option Z)) by (intros [? [=]]).
      exfalso. apply Hn, Hdef. lia.
Qed.

(** What a click on the upgrade buttons comes to. *)
Lemma upgrade_click_outcome (s : GameState.t) (mouse_pos : Z * Z) :
  valid_upgrades s →
  ∃ clicked, UI.check_upgrade_buttons s mouse_pos = Ok clicked ∧
    match clicked with
    | Some kind =>
        kind ∈ upgrade_kinds ∧ UI.button_hit kind mouse_pos = Ok true ∧
        ∃ s', GameState.purchase_upgrade kind s = Ok (true, s')
    | None =>
        ∀ kind, kind ∈ upgrade_kinds → UI.button_hit kind mouse_pos = Ok true →
                GameState.purchase_upgrade kind s = Ok (false, s)
    end.
Proof.
  intros Hv.
  assert (Hline : is_Some (GameState.upgrades s !! "line_length")).
  { destruct (valid_upgrades_lookup s "line_length" Hv) as (l & Hl & _);
      [unfold upgrade_kinds; constructor | eauto]. }
  assert (Hone : ∀ kind, kind ∈ upgrade_kinds →
    ∃ gate,
      (let* level := Py.dict_getitem (GameState.upgrades s) kind in
       let* costs := Py.dict_getitem Config.UPGRADE_COSTS kind in
       if Py.len costs <=? level then Ok None
       else
         let* cost := Py.list_getitem costs level in
         if GameState.get_coins s <? cost then Ok None else Ok (Some kind)) = Ok gate ∧
      ((gate = Some kind ∧ ∃ s', GameState.purchase_upgrade kind s = Ok (true, s')) ∨
       (gate = None ∧ GameState.purchase_upgrade kind s = Ok (false, s)))).
  { intros kind Hk.
    destruct (valid_upgrades_lookup s kind Hv Hk) as (level & Hlevel & Hpos).
    rewrite (upgrade_gate s kind level Hk Hlevel Hpos).
    pose proof (purchase_upgrade_known s kind level Hk Hlevel Hpos Hline) as Hrun.
    eexists. split; [reflexivity |].
    destruct (cost_at kind level) as [cost |]; [| by right].
    destruct (decide (cost ≤ GameState.coins s)); [| by right].
    destruct Hrun as (s' & Hs' & _). left. eauto. }
  destruct (Hone "line_length") as (g1 & Hg1 & H1); [unfold upgrade_kinds; repeat constructor |].
  destruct (Hone "hook_capacity") as (g2 & Hg2 & H2); [unfold upgrade_kinds; repeat constructor |].
  destruct (Hone "round_timer") as (g3 & Hg3 & H3); [unfold upgrade_kinds; repeat constructor |].
  destruct (button_hit_inside "line_length" 590 180 mouse_pos eq_refl) as (h1 & Hh1 & Hi1).
  destruct (button_hit_inside "hook_capacity" 590 250 mouse_pos eq_refl) as (h2 & Hh2 & Hi2).
  destruct (button_hit_inside "round_timer" 590 320 mouse_pos eq_refl) as (h3 & Hh3 & Hi3).
  unfold UI.check_upgrade_buttons. cbn [UI.check_upgrade_loop].
  rewrite Hh1, Hh2, Hh3. cbn [bind]. rewrite Hg1, Hg2, Hg3.
  assert (Hex : ∀ kind, kind ∈ upgrade_kinds → UI.button_hit kind mouse_pos = Ok true →
    (kind = "line_length" ∧ h1 = true) ∨ (kind = "hook_capacity" ∧ h2 = true) ∨
    (kind = "round_timer" ∧ h3 = true)).
  { intros kind Hk Hhit. apply upgrade_kinds_cases in Hk as [-> | [-> | ->]].
    - left. rewrite Hh1 in Hhit. by injection Hhit as ->.
    - right. left. rewrite Hh2 in Hhit. by injection Hhit as ->.
    - right. right. rewrite Hh3 in Hhit. by injection Hhit as ->. }
  destruct h1.
  { (* on the line-length button: the other two are not under the pointer *)
    assert (h2 = false) by (destruct h2; [| done]; destruct Hi1 as [Hi1 _], Hi2 as [Hi2 _];
                            specialize (Hi1 eq_refl); specialize (Hi2 eq_refl); lia).
    assert (h3 = false) by (destruct h3; [| done]; destruct Hi1 as [Hi1 _], Hi3 as [Hi3 _];
                            specialize (Hi1 eq_refl); specialize (Hi3 eq_refl); lia).
    subst. eexists. split; [reflexivity |].
    destruct H1 as [[-> Hs'] | [-> Hno]].
    - split; [unfold upgrade_kinds; repeat constructor | by split].
    - intros kind Hk Hhit. destruct (Hex kind Hk Hhit) as [[-> _] | [[_ ?] | [_ ?]]]; done. }
  destruct h2.
  { assert (h3 = false) by (destruct h3; [| done]; destruct Hi2 as [Hi2 _], Hi3 as [Hi3 _];
                            specialize (Hi2 eq_refl); specialize (Hi3 eq_refl); lia).
    subst. eexists. split; [reflexivity |].
    destruct H2 as [[-> Hs'] | [-> Hno]].
    - split; [unfold upgrade_kinds; repeat constructor | by split].
    - intros kind Hk Hhit. destruct (Hex kind Hk Hhit) as [[_ ?] | [[-> _] | [_ ?]]]; done. }
  destruct h3.
  { eexists. split; [reflexivity |].
    destruct H3 as [[-> Hs'] | [-> Hno]].
    - split; [unfold upgrade_kinds; repeat constructor | by split].
    - intros kind Hk Hhit. destruct (Hex kind Hk Hhit) as [[_ ?] | [[_ ?] | [-> _]]]; done. }
  eexists. split; [reflexivity |].
  intros kind Hk Hhit. destruct (Hex kind Hk Hhit) as [[_ ?] | [[_ ?] | [_ ?]]]; done.
Qed.

(** X24. In a valid economy [check_upgrade_buttons] raises nothing, and
    it lets a click through only when the purchase will go through: when
    it names an upgrade, the pointer is on that upgrade's button and
    [purchase_upgrade] of it succeeds; when it names none, every upgrade
    whose button is under the pointer would be refused by
    [purchase_upgrade]. *)
Theorem check_upgrade_buttons_gate (s : GameState.t) (mouse_pos : Z * Z) :
  valid_upgrades s →
  ∃ clicked, UI.check_upgrade_buttons s mouse_pos = Ok clicked ∧
    match clicked with
    | Some kind =>
        kind ∈ upgrade_kinds ∧ UI.button_hit kind mouse_pos = Ok true ∧
        ∃ s', GameState.purchase_upgrade kind s = Ok (true, s')
    | None =>
        ∀ kind, kind ∈ upgrade_kinds → UI.button_hit kind mouse_pos = Ok true →
                GameState.purchase_upgrade kind s = Ok (false, s)
    end.
Proof. apply upgrade_click_outcome. Qed.

(** With 120 coins a click on the line-length button is let through; a
    click on the hook-capacity button (200 coins) is not. *)
Lemma check_upgrade_buttons_gate_witness :
  let s := GameState.add_coins 120 GameState.init in
  UI.check_upgrade_buttons s (600, 200) = Ok (Some "line_length") ∧
  UI.check_upgrade_buttons s (600, 260) = Ok None ∧
  ∃ s', GameState.purchase_upgrade "line_length" s = Ok (true, s').
Proof.
  intros s. split; [reflexivity |]. split; [reflexivity |].
  assert (Hv : valid_upgrades s) by (split; apply (bool_decide_unpack _); vm_compute; exact I).
  destruct (check_upgrade_buttons_gate s (600, 200) Hv) as (clicked & Hrun & H).
  vm_compute in Hrun. injection Hrun as <-. destruct H as (_ & _ & Hs'). exact Hs'.
Defined.

Lemma shop_buttons_cases (button_id : string) :
  button_id ∈ shop_buttons →
  button_id = "line_length" ∨ button_id = "hook_capacity" ∨ button_id = "round_timer" ∨
  button_id = "start" ∨ button_id = "reset".
Proof. unfold shop_buttons. rewrite !elem_of_cons, elem_of_nil. tauto. Qed.

(** Where each button of the shop is. *)
Lemma shop_button_area (button_id : string) (mouse_pos : Z * Z) :
  button_id ∈ shop_buttons →
  UI.button_hit button_id mouse_pos = Ok true →
  (button_id = "line_length" ∧ 590 ≤ mouse_pos.1 < 790 ∧ 180 ≤ mouse_pos.2 < 230) ∨
  (button_id = "hook_capacity" ∧ 590 ≤ mouse_pos.1 < 790 ∧ 250 ≤ mouse_pos.2 < 300) ∨
  (button_id = "round_timer" ∧ 590 ≤ mouse_pos.1 < 790 ∧ 320 ≤ mouse_pos.2 < 370) ∨
  (button_id = "start" ∧ 300 ≤ mouse_pos.1 < 500 ∧ 450 ≤ mouse_pos.2 < 500) ∨
  (button_id = "reset" ∧ 300 ≤ mouse_pos.1 < 500 ∧ 515 ≤ mouse_pos.2 < 565).
Proof.
  intros Hin Hhit. apply shop_buttons_cases in Hin as [-> | [-> | [-> | [-> | ->]]]].
  - destruct (button_hit_inside "line_length" 590 180 mouse_pos eq_refl) as (h & Hh & Hi).
    rewrite Hh in Hhit. injection Hhit as ->. left. split; [done |]. by apply Hi.
  - destruct (button_hit_inside "hook_capacity" 590 250 mouse_pos eq_refl) as (h & Hh & Hi).
    rewrite Hh in Hhit. injection Hhit as ->. right. left. split; [done |]. by apply Hi.
  - destruct (button_hit_inside "round_timer" 590 320 mouse_pos eq_refl) as (h & Hh & Hi).
    rewrite Hh in Hhit. injection Hhit as ->. do 2 right. left. split; [done |]. by apply Hi.
  - destruct (button_hit_inside "start" 300 450 mouse_pos eq_refl) as (h & Hh & Hi).
    rewrite Hh in Hhit. injection Hhit as ->. do 3 right. left. split; [done |]. by apply Hi.
  - destruct (button_hit_inside "reset" 300 515 mouse_pos eq_refl) as (h & Hh & Hi).
    rewrite Hh in Hhit. injection Hhit as ->. do 4 right. split; [done |]. by apply Hi.
Qed.

Lemma shop_buttons_disjoint (a b : string) (mouse_pos : Z * Z) :
  a ∈ shop_buttons → b ∈ shop_buttons →
  UI.button_hit a mouse_pos = Ok true → UI.button_hit b mouse_pos = Ok true →
  a = b.
Proof.
  intros Ha Hb Hhita Hhitb.
  destruct (shop_button_area a mouse_pos Ha Hhita)
    as [[-> ?] | [[-> ?] | [[-> ?] | [[-> ?] | [-> ?]]]]];
  destruct (shop_button_area b mouse_pos Hb Hhitb)
    as [[-> ?] | [[-> ?] | [[-> ?] | [[-> ?] | [-> ?]]]]];
  (reflexivity || (exfalso; lia)).
Qed.

(** X25. No two buttons of the shop (the three upgrades, start, reset)
    overlap: a pointer position hits at most one of them, so one click in
    the shop triggers at most one of purchase, start and reset. *)
Theorem shop_buttons_exclusive (a b : string) (mouse_pos : Z * Z) :
  a ∈ shop_buttons → b ∈ shop_buttons →
  UI.button_hit a mouse_pos = Ok true → UI.button_hit b mouse_pos = Ok true →
  a = b.
Proof. apply shop_buttons_disjoint. Qed.

Lemma shop_buttons_exclusive_witness :
  UI.button_hit "start" (310, 460) = Ok true ∧ UI.button_hit "reset" (310, 460) = Ok false.
Proof.
  split; [reflexivity |].
  destruct (UI.button_hit "reset" (310, 460)) as [[|] |] eqn:Hreset; [| done | done].
  exfalso.
  assert (Heq : "start" = "reset"); [| discriminate Heq].
  apply (shop_buttons_exclusive "start" "reset" (310, 460)).
  - unfold shop_buttons. do 3 constructor. constructor.
  - unfold shop_buttons. do 4 constructor. constructor.
  - reflexivity.
  - exact Hreset.
Defined.

(** X26. The hover state of the shop is computed over all six buttons, the
    continue button of the results screen first, and that button
    overlaps the reset button: the hover state is "reset" only on the
    lower fifteen rows of the reset button (rows 550..564), while on its
    upper thirty-five rows (515..549) it is "continue" although a click
    there does reset the progress. *)
Theorem hover_shadows_reset (mouse_pos : Z * Z) :
  (UI.update_shop_hover mouse_pos = Some "reset" ↔
   300 ≤ mouse_pos.1 < 500 ∧ 550 ≤ mouse_pos.2 < 565) ∧
  (300 ≤ mouse_pos.1 < 500 ∧ 515 ≤ mouse_pos.2 < 550 →
   UI.update_shop_hover mouse_pos = Some "continue" ∧
   UI.check_reset_button mouse_pos = Ok true).
Proof.
  unfold UI.update_shop_hover, UI.check_reset_button, UI.button_hit.
  change (Py.odict_get UI.buttons "reset") with (Some (Rect.mk 300 515 200 50)).
  change UI.buttons with
    [ ("continue", Rect.mk 300 500 200 50); ("start", Rect.mk 300 450 200 50);
      ("reset", Rect.mk 300 515 200 50); ("line_length", Rect.mk 590 180 200 50);
      ("hook_capacity", Rect.mk 590 250 200 50); ("round_timer", Rect.mk 590 320 200 50) ].
  cbn [UI.hover_loop].
  repeat match goal with
  | |- context [Rect.collidepoint ?r mouse_pos] =>
      let H := fresh "H" in
      destruct (Rect.collidepoint r mouse_pos) eqn:H;
      [ apply collidepoint_within in H
      | apply not_true_iff_false in H; rewrite collidepoint_within in H ];
      unfold within in H; cbn in H
  end;
  (split;
   [ split;
     [ intros Heq; first [discriminate Heq | lia]
     | intros Hin; first [reflexivity | exfalso; lia] ]
   | intros Hin; split; first [reflexivity | exfalso; lia] ]).
Qed.

(** * Further properties of the screens *)








(** ** Persistence through the game *)

Lemma quit_restart (ses : Game.session) :
  Game.init_game_state (Game.save_file (Game.quit_game ses))
    = Game.game_state (Game.game ses).
Proof.
  unfold Game.init_game_state, Game.quit_game. cbn [Game.save_file].
  destruct (Game.game_state (Game.game ses)). reflexivity.
Qed.

(** X28. The economy reaches the save file on quitting and on a reset,
    and at no other click.  A game that quits and is started again has the
    economy it quit with.  A click that returns and is on the reset button
    of the shop leaves the initial economy both in the game and in the
    save file, so that a restart without quitting begins from it; any
    other click (outside the shop, or in the shop off the reset button,
    a purchase included) leaves the save file as it was. *)
Theorem progress_saved_on_quit_and_reset (ses : Game.session) :
  Game.init_game_state (Game.save_file (Game.quit_game ses))
    = Game.game_state (Game.game ses) ∧
  ∀ (mouse_pos : Z * Z) (now : Z) (ses' : Game.session),
    Game.handle_click mouse_pos now ses = Ok ses' →
    (Game.current_screen (Game.game ses) = Game.SHOP →
     UI.button_hit "reset" mouse_pos = Ok true →
     Game.game_state (Game.game ses') = GameState.init ∧
     Game.save_file ses' = Some (GameState.save_game GameState.init) ∧
     Game.init_game_state (Game.save_file ses') = GameState.init) ∧
    (Game.current_screen (Game.game ses) ≠ Game.SHOP ∨
     UI.button_hit "reset" mouse_pos = Ok false →
     Game.save_file ses' = Game.save_file ses).
Proof.
  split; [apply quit_restart |].
  intros mouse_pos now ses' Hrun. unfold Game.handle_click in Hrun.
  destruct (Game.current_screen (Game.game ses)) eqn:Hscreen.
  - injection Hrun as <-. split; [done |]. done.
  - destruct (UI.check_continue_button mouse_pos) as [[] |]; [| | done];
      injection Hrun as <-; (split; [done |]); done.
  - unfold UI.check_start_button, UI.check_reset_button in Hrun.
    destruct (UI.check_upgrade_buttons _ mouse_pos) as [clicked |]; [| done].
    cbn [bind] in Hrun.
    assert (Hmid : ∃ ses1, Game.save_file ses1 = Game.save_file ses ∧
              (let* start := UI.button_hit "start" mouse_pos in
               let ses2 :=
                 if start
                 then Game.start_round now
                        (Game.set_game (Game.set_screen Game.MAIN_GAME (Game.game ses1)) ses1)
                 else ses1 in
               let* reset := UI.button_hit "reset" mouse_pos in
               if reset then
                 let gs := GameState.reset_progress (Game.game_state (Game.game ses2)) in
                 let ses3 := Game.set_game (Game.set_game_state gs (Game.game ses2)) ses2 in
                 let ses3 := Game.mk_session (Game.game ses3)
                               (Some (GameState.save_game gs)) (Game.sounds ses3) in
                 Ok (Game.play_sfx "reset" ses3)
               else Ok ses2) = Ok ses').
    { destruct clicked as [upgrade_id |].
      - destruct (GameState.purchase_upgrade upgrade_id _) as [r |]; [| done].
        cbn [bind] in Hrun. eexists. split; [| exact Hrun]. reflexivity.
      - cbn [bind] in Hrun. by exists ses. }
    clear Hrun. destruct Hmid as (ses1 & Hfile & Hrun).
    destruct (UI.button_hit "start" mouse_pos) as [start |]; [| done].
    cbn [bind] in Hrun.
    destruct (UI.button_hit "reset" mouse_pos) as [reset |]; [| done].
    cbn [bind] in Hrun.
    destruct reset; injection Hrun as <-.
    + split; [| intros [? | ?]; done]. intros _ _. by destruct start.
    + split; [done |]. intros _. by destruct start.
Qed.

(** Buying the first line-length upgrade in the shop leaves the (absent)
    save file as it was, so that a restart without quitting begins from
    the initial economy although the game holds the purchase. *)
Lemma progress_saved_on_quit_and_reset_witness :
  ∃ ses', Game.handle_click (600, 200) 0 shop_visit = Ok ses' ∧
          GameState.upgrades (Game.game_state (Game.game ses')) !! "line_length" = Some 1 ∧
          Game.init_game_state (Game.save_file ses') = GameState.init.
Proof.
  eexists. split; [vm_compute; reflexivity |]. split; [reflexivity |].
  match goal with
  | |- Game.init_game_state (Game.save_file ?s') = _ =>
      destruct (progress_saved_on_quit_and_reset shop_visit) as [_ H];
      destruct (H (600, 200) 0 s') as [_ Hkeep]
  end.
  - vm_compute. reflexivity.
  - rewrite Hkeep; [reflexivity |]. right. reflexivity.
Defined.

(** ** The two caught lists *)

Lemma frame_keeps_lists (w w' : FishManager.world) :
  frame w w' →
  FishingLine.descending (FishManager.w_line w) = true →
  FishingLine.caught_fish (FishManager.w_line w)
    = FishManager.caught_fish (FishManager.w_self w) →
  FishingLine.descending (FishManager.w_line w') = true ∧
  FishingLine.caught_fish (FishManager.w_line w')
    = FishManager.caught_fish (FishManager.w_self w') ∧
  FishManager.caught_fish (FishManager.w_self w)
    `prefix_of` FishManager.caught_fish (FishManager.w_self w').
Proof.
  intros [game_state mouse_pos rod_pos w0 w1 line h all_fish caught_any Hup Hcheck]
         Hdesc Hsync.
  assert (Hline : FishingLine.descending line = true ∧
                  FishingLine.caught_fish line = FishingLine.caught_fish (FishManager.w_line w0)).
  { destruct (update_returned _ _ _ _ Hup) as (_ & _ & _ & Hkeep).
    destruct (Hkeep Hdesc) as (Hd & _ & Hc). done. }
  destruct Hline as [Hd Hc].
  unfold FishManager.check_catches in Hcheck.
  destruct (check_loop_lists _ _ _ _ _ _ _ _ Hcheck) as (new & _ & Hl & Hs & _).
  cbn [FishManager.w_line FishManager.w_self FishManager.caught_fish] in Hl, Hs.
  rewrite Hl, Hs. cbn [FishingLine.set_caught_fish FishingLine.descending
                       FishingLine.caught_fish].
  split; [done |]. split; [by rewrite Hc, Hsync |]. by apply prefix_app_r.
Qed.

(** X29. From the start of a round on, through any number of frames, the
    line keeps descending (its retracting branch, which would empty the
    hook alone, is never taken) and the fish on the hook are exactly the
    fish of the manager's caught list, in the same order: what the
    capacity test counts is what [calculate_round_value] pays for.  A
    frame only appends to the list. *)
Theorem hook_and_round_list_agree
    (now : Z) (ses : Game.session) (h : heap) (w w' : FishManager.world) :
  rtc frame (round_start now ses h) w →
  rtc frame w w' →
  FishingLine.descending (FishManager.w_line w') = true ∧
  FishingLine.caught_fish (FishManager.w_line w')
    = FishManager.caught_fish (FishManager.w_self w') ∧
  FishManager.caught_fish (FishManager.w_self w)
    `prefix_of` FishManager.caught_fish (FishManager.w_self w').
Proof.
  assert (Hinv : ∀ a b, rtc frame a b →
            FishingLine.descending (FishManager.w_line a) = true →
            FishingLine.caught_fish (FishManager.w_line a)
              = FishManager.caught_fish (FishManager.w_self a) →
            FishingLine.descending (FishManager.w_line b) = true ∧
            FishingLine.caught_fish (FishManager.w_line b)
              = FishManager.caught_fish (FishManager.w_self b) ∧
            FishManager.caught_fish (FishManager.w_self a)
              `prefix_of` FishManager.caught_fish (FishManager.w_self b)).
  { intros a b Hab. induction Hab as [a | a b c Hstep _ IH]; intros Hd Hs.
    - done.
    - destruct (frame_keeps_lists a b Hstep Hd Hs) as (Hd1 & Hs1 & Hp1).
      destruct (IH Hd1 Hs1) as (Hd2 & Hs2 & Hp2).
      split; [done |]. split; [done |]. by etrans. }
  intros Hstart Hrest.
  destruct (Hinv _ _ Hstart eq_refl eq_refl) as (Hd & Hs & _).
  exact (Hinv _ _ Hrest Hd Hs).
Qed.

(** One frame after the start of a round, over the two free fish of the
    crowded hook and with the mouse on them: both are hooked. *)
Lemma hook_and_round_list_agree_witness :
  ∃ w', frame (round_start 0 shop_visit (FishManager.w_heap crowded_hook)) w' ∧
        FishManager.caught_fish (FishManager.w_self w') = [3; 4]%nat ∧
        FishingLine.caught_fish (FishManager.w_line w')
          = FishManager.caught_fish (FishManager.w_self w').
Proof.
  assert (H : ∃ w', frame (round_start 0 shop_visit (FishManager.w_heap crowded_hook)) w' ∧
                    FishManager.caught_fish (FishManager.w_self w') = [3; 4]%nat).
  { eexists. split.
    - eapply (frame_intro (Some GameState.init) (400, 310) (400, 100) _ _ _
                (FishManager.w_heap crowded_hook)
                (FishManager.all_fish (FishManager.w_self crowded_hook))).
      + vm_compute. reflexivity.
      + vm_compute. reflexivity.
    - reflexivity. }
  destruct H as (w' & H & Hlist). exists w'. split; [exact H |]. split; [exact Hlist |].
  apply (hook_and_round_list_agree 0 shop_visit (FishManager.w_heap crowded_hook)
           (round_start 0 shop_visit (FishManager.w_heap crowded_hook)) w').
  - apply rtc_refl.
  - by apply rtc_once.
Defined.
